(** * prod-desc-gen: the serverless handlers, embedded and verified

    The repository is three Vercel functions written in JavaScript:
    [api/generate.js] (rate limiter, response cache, input validation, the
    lead upsert, the LLM call and the email sequence), [api/health.js] and
    [api/unsubscribe.js].  Each is embedded below in a module of its own,
    after a module [Js] for the few pieces of the JavaScript run time the
    handlers rely on: strings of UTF-16 code units with [trim], [slice],
    [toLowerCase] and [replace], anchored regular expressions, values with
    truthiness and [typeof], and completions that either return or throw.

    A handler is a computation over the state of its process (the two maps of
    [api/generate.js]) that records what it does to the outside world.  What
    the outside world answers (the clock, [Math.random], the environment
    variables, how each awaited call settles) is an argument of the run.

    The definitions come first: the run time, the three handlers, the
    observations made on runs, and concrete requests.  The properties follow:
    facts about strings and regular expressions, then, per handler, the
    lemmas and the claims of the specification. *)

From Stdlib Require Import ZArith NArith List Bool Ascii String Floats Lia.
From stdpp Require Import base option list gmap.
Import ListNotations.
Local Open Scope Z_scope.

(* ===================================================================== *)
(** * The JavaScript run time used by the handlers *)
(* ===================================================================== *)

Module Js.

(** A JavaScript string is a sequence of UTF-16 code units. *)
Abbreviation jsstring := (list N).

(** Source literals are ASCII; [js "abc"] is the string of their code units. *)
Definition js (s : string) : jsstring :=
  map N_of_ascii (list_ascii_of_string s).
Arguments js : simpl never.

(** The code unit of an ASCII character literal. *)
Definition code (a : ascii) : N := N_of_ascii a.

(** [s.length] *)
Definition jslength (s : jsstring) : Z := Z.of_nat (length s).

(** ** Character classes *)

Definition in_range (lo hi c : N) : bool := ((lo <=? c) && (c <=? hi))%N.

(** WhiteSpace and LineTerminator of ECMA-262: what [trim] strips and what
    [\s] matches. *)
Definition isWhiteSpace (c : N) : bool :=
  in_range 0x09 0x0D c || (c =? 0x20)%N || (c =? 0xA0)%N || (c =? 0x1680)%N
  || in_range 0x2000 0x200A c || (c =? 0x2028)%N || (c =? 0x2029)%N
  || (c =? 0x202F)%N || (c =? 0x205F)%N || (c =? 0x3000)%N || (c =? 0xFEFF)%N.

(** [[\x00-\x1F\x7F]] *)
Definition isControl (c : N) : bool := in_range 0x00 0x1F c || (c =? 0x7F)%N.

(** [[<>]] *)
Definition isAngle (c : N) : bool := (c =? 0x3C)%N || (c =? 0x3E)%N.

Definition isUpper (c : N) : bool := in_range 0x41 0x5A c.
Definition isLower (c : N) : bool := in_range 0x61 0x7A c.
Definition isDigit (c : N) : bool := in_range 0x30 0x39 c.
Definition isASCII (c : N) : bool := (c <=? 0x7F)%N.

(** Membership of a code unit in a literal set of ASCII characters. *)
Definition oneOf (set : string) (c : N) : bool :=
  existsb (N.eqb c) (js set).

(** ** String methods *)

(** [s.trimStart()], [s.trimEnd()], [s.trim()] *)
Fixpoint trimStart (s : jsstring) : jsstring :=
  match s with
  | c :: s' => if isWhiteSpace c then trimStart s' else s
  | [] => []
  end.

Definition trimEnd (s : jsstring) : jsstring := rev (trimStart (rev s)).

Definition trim (s : jsstring) : jsstring := trimEnd (trimStart s).

(** [s.slice(0, n)] for a non-negative literal [n] *)
Definition slice0 (n : nat) (s : jsstring) : jsstring := firstn n s.

(** [s.replace(/[class]/g, '')] *)
Definition removeAll (class : N -> bool) (s : jsstring) : jsstring :=
  List.filter (fun c => negb (class c)) s.

(** [s.split(',')[0]]: the part before the first separator. *)
Fixpoint beforeFirst (sep : N) (s : jsstring) : jsstring :=
  match s with
  | [] => []
  | c :: s' => if (c =? sep)%N then [] else c :: beforeFirst sep s'
  end.

(** [s.includes(sub)] *)
Fixpoint startsWith (sub s : jsstring) : bool :=
  match sub, s with
  | [], _ => true
  | _ :: _, [] => false
  | a :: sub', c :: s' => (a =? c)%N && startsWith sub' s'
  end.

Fixpoint includes (s sub : jsstring) : bool :=
  startsWith sub s ||
  match s with
  | [] => false
  | _ :: s' => includes s' sub
  end.

Definition lowerASCII (c : N) : N := if isUpper c then (c + 32)%N else c.

(** [s.toLowerCase()].  On a string of ASCII code units it maps [A-Z] to
    [a-z]; on any other string it is the Unicode default lower-casing, which
    is taken as the parameter [unicodeLower]. *)
Definition toLowerCase (unicodeLower : jsstring -> jsstring) (s : jsstring)
  : jsstring :=
  if forallb isASCII s then map lowerASCII s else unicodeLower s.

(** ** Regular expressions

    The handlers only use anchored patterns ([^...$], no flags), so
    [re.test(s)] is a match of the whole string.  Matching is by Brzozowski
    derivatives over code units. *)

Inductive regex : Type :=
| Void : regex                       (* matches nothing *)
| Eps : regex                        (* the empty string *)
| Class (f : N -> bool) : regex      (* one code unit of a class *)
| Seq (r1 r2 : regex) : regex
| Alt (r1 r2 : regex) : regex
| Star (r : regex) : regex.

Definition Plus (r : regex) : regex := Seq r (Star r).
Definition Chr (c : N) : regex := Class (N.eqb c).

Fixpoint nullable (r : regex) : bool :=
  match r with
  | Void => false
  | Eps => true
  | Class _ => false
  | Seq r1 r2 => nullable r1 && nullable r2
  | Alt r1 r2 => nullable r1 || nullable r2
  | Star _ => true
  end.

Fixpoint deriv (c : N) (r : regex) : regex :=
  match r with
  | Void => Void
  | Eps => Void
  | Class f => if f c then Eps else Void
  | Seq r1 r2 =>
      if nullable r1
      then Alt (Seq (deriv c r1) r2) (deriv c r2)
      else Seq (deriv c r1) r2
  | Alt r1 r2 => Alt (deriv c r1) (deriv c r2)
  | Star r1 => Seq (deriv c r1) (Star r1)
  end.

Fixpoint re_test (r : regex) (s : jsstring) : bool :=
  match s with
  | [] => nullable r
  | c :: s' => re_test (deriv c r) s'
  end.

(** Every class of [r] is included in [P]. *)
Fixpoint over (P : N -> bool) (r : regex) : Prop :=
  match r with
  | Class f => forall c : N, f c = true -> P c = true
  | Seq r1 r2 | Alt r1 r2 => over P r1 /\ over P r2
  | Star r1 => over P r1
  | Void | Eps => True
  end.

(** A syntactic test for the empty language. *)
Fixpoint void (r : regex) : bool :=
  match r with
  | Void => true
  | Seq r1 r2 => void r1 || void r2
  | Alt r1 r2 => void r1 && void r2
  | _ => false
  end.

(** ** Values of a parsed JSON body *)

Inductive jsval : Type :=
| JUndefined                 (* property absent *)
| JNull
| JBool (b : bool)
| JNum (x : float)
| JStr (s : jsstring)
| JObject.                   (* an array or an object *)

(** [!!v] *)
Definition truthy (v : jsval) : bool :=
  match v with
  | JUndefined | JNull => false
  | JBool b => b
  | JNum x => negb (PrimFloat.eqb x 0%float || PrimFloat.is_nan x)
  | JStr s => negb (bool_decide (s = []))
  | JObject => true
  end.

(** [typeof v === 'string'] *)
Definition isString (v : jsval) : bool :=
  match v with JStr _ => true | _ => false end.

(** Truthiness of an optional string such as [process.env.X] or a header:
    [undefined] and [''] are falsy. *)
Definition truthyStr (o : option jsstring) : bool :=
  match o with
  | Some (_ :: _) => true
  | _ => false
  end.

(** [a || b] on optional strings with a string default on the right. *)
Definition orElse (o : option jsstring) (d : jsstring) : jsstring :=
  match o with
  | Some (c :: s) => c :: s
  | _ => d
  end.

(** ** What a request carries

    [req.body] as the handlers meet it: an object whose properties they
    destructure, or [undefined] (no body was parsed) or [null] (the JSON text
    [null]), on which destructuring throws.  A body that is a string, a
    number or a boolean destructures like an object without the property. *)
Inductive Payload (A : Type) : Type :=
| NoBody
| NullBody
| Object (a : A).
Arguments NoBody {A}.
Arguments NullBody {A}.
Arguments Object {A} a.

(** The end of the message of the TypeError that destructuring [undefined]
    or [null] throws. *)
Definition asItIs (isNull : bool) : jsstring :=
  if isNull then js "as it is null." else js "as it is undefined.".

(** A value received where a string is expected: a string, or any other
    value (a number, a boolean, [null], an object, or an array such as the
    one a repeated query parameter or a JSON array gives).  Of a value that
    is not a string the handlers use the truthiness and the conversion to a
    string that [RegExp.prototype.test] performs (for an array, its elements
    joined by commas); such a value has no string methods. *)
Inductive Received : Type :=
| Text (s : jsstring)
| Other (isTruthy : bool) (asString : jsstring).

(** [!!v] *)
Definition truthyReceived (v : Received) : bool :=
  match v with
  | Text s => negb (bool_decide (s = []))
  | Other isTruthy _ => isTruthy
  end.

(** [String(v)] *)
Definition toString (v : Received) : jsstring :=
  match v with
  | Text s => s
  | Other _ asString => asString
  end.

(** ** Errors and completions *)

Record error : Type := mkError { name : jsstring; message : jsstring }.

Definition Error (msg : jsstring) : error := mkError (js "Error") msg.
Definition TypeError (msg : jsstring) : error := mkError (js "TypeError") msg.

(** The completion of an evaluation: a value, or a thrown error. *)
Inductive completion (A : Type) : Type :=
| Normal (a : A)
| Throw (e : error).
Arguments Normal {A} a.
Arguments Throw {A} e.

#[export] Instance completion_ret : MRet completion := fun A a => Normal a.

#[export] Instance completion_bind : MBind completion := fun A B k m =>
  match m with
  | Normal a => k a
  | Throw e => Throw e
  end.

(** ** Computations with effects

    A computation over a state [S] (process state and the record of what was
    done to the outside world) that returns or throws. *)
Definition Eff (S A : Type) : Type := S -> completion A * S.

#[export] Instance Eff_ret {S} : MRet (Eff S) := fun A a w => (Normal a, w).

#[export] Instance Eff_bind {S} : MBind (Eff S) := fun A B k m w =>
  match m w with
  | (Normal a, w') => k a w'
  | (Throw e, w') => (Throw e, w')
  end.

Definition throw {S A} (e : error) : Eff S A := fun w => (Throw e, w).

(** [try { m } catch (e) { h e }] *)
Definition try_catch {S A} (m : Eff S A) (h : error -> Eff S A) : Eff S A :=
  fun w =>
    match m w with
    | (Normal a, w') => (Normal a, w')
    | (Throw e, w') => h e w'
    end.

(** [await p] for a promise that settles as [o]; also the evaluation of a
    pure expression that completes as [o]. *)
Definition await {S A} (o : completion A) : Eff S A := fun w => (o, w).

(** ** Objects with string-valued properties, in insertion order *)

Abbreviation obj := (list (jsstring * jsstring)).

(** [o[key]]: [None] is [undefined]. *)
Fixpoint getProp {V} (o : list (jsstring * V)) (key : jsstring) : option V :=
  match o with
  | [] => None
  | (k, v) :: o' => if bool_decide (k = key) then Some v else getProp o' key
  end.

(** [o[key] = v] *)
Fixpoint setProp {V} (o : list (jsstring * V)) (key : jsstring) (v : V)
  : list (jsstring * V) :=
  match o with
  | [] => [(key, v)]
  | (k, v') :: o' =>
      if bool_decide (k = key) then (k, v) :: o' else (k, v') :: setProp o' key v
  end.

(** [Object.values(o)] *)
Definition values {V} (o : list (jsstring * V)) : list V := map snd o.

(** [a.some(f)] for a callback that may throw: the scan stops at the first
    truthy result and at the first exception. *)
Fixpoint some {A} (f : A -> completion bool) (a : list A) : completion bool :=
  match a with
  | [] => Normal false
  | x :: a' =>
      match f x with
      | Normal true => Normal true
      | Normal false => some f a'
      | Throw e => Throw e
      end
  end.

End Js.

Import Js.

(* ===================================================================== *)
(** * api/generate.js *)
(* ===================================================================== *)

Module Generate.

(** ** Process state and constants *)

Definition RATE_LIMIT_WINDOW : Z := 60 * 1000.
Definition RATE_LIMIT_MAX_REQUESTS : Z := 5.
Definition CACHE_TTL : Z := 5 * 60 * 1000.

(** A value of [responseCache]: [{ description, timestamp }]. *)
Record CacheItem : Type := mkItem { description : jsstring; timestamp : Z }.

(** ** The rate limiter

    [now] is what [Date.now()] returns in the call and [random] what
    [Math.random()] returns.  A rejected call leaves the map as it is; an
    admitted one stores the filtered window with [now] pushed at its end and,
    when [random < 0.01], sweeps every key of the map. *)

Definition inWindow (now t : Z) : bool := now - t <? RATE_LIMIT_WINDOW.

Definition sweep (now : Z) (timestamps : list Z) : option (list Z) :=
  let valid := List.filter (inWindow now) timestamps in
  if (Z.of_nat (length valid) =? 0) then None else Some valid.

(** The double nearest to [0.01]. *)
Definition onePercent : float := 0x1.47ae147ae147bp-7%float.

Definition checkRateLimit (now : Z) (random : float) (ip : jsstring)
    (rateLimitMap : gmap jsstring (list Z)) : bool * gmap jsstring (list Z) :=
  let requests := default [] (rateLimitMap !! ip) in
  let validRequests := List.filter (inWindow now) requests in
  if (Z.of_nat (length validRequests) >=? RATE_LIMIT_MAX_REQUESTS) then
    (false, rateLimitMap)
  else
    let validRequests := validRequests ++ [now] in
    let rateLimitMap := <[ip := validRequests]> rateLimitMap in
    if PrimFloat.ltb random onePercent then
      (true, omap (sweep now) rateLimitMap)
    else
      (true, rateLimitMap).

(** ** The response cache *)

Definition expired (now : Z) (value : CacheItem) : bool :=
  now - timestamp value >? CACHE_TTL.

(** [cleanCache]: every entry that is expired at [now] is deleted. *)
Definition cleanCache (now : Z) (responseCache : gmap jsstring CacheItem)
  : gmap jsstring CacheItem :=
  filter (fun kv => expired now kv.2 = false) responseCache.

(** ** Requests *)

Module Body.
(** The three properties the handler reads from [req.body]. *)
Record t : Type := mk { productName : jsval; productFeatures : jsval; email : jsval }.
End Body.

Module Data.
(** [validation.data] *)
Record t : Type := mk { productName : jsstring; productFeatures : jsstring; email : jsstring }.
End Data.

Record Request : Type := mkRequest {
  method : jsstring;
  x_request_id : option jsstring;      (* req.headers['x-request-id'] *)
  x_forwarded_for : option jsstring;   (* req.headers['x-forwarded-for'] *)
  x_real_ip : option jsstring;         (* req.headers['x-real-ip'] *)
  remoteAddress : option jsstring;     (* req.connection?.remoteAddress *)
  body : Payload Body.t                (* req.body *)
}.

Definition getClientIP (req : Request) : jsstring :=
  orElse (beforeFirst (code ",") <$> x_forwarded_for req)
    (orElse (x_real_ip req)
       (orElse (remoteAddress req) (js "unknown"))).

(** ** Input validation and sanitization *)

Inductive Validation : Type :=
| Invalid (error : jsstring)     (* { valid: false, error } *)
| Valid (data : Data.t).         (* { valid: true, data } *)

(** [[a-zA-Z0-9.!#$%&'*+/=?^_`{|}~-]] *)
Definition localChar (c : N) : bool :=
  isLower c || isUpper c || isDigit c || oneOf ".!#$%&'*+/=?^_`{|}~-" c.

(** [[a-zA-Z0-9-]] *)
Definition domainChar (c : N) : bool :=
  isLower c || isUpper c || isDigit c || (c =? code "-")%N.

(** [/^[a-zA-Z0-9.!#$%&'*+/=?^_`{|}~-]+@[a-zA-Z0-9-]+(?:\.[a-zA-Z0-9-]+)*$/] *)
Definition emailRegex : regex :=
  Seq (Plus (Class localChar))
    (Seq (Chr (code "@"))
       (Seq (Plus (Class domainChar))
          (Star (Seq (Chr (code ".")) (Plus (Class domainChar)))))).

Definition sanitizeText (text : jsstring) : jsstring :=
  trim (removeAll isAngle (removeAll isControl text)).

(** ** Effects

    What the handler does to the process state and to the outside world is
    recorded, in program order, as a list of events: lines written by
    [logEvent], operations on [responseCache], and calls to the three
    service clients ([supabase], [model], [resend]). *)

Inductive Level : Type := INFO | WARN | ERROR.

(** The arguments of [getLLMPrompt]; the prompt text is a fixed template
    around them. *)
Record Prompt : Type := getLLMPrompt { prompt_productName : jsstring; prompt_productFeatures : jsstring }.

(** The [html] of the three email templates, by template and arguments. *)
Inductive Html : Type :=
| immediateHtml (description email : jsstring)
| twoHourHtml (email : jsstring)
| sixHourHtml (stripeLink email : jsstring).

Record Template : Type := mkTemplate { subject : jsstring; html : Html }.

Module emailTemplates.
Definition immediate (description email : jsstring) : Template :=
  {| subject := js "Here's your free AI-generated description!";
     html := immediateHtml description email |}.
Definition twoHour (email : jsstring) : Template :=
  {| subject := js "Are your other product descriptions costing you sales?";
     html := twoHourHtml email |}.
Definition sixHour (stripeLink email : jsstring) : Template :=
  {| subject := js "One-Time Offer: We'll Rewrite Your Entire Catalog for $500";
     html := sixHourHtml stripeLink email |}.
End emailTemplates.

(** The argument of [resend.emails.send]; [scheduled_at] is the time value
    of the [Date], absent for an immediate email. *)
Record Mail : Type := mkMail {
  mail_from : jsstring;
  mail_to : jsstring;
  mail_subject : jsstring;
  mail_html : Html;
  scheduled_at : option Z
}.

Inductive Event : Type :=
| Log (level : Level) (message : jsstring)           (* logEvent(level, message, ...) *)
| CacheClean (now : Z)                               (* cleanCache() *)
| CacheGet (key : jsstring)                          (* responseCache.get(key) *)
| CacheSet (key : jsstring) (value : CacheItem)      (* responseCache.set(key, value) *)
| Upsert (email product_name : jsstring)             (* supabase.from('leads').upsert(...) *)
| GenerateContent (prompt : Prompt)                  (* model.generateContent(prompt) *)
| Send (mail : Mail).                                (* resend.emails.send(mail) *)

Record World : Type := mkWorld {
  rateLimitMap : gmap jsstring (list Z);
  responseCache : gmap jsstring CacheItem;
  effects : list Event
}.

(** A computation of the handler. *)
Abbreviation M := (Eff World).

Definition emit (e : Event) : M unit := fun w =>
  (Normal tt, mkWorld (rateLimitMap w) (responseCache w) (effects w ++ [e])).

Definition logEvent (level : Level) (message : jsstring) : M unit :=
  emit (Log level message).

(** ** What a run observes of its environment *)

(** How [Promise.race([model.generateContent(prompt), timeoutPromise])] and
    the reading of [response.text()] end. *)
Inductive LlmOutcome : Type :=
| LlmText (text : jsstring)   (* settles within 30 s and text() returns [text] *)
| LlmFails (e : error)        (* the call rejects, or response / text() throws *)
| LlmSilent.                  (* nothing within 30000 ms: the timeout rejects *)

Record Env : Type := mkEnv {
  (* process.env *)
  NODE_ENV : option jsstring;
  STRIPE_CHECKOUT_LINK : option jsstring;
  FROM_EMAIL : option jsstring;
  (* Date.now() at the call sites whose value is used *)
  now_rateLimit : Z;      (* in checkRateLimit *)
  now_cleanCache : Z;     (* in cleanCache *)
  now_lookup : Z;         (* the freshness test of the cached item *)
  now_store : Z;          (* the timestamp of the new cache entry *)
  now_twoHour : Z;        (* scheduling the second email *)
  now_sixHour : Z;        (* scheduling the third email *)
  (* Math.random() in checkRateLimit *)
  random : float;
  (* `req_${Date.now()}_${...}`, used when the request carries no id *)
  generatedId : jsstring;
  (* how the awaited service calls settle; for the upsert, the [error]
     property of the resolved value *)
  upsert_outcome : completion (option error);
  llm_outcome : LlmOutcome;
  send_immediate : completion unit;
  send_twoHour : completion unit;
  send_sixHour : completion unit
}.

(** ** Service calls and operations on the process state *)

Definition upsert (o : completion (option error)) (email product_name : jsstring)
  : M (option error) :=
  emit (Upsert email product_name);; await o.

Definition generateContent (o : LlmOutcome) (prompt : Prompt) : M jsstring :=
  emit (GenerateContent prompt);;
  match o with
  | LlmText text => mret text
  | LlmFails e => throw e
  | LlmSilent => throw (Error (js "Request timeout"))
  end.

Definition send (o : completion unit) (mail : Mail) : M unit :=
  emit (Send mail);; await o.

Definition checkRateLimitM (env : Env) (ip : jsstring) : M bool := fun w =>
  let '(allowed, m) := checkRateLimit (now_rateLimit env) (random env) ip (rateLimitMap w) in
  (Normal allowed, mkWorld m (responseCache w) (effects w)).

Definition cleanCacheM (env : Env) : M unit := fun w =>
  (Normal tt,
   mkWorld (rateLimitMap w) (cleanCache (now_cleanCache env) (responseCache w))
     (effects w ++ [CacheClean (now_cleanCache env)])).

Definition cacheGet (key : jsstring) : M (option CacheItem) := fun w =>
  (Normal (responseCache w !! key),
   mkWorld (rateLimitMap w) (responseCache w) (effects w ++ [CacheGet key])).

Definition cacheSet (key : jsstring) (value : CacheItem) : M unit := fun w =>
  (Normal tt,
   mkWorld (rateLimitMap w) (<[key := value]> (responseCache w))
     (effects w ++ [CacheSet key value])).

(** ** Responses *)

Record Response : Type := mkResponse {
  status : Z;
  headers : list (jsstring * jsstring);
  json : list (jsstring * jsstring)      (* the properties of the JSON body *)
}.

Definition securityHeaders : list (jsstring * jsstring) :=
  [ (js "X-Content-Type-Options", js "nosniff");
    (js "X-Frame-Options", js "DENY");
    (js "X-XSS-Protection", js "1; mode=block");
    (js "Referrer-Policy", js "strict-origin-when-cross-origin") ].

Definition genericError : jsstring :=
  js "An error occurred while generating your description.".

Definition fromEmail (env : Env) : jsstring :=
  orElse (FROM_EMAIL env) (js "Your Name <sales@your-verified-domain.com>").

Definition TWO_HOURS : Z := 2 * 60 * 60 * 1000.
Definition SIX_HOURS : Z := 6 * 60 * 60 * 1000.

Section WithUnicode.

(** Lower-casing of strings with code units outside ASCII (see
    [Js.toLowerCase]). *)
Variable unicodeLower : jsstring -> jsstring.

Definition validateAndSanitizeInput (data : Payload Body.t)
  : completion Validation :=
  match data with
  | NoBody =>
      Throw (TypeError (js "Cannot destructure property 'productName' of 'data' "
                        ++ asItIs false))
  | NullBody =>
      Throw (TypeError (js "Cannot destructure property 'productName' of 'data' "
                        ++ asItIs true))
  | Object data =>
      let productName := Body.productName data in
      let productFeatures := Body.productFeatures data in
      let email := Body.email data in
      if negb (truthy email) then
        Normal (Invalid (js "Invalid email address format"))
      else
        match email with
        | JStr email =>
            if negb (re_test emailRegex (trim email)) then
              Normal (Invalid (js "Invalid email address format"))
            else
              match productName with
              | JStr ((_ :: _) as productName) =>
                  match productFeatures with
                  | JStr ((_ :: _) as productFeatures) =>
                      let cleanProductName := slice0 100 (trim productName) in
                      let cleanProductFeatures := slice0 2000 (trim productFeatures) in
                      let cleanEmail := toLowerCase unicodeLower (trim email) in
                      if (jslength cleanProductName =? 0) then
                        Normal (Invalid (js "Product name cannot be empty"))
                      else if (jslength cleanProductFeatures =? 0) then
                        Normal (Invalid (js "Product features cannot be empty"))
                      else
                        Normal (Valid {|
                          Data.productName := sanitizeText cleanProductName;
                          Data.productFeatures := sanitizeText cleanProductFeatures;
                          Data.email := sanitizeText cleanEmail |})
                  | _ =>
                      Normal (Invalid (js "Product features are required and must be text"))
                  end
              | _ =>
                  Normal (Invalid (js "Product name is required and must be text"))
              end
        | _ =>
            (* a truthy email that is not a string has no [trim] method *)
            Throw (TypeError (js "email.trim is not a function"))
        end
  end.

(** ** The cache key *)

Definition getCacheKey (productName productFeatures : jsstring) : jsstring :=
  let normalizedFeatures :=
    slice0 200 (trim (toLowerCase unicodeLower productFeatures)) in
  let normalizedName := trim (toLowerCase unicodeLower productName) in
  normalizedName ++ js ":" ++ normalizedFeatures.

(** ** The handler *)

(** The cache-hit branch: the lead is still saved and the first email sent,
    both inside one [try]; the response is the cached description. *)
Definition cacheHit (env : Env) (res : list (jsstring * jsstring))
    (data : Data.t) (cachedItem : CacheItem) : M Response :=
  let productName := Data.productName data in
  let email := Data.email data in
  logEvent INFO (js "Cache hit for description");;
  try_catch
    (dbError ← upsert (upsert_outcome env) email productName;
     match dbError with
     | None => logEvent INFO (js "Data saved to database (cache hit)")
     | Some _ => mret tt
     end;;
     let email1 := emailTemplates.immediate (description cachedItem) email in
     send (send_immediate env)
       {| mail_from := fromEmail env; mail_to := email;
          mail_subject := subject email1; mail_html := html email1;
          scheduled_at := None |})
    (fun cacheError => logEvent WARN (js "Cache hit processing failed"));;
  logEvent INFO (js "Request completed successfully (cache hit)");;
  mret (mkResponse 200 res [(js "description", trim (description cachedItem))]).

(** STEP 3: the email sequence, inside its own [try]; the result is
    [emailsSentSuccessfully]. *)
Definition emailSequence (env : Env) (email description : jsstring) : M bool :=
  let stripeLink := STRIPE_CHECKOUT_LINK env in
  let fromEmail := fromEmail env in
  try_catch
    (let email1 := emailTemplates.immediate description email in
     send (send_immediate env)
       {| mail_from := fromEmail; mail_to := email;
          mail_subject := subject email1; mail_html := html email1;
          scheduled_at := None |};;
     let email2 := emailTemplates.twoHour email in
     send (send_twoHour env)
       {| mail_from := fromEmail; mail_to := email;
          mail_subject := subject email2; mail_html := html email2;
          scheduled_at := Some (now_twoHour env + TWO_HOURS) |};;
     match stripeLink with
     | Some ((_ :: _) as stripeLink) =>
         let email3 := emailTemplates.sixHour stripeLink email in
         send (send_sixHour env)
           {| mail_from := fromEmail; mail_to := email;
              mail_subject := subject email3; mail_html := html email3;
              scheduled_at := Some (now_sixHour env + SIX_HOURS) |}
     | _ => mret tt
     end;;
     mret true)
    (fun emailError => logEvent ERROR (js "Email sending failed");; mret false).

(** The cache-miss branch: STEP 1 to STEP 4. *)
Definition cacheMiss (env : Env) (res : list (jsstring * jsstring))
    (data : Data.t) (cacheKey : jsstring) : M Response :=
  let productName := Data.productName data in
  let productFeatures := Data.productFeatures data in
  let email := Data.email data in
  logEvent INFO (js "Cache miss");;
  dbError ← upsert (upsert_outcome env) email productName;
  match dbError with
  | Some _ => logEvent WARN (js "Database error occurred")
  | None => logEvent INFO (js "Data saved to database")
  end;;
  let prompt := getLLMPrompt productName productFeatures in
  description ← generateContent (llm_outcome env) prompt;
  if bool_decide (description = []) || (jslength (trim description) =? 0) then
    throw (Error (js "LLM failed to generate a valid description."))
  else
    logEvent INFO (js "LLM description generated successfully");;
    cacheSet cacheKey {| description := trim description; timestamp := now_store env |};;
    emailsSentSuccessfully ← emailSequence env email description;
    (if emailsSentSuccessfully : bool
     then logEvent INFO (js "All emails sent successfully")
     else mret tt);;
    logEvent INFO (js "Request completed successfully");;
    mret (mkResponse 200 res [(js "description", trim description)]).

(** The body of the main [try]. *)
Definition tryBlock (req : Request) (env : Env) (res : list (jsstring * jsstring))
  : M Response :=
  validation ← await (validateAndSanitizeInput (body req));
  match validation with
  | Invalid error => mret (mkResponse 400 res [(js "error", error)])
  | Valid data =>
      let cacheKey := getCacheKey (Data.productName data) (Data.productFeatures data) in
      cleanCacheM env;;
      cachedItem ← cacheGet cacheKey;
      match cachedItem with
      | Some cachedItem =>
          if now_lookup env - timestamp cachedItem <? CACHE_TTL
          then cacheHit env res data cachedItem
          else cacheMiss env res data cacheKey
      | None => cacheMiss env res data cacheKey
      end
  end.

(** The main [catch]. *)
Definition catchBlock (env : Env) (res : list (jsstring * jsstring))
    (requestId : jsstring) (error : error) : M Response :=
  logEvent ERROR (js "Request failed");;
  let errorMessage :=
    if bool_decide (NODE_ENV env = Some (js "development"))
    then message error
    else genericError in
  mret (mkResponse 500 res [(js "error", errorMessage); (js "requestId", requestId)]).

Definition handler (req : Request) (env : Env) : M Response :=
  let requestId := orElse (x_request_id req) (generatedId env) in
  let res := securityHeaders ++ [(js "X-Request-ID", requestId)] in
  logEvent INFO (js "Request received");;
  if negb (bool_decide (method req = js "POST")) then
    mret (mkResponse 405 res [(js "error", js "Method Not Allowed")])
  else
    let clientIP := getClientIP req in
    allowed ← checkRateLimitM env clientIP;
    if negb allowed then
      mret (mkResponse 429 res
              [(js "error", js "Too many requests. Please try again later.")])
    else
      try_catch (tryBlock req env res) (catchBlock env res requestId).

End WithUnicode.

End Generate.

(* ===================================================================== *)
(** * api/health.js *)
(* ===================================================================== *)

Module Health.

Record Env : Type := mkEnv {
  (* process.env *)
  NODE_ENV : option jsstring;
  SUPABASE_URL : option jsstring;
  SUPABASE_SERVICE_KEY : option jsstring;
  GEMINI_API_KEY : option jsstring;
  RESEND_API_KEY : option jsstring;
  (* how the import of the client, [createClient] and the awaited
     [select('id').limit(1)] end: the [error] property of the resolved value,
     or an exception *)
  ping : completion (option error)
}.

(** [healthCheck]; [timestamp] and [uptime] are left out. *)
Record HealthCheck : Type := mkHealthCheck {
  hc_status : jsstring;
  version : jsstring;
  environment : jsstring;
  services : list (jsstring * obj)
}.

Inductive Body : Type :=
| Report (healthCheck : HealthCheck)     (* res.json(healthCheck) *)
| Plain (fields : obj).                  (* res.json({ ... }) of strings *)

Record Response : Type := mkResponse { status : Z; body : Body }.

(** [healthCheck.services.database] *)
Definition checkDatabase (env : Env) : obj :=
  if truthyStr (SUPABASE_URL env) && truthyStr (SUPABASE_SERVICE_KEY env) then
    match ping env with
    | Normal error =>
        [ (js "status", match error with Some _ => js "error" | None => js "ok" end);
          (js "message", match error with
                         | Some _ => js "Database connection failed"
                         | None => js "Database connection successful"
                         end) ]
    | Throw _ =>
        [ (js "status", js "error");
          (js "message", js "Database service unavailable") ]
    end
  else
    [ (js "status", js "not_configured");
      (js "message", js "Database credentials not configured") ].

(** The [services] array: [{ name, envVar, status }]. *)
Definition externalServices (env : Env) : list obj :=
  [ [ (js "name", js "gemini_api"); (js "envVar", js "GEMINI_API_KEY");
      (js "status", if truthyStr (GEMINI_API_KEY env) then js "ok" else js "not_configured") ];
    [ (js "name", js "resend_api"); (js "envVar", js "RESEND_API_KEY");
      (js "status", if truthyStr (RESEND_API_KEY env) then js "ok" else js "not_configured") ] ].

(** The [forEach] over [services]; every element has a [name] and a
    [status]. *)
Definition recordService (acc : list (jsstring * obj)) (service : obj)
  : list (jsstring * obj) :=
  let name := default [] (getProp service (js "name")) in
  let status := default [] (getProp service (js "status")) in
  setProp acc name
    [ (js "status", status);
      (js "message", if bool_decide (status = js "ok")
                     then js "Service configured"
                     else js "Service not configured") ].

Definition checkServices (env : Env) : list (jsstring * obj) :=
  fold_left recordService (externalServices env)
    (setProp [] (js "database") (checkDatabase env)).

(** [s => s.status === 'error'] *)
Definition isError (s : obj) : bool :=
  bool_decide (getProp s (js "status") = Some (js "error")).

(** [s.status === 'not_configured'] *)
Definition isNotConfigured (s : obj) : bool :=
  bool_decide (getProp s (js "status") = Some (js "not_configured")).

(** [s => s.status === 'not_configured' &&
          (s.service.includes('database') || s.service.includes('api'))];
    calling [includes] on [undefined] throws. *)
Definition isCritical (s : obj) : completion bool :=
  if isNotConfigured s then
    match getProp s (js "service") with
    | Some service =>
        Normal (includes service (js "database") || includes service (js "api"))
    | None =>
        Throw (TypeError (js "Cannot read properties of undefined (reading 'includes')"))
    end
  else Normal false.

Definition withStatus (h : HealthCheck) (st : jsstring) : HealthCheck :=
  mkHealthCheck st (version h) (environment h) (services h).

(** The body of the [try]. *)
Definition tryBlock (env : Env) : completion Response :=
  let healthCheck :=
    {| hc_status := js "ok"; version := js "1.0.0";
       environment := orElse (NODE_ENV env) (js "development");
       services := checkServices env |} in
  let serviceStatuses := values (services healthCheck) in
  let hasErrors := existsb isError serviceStatuses in
  hasCriticalIssues ← some isCritical serviceStatuses;
  if hasErrors then
    mret (mkResponse 503 (Report (withStatus healthCheck (js "error"))))
  else if hasCriticalIssues : bool then
    mret (mkResponse 200 (Report (withStatus healthCheck (js "degraded"))))
  else
    mret (mkResponse 200 (Report healthCheck)).

Definition handler (method : jsstring) (env : Env) : Response :=
  if negb (bool_decide (method = js "GET")) then
    mkResponse 405 (Plain [ (js "status", js "error");
                            (js "message", js "Method Not Allowed") ])
  else
    match tryBlock env with
    | Normal response => response
    | Throw error =>
        mkResponse 503
          (Plain [ (js "status", js "error");
                   (js "message", js "Health check failed");
                   (js "error",
                    if bool_decide (NODE_ENV env = Some (js "development"))
                    then message error
                    else js "Internal server error") ])
    end.

End Health.

(* ===================================================================== *)
(** * api/unsubscribe.js *)
(* ===================================================================== *)

Module Unsubscribe.

Record Env : Type := mkEnv {
  (* how the import of the client and [createClient] end *)
  client : completion unit;
  (* how the awaited [update(...).eq('email', ...)] ends once its
     arguments are evaluated: the [error] property of the resolved value, or
     an exception *)
  update : completion (option error)
}.

Record Request : Type := mkRequest {
  method : jsstring;
  (* req.query.email: absent, a string, or the array of a repeated
     parameter *)
  query_email : option Received;
  (* req.body, and in an object its property [email] *)
  body_email : Payload (option Received)
}.

Inductive Page : Type :=
| InvalidLinkPage                 (* "Invalid unsubscribe link." *)
| SuccessPage (email : jsstring)  (* "Successfully Unsubscribed", with the email *)
| ErrorPage.                      (* "Sorry, there was an error processing ..." *)

Inductive Body : Type :=
| Html (page : Page)      (* res.send(`...`) *)
| Json (fields : obj).    (* res.json({ ... }) *)

Record Response : Type := mkResponse { status : Z; body : Body }.

Inductive Event : Type :=
| ConsoleError (label : jsstring) (e : error)   (* console.error(label, e) *)
| Update (email : jsstring).   (* leads: set unsubscribed where email = [email] *)

(** [[^\s@]] *)
Definition notSpaceAt (c : N) : bool := negb (isWhiteSpace c || (c =? code "@")%N).

(** [/^[^\s@]+@[^\s@]+\.[^\s@]+$/] *)
Definition emailRegex : regex :=
  Seq (Plus (Class notSpaceAt))
    (Seq (Chr (code "@"))
       (Seq (Plus (Class notSpaceAt))
          (Seq (Chr (code ".")) (Plus (Class notSpaceAt))))).

Abbreviation M := (Eff (list Event)).

Definition emit (e : Event) : M unit := fun l => (Normal tt, l ++ [e]).

Section WithUnicode.

Variable unicodeLower : jsstring -> jsstring.

(** Creating the client, building the update of the lead and awaiting it.
    The argument [email.toLowerCase()] of [eq] is evaluated after the client
    is created and before the built query is awaited, and so sent: on a value
    that is not a string it throws, and no update is asked. *)
Definition markUnsubscribed (env : Env) (email : Received) : M (option error) :=
  await (client env);;
  match email with
  | Text email =>
      emit (Update (toLowerCase unicodeLower email));;
      await (update env)
  | Other _ _ =>
      throw (TypeError (js "email.toLowerCase is not a function"))
  end.

Definition handleGet (req : Request) (env : Env) : M Response :=
  match query_email req with
  | Some email =>
      if negb (truthyReceived email) then
        mret (mkResponse 400 (Html InvalidLinkPage))
      else
        try_catch
          (if negb (re_test emailRegex (toString email)) then
             throw (Error (js "Invalid email format"))
           else
             error ← markUnsubscribed env email;
             match error with
             | Some error => emit (ConsoleError (js "Unsubscribe database error:") error)
             | None => mret tt
             end;;
             mret (mkResponse 200 (Html (SuccessPage (toString email)))))
          (fun error =>
             emit (ConsoleError (js "Unsubscribe error:") error);;
             mret (mkResponse 500 (Html ErrorPage)))
  | None => mret (mkResponse 400 (Html InvalidLinkPage))
  end.

Definition handlePost (req : Request) (env : Env) : M Response :=
  match body_email req with
  | NoBody =>
      throw (TypeError (js "Cannot destructure property 'email' of 'req.body' "
                        ++ asItIs false))
  | NullBody =>
      throw (TypeError (js "Cannot destructure property 'email' of 'req.body' "
                        ++ asItIs true))
  | Object (Some email) =>
      if negb (truthyReceived email) then
        mret (mkResponse 400 (Json [(js "error", js "Email is required")]))
      else
        try_catch
          (if negb (re_test emailRegex (toString email)) then
             mret (mkResponse 400 (Json [(js "error", js "Invalid email format")]))
           else
             markUnsubscribed env email;;
             mret (mkResponse 200 (Json [ (js "success", js "true");
                                          (js "message", js "Successfully unsubscribed") ])))
          (fun error =>
             emit (ConsoleError (js "Unsubscribe error:") error);;
             mret (mkResponse 500 (Json [(js "error", js "Failed to unsubscribe. Please try again.")])))
  | Object None => mret (mkResponse 400 (Json [(js "error", js "Email is required")]))
  end.

Definition handler (req : Request) (env : Env) : M Response :=
  if bool_decide (method req = js "GET") then handleGet req env
  else if bool_decide (method req = js "POST") then handlePost req env
  else mret (mkResponse 405 (Json [(js "error", js "Method Not Allowed")])).

End WithUnicode.

End Unsubscribe.

(* ===================================================================== *)
(** * Observations on runs of the generate handler *)
(* ===================================================================== *)

Module Observe.
Import Generate.

(** The world after a computation that left the rate limiter alone, set the
    cache to [cache] and performed the events [tr]. *)
Definition grow (w : World) (cache : gmap jsstring CacheItem) (tr : list Event)
  : World :=
  mkWorld (rateLimitMap w) cache (effects w ++ tr).

(** The stored window of an IP as a call at [now] sees it: the timestamps
    less than 60 seconds old. *)
Definition window (now : Z) (m : gmap jsstring (list Z)) (ip : jsstring)
  : list Z :=
  List.filter (inWindow now) (default [] (m !! ip)).

(** ** Calls to the three services, by kind and in order *)

Inductive Kind : Type := KUpsert | KGenerate | KSend.

Definition kindOf (e : Event) : option Kind :=
  match e with
  | Upsert _ _ => Some KUpsert
  | GenerateContent _ => Some KGenerate
  | Send _ => Some KSend
  | _ => None
  end.

Definition serviceCalls (tr : list Event) : list Kind := omap kindOf tr.

Definition sameKind (a b : Kind) : bool :=
  match a, b with
  | KUpsert, KUpsert | KGenerate, KGenerate | KSend, KSend => true
  | _, _ => false
  end.

Fixpoint isPrefix (l order : list Kind) : bool :=
  match l, order with
  | [], _ => true
  | a :: l', b :: order' => sameKind a b && isPrefix l' order'
  | _ :: _, [] => false
  end.

(** The order of a complete run as the specification words it, and the two
    orders of the source: on a cache miss and on a cache hit. *)
Definition claimedOrder : list Kind := [KGenerate; KUpsert; KSend; KSend; KSend].
Definition missOrder : list Kind := [KUpsert; KGenerate; KSend; KSend; KSend].
Definition hitOrder : list Kind := [KUpsert; KSend].

(** The calls to the three services again, now telling the email that is
    sent at once from those that the provider is asked to send later. *)
Inductive Call : Type := CUpsert | CGenerate | CSendNow | CSendLater.

Definition callOf (e : Event) : option Call :=
  match e with
  | Upsert _ _ => Some CUpsert
  | GenerateContent _ => Some CGenerate
  | Send mail =>
      Some (match scheduled_at mail with
            | None => CSendNow
            | Some _ => CSendLater
            end)
  | _ => None
  end.

Definition calls (tr : list Event) : list Call := omap callOf tr.

(** The leads handed to the data store: email and product name. *)
Definition upserts (tr : list Event) : list (jsstring * jsstring) :=
  omap (fun e => match e with
                 | Upsert email product_name => Some (email, product_name)
                 | _ => None
                 end) tr.

(** The mails handed to the email provider. *)
Definition mailOf (e : Event) : option Mail :=
  match e with Send mail => Some mail | _ => None end.

Definition mails (tr : list Event) : list Mail := omap mailOf tr.

Definition isGenerate (e : Event) : bool :=
  match e with GenerateContent _ => true | _ => false end.

(** The object literal passed to [resend.emails.send]. *)
Definition mailFor (env : Env) (email : jsstring) (template : Template)
    (when : option Z) : Mail :=
  {| mail_from := fromEmail env; mail_to := email;
     mail_subject := subject template; mail_html := html template;
     scheduled_at := when |}.

(** The status code of a completed run. *)
Definition statusOf (c : completion Response) : option Z :=
  match c with
  | Normal r => Some (status r)
  | Throw _ => None
  end.

(** [logEvent('ERROR', message, ...)] occurs in [tr]. *)
Definition loggedError (message : jsstring) (tr : list Event) : bool :=
  existsb (fun e => match e with
                    | Log ERROR m => bool_decide (m = message)
                    | _ => false
                    end) tr.

(** ** Cache operations *)

Definition isGet (e : Event) : bool :=
  match e with CacheGet _ => true | _ => false end.

Definition noGet (tr : list Event) : bool := forallb (fun e => negb (isGet e)) tr.

(** Every [CacheGet] of [tr] comes right after a [CacheClean]; [prev] is the
    event before [tr]. *)
Fixpoint getsAfterClean (prev : option Event) (tr : list Event) : bool :=
  match tr with
  | [] => true
  | e :: tr' =>
      match e, prev with
      | CacheGet _, Some (CacheClean _) => true
      | CacheGet _, _ => false
      | _, _ => true
      end && getsAfterClean (Some e) tr'
  end.

(** Every cached description is stored trimmed. *)
Definition cacheTrimmed (c : gmap jsstring CacheItem) : Prop :=
  forall (k : jsstring) (v : CacheItem),
    c !! k = Some v -> trim (description v) = description v.

(** The cached item that a request with key [key] is answered from: the
    entry that [cleanCache] leaves under [key], if the freshness test at the
    lookup passes. *)
Definition freshItem (env : Env) (key : jsstring) (cache : gmap jsstring CacheItem)
  : option CacheItem :=
  match cleanCache (now_cleanCache env) cache !! key with
  | Some item =>
      if now_lookup env - timestamp item <? CACHE_TTL then Some item else None
  | None => None
  end.

(** ** Characters of validated input *)

(** The characters that [emailRegex] admits. *)
Definition emailChar (c : N) : bool :=
  localChar c || (code "@" =? c)%N || domainChar c || (code "." =? c)%N.

(** ASCII, and touched neither by [sanitizeText] nor by [trim]. *)
Definition safeChar (c : N) : bool :=
  isASCII c && negb (isWhiteSpace c) && negb (isControl c) && negb (isAngle c).

(** ['<'], ['>'] and the ASCII control characters. *)
Definition forbidden (c : N) : bool := isControl c || isAngle c.

(** ** Requests served one after the other by one process *)

(** A request passed the method check and the rate limiter. *)
Definition admitted (c : completion Response) : bool :=
  match c with
  | Normal r => negb (status r =? 405) && negb (status r =? 429)
  | Throw _ => false
  end.

Definition nondecreasing (l : list Z) : bool :=
  forallb (fun p => fst p <=? snd p) (zip l (tail l)).

(** [T <= t < T + 60 s] *)
Definition inSpan (T t : Z) : bool := (T <=? t) && (t <? T + RATE_LIMIT_WINDOW).

Section WithUnicode.
Variable unicodeLower : jsstring -> jsstring.

(** The times, as read by the limiter, of the requests of [ip] that were
    admitted. *)
Fixpoint admittedAt (ip : jsstring) (rs : list (Request * Env)) (w : World)
  : list Z :=
  match rs with
  | [] => []
  | (req, env) :: rs' =>
      let '(c, w') := handler unicodeLower req env w in
      (if admitted c && bool_decide (getClientIP req = ip)
       then [now_rateLimit env] else [])
      ++ admittedAt ip rs' w'
  end.

End WithUnicode.

End Observe.

(* ===================================================================== *)
(** * Concrete requests and environments *)
(* ===================================================================== *)

Module Samples.
Import Generate.

(** Every string below is ASCII, where lower-casing never consults the
    Unicode tables. *)
Definition noUnicode (s : jsstring) : jsstring := s.

Definition mugBody : Body.t :=
  Body.mk (JStr (js " Mug<b> ")) (JStr (js "Blue, 300ml")) (JStr (js " Ann@Shop.io ")).

Definition mugData : Data.t :=
  Data.mk (js "Mugb") (js "Blue, 300ml") (js "ann@shop.io").

Definition mugKey : jsstring := js "mugb:blue, 300ml".

(** A POST from 1.2.3.4 (first hop of x-forwarded-for) with body [b]. *)
Definition post (b : Body.t) : Request :=
  mkRequest (js "POST") None (Some (js "1.2.3.4, 10.0.0.1")) None None (Object b).

Definition smtpDown : error := Error (js "connect ECONNREFUSED").
Definition duplicateKey : error := Error (js "duplicate key value").

(** An environment in production mode whose clock reads 1000, 1001, ... at
    the six call sites. *)
Definition envWith (stripe : option jsstring) (db : completion (option error))
    (llm : LlmOutcome) (first : completion unit) : Env :=
  mkEnv (Some (js "production")) stripe None
    1000 1001 1002 1003 1004 1005
    0.5%float (js "req_1000_k3j9x2a1b")
    db llm first (Normal tt) (Normal tt).

Definition envOk : Env :=
  envWith (Some (js "https://buy.stripe.com/x")) (Normal None)
    (LlmText (js " A fine mug. ")) (Normal tt).

(** The LLM answers with a single space. *)
Definition envBlank : Env :=
  envWith (Some (js "https://buy.stripe.com/x")) (Normal None)
    (LlmText (js " ")) (Normal tt).

(** The first call to the email provider throws. *)
Definition envMailDown : Env :=
  envWith (Some (js "https://buy.stripe.com/x")) (Normal None)
    (LlmText (js " A fine mug. ")) (Throw smtpDown).

(** [STRIPE_CHECKOUT_LINK=] : set, to the empty string. *)
Definition envStripeEmpty : Env :=
  envWith (Some []) (Normal None) (LlmText (js " A fine mug. ")) (Normal tt).

(** The LLM does not answer within 30 seconds. *)
Definition envTimeout : Env :=
  envWith (Some (js "https://buy.stripe.com/x")) (Normal None) LlmSilent (Normal tt).

(** The upsert resolves with an error. *)
Definition envDbError : Env :=
  envWith (Some (js "https://buy.stripe.com/x")) (Normal (Some duplicateKey))
    (LlmText (js " A fine mug. ")) (Normal tt).

(** A fresh process. *)
Definition fresh : World := mkWorld ∅ ∅ [].

(** A process that cached a description for the mug one second ago. *)
Definition cachedMug : CacheItem := mkItem (js "A fine mug.") 0.

Definition warm : World := mkWorld ∅ {[ mugKey := cachedMug ]} [].

(** A process, 400 seconds old, that cached a description for a lamp at
    1000 and one for the mug at 399000. *)
Definition lampKey : jsstring := js "lamp:red".

Definition aged : World :=
  mkWorld ∅ {[ mugKey := mkItem (js "A fine mug.") 399000;
               lampKey := mkItem (js "A red lamp.") 1000 ]} [].

(** An environment whose clock reads 400000, 400001, ... *)
Definition envAged : Env :=
  mkEnv (Some (js "production")) None None
    400000 400001 400002 400003 400004 400005
    0.5%float (js "req_400000_q7") (Normal None) (LlmText (js "A fine mug."))
    (Normal tt) (Normal tt) (Normal tt).

(** A JSON body whose product name is a number and whose email is [true]. *)
Definition oddBody : Body.t :=
  Body.mk (JNum 42%float) (JStr (js "Blue, 300ml")) (JBool true).

(** Seven requests of one client within six milliseconds. *)
Definition burst : list (Request * Env) :=
  map (fun t : Z =>
         (post mugBody,
          mkEnv (Some (js "production")) None None
            t t t t t t 0.5%float (js "req") (Normal None)
            (LlmText (js "A fine mug.")) (Normal tt) (Normal tt) (Normal tt)))
      [1000; 1001; 1002; 1003; 1004; 1005; 1006].

End Samples.

Module HealthSamples.
Import Health.

(** A deployment with no service configured. *)
Definition bare : Env := mkEnv None None None None None (Normal None).

End HealthSamples.

Module UnsubscribeSamples.
Import Unsubscribe.

Definition getAnn : Request :=
  mkRequest (js "GET") (Some (Text (js "Ann@Shop.io"))) NoBody.

(** The update resolves with an error. *)
Definition updateFails : Env :=
  mkEnv (Normal tt) (Normal (Some (Error (js "permission denied for table leads")))).

End UnsubscribeSamples.

(* ===================================================================== *)
(** * api/generate.js: the check of the environment at start-up *)
(* ===================================================================== *)

Module Startup.

(** [requiredVars], in the order of [Object.entries]. *)
Definition requiredVars : list (jsstring * jsstring) :=
  [ (js "SUPABASE_URL", js "Supabase project URL");
    (js "SUPABASE_SERVICE_KEY", js "Supabase service key");
    (js "RESEND_API_KEY", js "Resend API key");
    (js "GEMINI_API_KEY", js "Google Gemini API key") ].

(** [a.join(sep)] *)
Fixpoint join (sep : jsstring) (a : list jsstring) : jsstring :=
  match a with
  | [] => []
  | [x] => x
  | x :: a' => x ++ sep ++ join sep a'
  end.

(** The loop that fills [missing]: one entry [`${varName} (${description})`]
    for every variable that [process.env] does not hold or holds empty. *)
Fixpoint collectMissing (env : gmap jsstring jsstring)
    (vars : list (jsstring * jsstring)) : list jsstring :=
  match vars with
  | [] => []
  | (varName, description) :: vars' =>
      if truthyStr (env !! varName)
      then collectMissing env vars'
      else (varName ++ js " (" ++ description ++ js ")") :: collectMissing env vars'
  end.

Definition validateEnvironmentVariables (env : gmap jsstring jsstring)
  : completion bool :=
  let missing := collectMissing env requiredVars in
  if (Z.of_nat (length missing) >? 0) then
    Throw (Error (js "Missing required environment variables: "
                  ++ join (js ", ") missing))
  else
    Normal true.

End Startup.

(* ===================================================================== *)
(** * Further observations *)
(* ===================================================================== *)

Module Further.
Import Generate Observe.

(** No IP is stored with an empty window or with more than five
    timestamps. *)
Definition limiterTidy (m : gmap jsstring (list Z)) : Prop :=
  forall (ip : jsstring) (l : list Z),
    m !! ip = Some l -> l <> [] /\ (length l <= 5)%nat.

(** Every cached description is trimmed and not empty. *)
Definition cacheSound (c : gmap jsstring CacheItem) : Prop :=
  forall (k : jsstring) (v : CacheItem),
    c !! k = Some v -> description v <> [] /\ trim (description v) = description v.

(** The emails of the leads that a run of the unsubscribe handler asked the
    database to mark. *)
Definition updates (tr : list Unsubscribe.Event) : list jsstring :=
  omap (fun e => match e with
                 | Unsubscribe.Update email => Some email
                 | _ => None
                 end) tr.

(** ASCII code units, none of them white space. *)
Definition plain (s : jsstring) : bool :=
  forallb (fun c => isASCII c && negb (isWhiteSpace c)) s.

(** The body of the generate handler when none of its three properties is
    missing. *)
Definition textBody (productName productFeatures email : jsstring) : Body.t :=
  Body.mk (JStr productName) (JStr productFeatures) (JStr email).

End Further.

Module FurtherHealth.
Import Health.

(** The database credentials and both API keys are set and not empty. *)
Definition configured (env : Env) : bool :=
  truthyStr (SUPABASE_URL env) && truthyStr (SUPABASE_SERVICE_KEY env)
  && truthyStr (GEMINI_API_KEY env) && truthyStr (RESEND_API_KEY env).

(** The report of a deployment in which [database] has the given status and
    message and both API keys are configured. *)
Definition reportOf (env : Env) (st dbStatus dbMessage : jsstring) : HealthCheck :=
  {| hc_status := st; version := js "1.0.0";
     environment := orElse (NODE_ENV env) (js "development");
     services :=
       [ (js "database", [ (js "status", dbStatus); (js "message", dbMessage) ]);
         (js "gemini_api", [ (js "status", js "ok");
                             (js "message", js "Service configured") ]);
         (js "resend_api", [ (js "status", js "ok");
                             (js "message", js "Service configured") ]) ] |}.

(** A deployment with everything set whose database refuses the
    connection. *)
Definition dbDown : Env :=
  mkEnv (Some (js "production")) (Some (js "https://x.supabase.co"))
    (Some (js "service-key")) (Some (js "AIza")) (Some (js "re_123"))
    (Throw (Error (js "connect ECONNREFUSED 10.0.0.5:5432"))).

(** The database refuses the connection and the Resend key is missing. *)
Definition dbDownNoMail : Env :=
  mkEnv (Some (js "production")) (Some (js "https://x.supabase.co"))
    (Some (js "service-key")) (Some (js "AIza")) None
    (Throw (Error (js "connect ECONNREFUSED 10.0.0.5:5432"))).

End FurtherHealth.

Module FurtherUnsubscribe.
Import Unsubscribe.

(** [c] is a normal completion. *)
Definition returns {A : Type} (c : completion A) : bool :=
  match c with
  | Normal _ => true
  | Throw _ => false
  end.

(** What the console shows of the result of the update after a GET. *)
Definition logged (result : option error) : list Event :=
  match result with
  | Some error => [ConsoleError (js "Unsubscribe database error:") error]
  | None => []
  end.

(** [typeof v === 'string'] *)
Definition isText (v : Received) : bool :=
  match v with
  | Text _ => true
  | Other _ _ => false
  end.

(** The status of the answer to a request with the given [email]: 400 when
    it is absent or falsy, [invalid] when its conversion to a string does not
    match the pattern, 200 when it is a string and the client and the update
    return, and 500 otherwise. *)
Definition expectedStatus (email : option Received) (invalid : Z) (env : Env) : Z :=
  match email with
  | None => 400
  | Some email =>
      if negb (truthyReceived email) then 400
      else if negb (re_test emailRegex (toString email)) then invalid
      else if isText email && returns (client env) && returns (update env) then 200
      else 500
  end.

(** A form submission for ann@shop.io. *)
Definition postAnn : Request :=
  mkRequest (js "POST") None (Object (Some (Text (js "Ann@Shop.io")))).

(** A link without a dot after the at sign. *)
Definition getLocal : Request :=
  mkRequest (js "GET") (Some (Text (js "ann@localhost"))) NoBody.

(** A link with the parameter given twice, [?email=x&email=ann@shop.io]: an
    array, whose conversion to a string matches the pattern. *)
Definition getTwice : Request :=
  mkRequest (js "GET") (Some (Other true (js "x,ann@shop.io"))) NoBody.

(** Lower-casing that leaves every string with a non-ASCII code unit as it
    is. *)
Definition noUnicodeLower : jsstring -> jsstring := fun s => s.

(** The client is created and the update call throws. *)
Definition updateThrows : Env :=
  mkEnv (Normal tt) (Throw (Error (js "fetch failed"))).

(** The client is created and the update resolves without an error. *)
Definition updateOk : Env := mkEnv (Normal tt) (Normal None).

End FurtherUnsubscribe.

Module FurtherSamples.
Import Generate Samples.

(** A product name made of angle brackets only. *)
Definition tagBody : Body.t :=
  Body.mk (JStr (js "<>")) (JStr (js "Blue, 300ml")) (JStr (js "ann@shop.io")).

(** A second request for the mug, two minutes after [envOk]. *)
Definition envLater : Env :=
  mkEnv (Some (js "production")) None None
    121000 121001 121002 121003 121004 121005
    0.5%float (js "req_121000_zz") (Throw smtpDown) LlmSilent
    (Throw smtpDown) (Normal tt) (Normal tt).

(** A request exactly 300000 ms after the mug of [warm] was cached. *)
Definition envStale : Env :=
  mkEnv (Some (js "production")) None None
    299000 299999 300000 300001 300002 300003
    0.5%float (js "req_299000_zz") (Normal None) (LlmText (js "A new mug."))
    (Normal tt) (Normal tt) (Normal tt).

(** A lead whose address has no dot after the at sign. *)
Definition localBody : Body.t :=
  Body.mk (JStr (js "Mug")) (JStr (js "Blue, 300ml")) (JStr (js "ann@localhost")).

(** A map with timestamps that are more than 60 seconds old at 61500. *)
Definition staleMap : gmap jsstring (list Z) :=
  {[ js "1.2.3.4" := [1000; 2000]; js "9.9.9.9" := [500] ]}.

End FurtherSamples.

(* ===================================================================== *)
(** * Facts about strings and regular expressions *)
(* ===================================================================== *)

Section StringFacts.

Lemma trimStart_idem (s : jsstring) : trimStart (trimStart s) = trimStart s.
Proof.
  induction s as [|c s IH]; simpl; [done|].
  destruct (isWhiteSpace c) eqn:E; [done|]. simpl. by rewrite E.
Qed.

Lemma trimStart_snoc (s : jsstring) (c : N) :
  isWhiteSpace c = false -> trimStart (s ++ [c]) = trimStart s ++ [c].
Proof.
  intros Hc. induction s as [|a s IH]; simpl.
  - by rewrite Hc.
  - destruct (isWhiteSpace a); [done|reflexivity].
Qed.

Lemma trimEnd_cons (c : N) (s : jsstring) :
  isWhiteSpace c = false -> trimEnd (c :: s) = c :: trimEnd s.
Proof.
  intros Hc. unfold trimEnd. simpl rev at 2.
  rewrite trimStart_snoc by done. by rewrite rev_app_distr.
Qed.

Lemma trimEnd_idem (s : jsstring) : trimEnd (trimEnd s) = trimEnd s.
Proof. unfold trimEnd. by rewrite rev_involutive, trimStart_idem. Qed.

Lemma trimStart_head (s : jsstring) :
  trimStart s = [] \/ exists c s', trimStart s = c :: s' /\ isWhiteSpace c = false.
Proof.
  induction s as [|a s IH]; simpl; [by left|].
  destruct (isWhiteSpace a) eqn:E; [done|]. right. eauto.
Qed.

Lemma trim_idem (s : jsstring) : trim (trim s) = trim s.
Proof.
  unfold trim. destruct (trimStart_head s) as [->|(c & s' & -> & Hc)].
  - reflexivity.
  - rewrite trimEnd_cons by done. simpl. rewrite Hc.
    rewrite <- trimEnd_cons by done. apply trimEnd_idem.
Qed.

Lemma trimStart_length (s : jsstring) : (length (trimStart s) <= length s)%nat.
Proof.
  induction s as [|c s IH]; simpl; [lia|]. destruct (isWhiteSpace c); simpl; lia.
Qed.

Lemma trim_length (s : jsstring) : (length (trim s) <= length s)%nat.
Proof.
  unfold trim, trimEnd. rewrite length_rev.
  etransitivity; [apply trimStart_length|]. rewrite length_rev. apply trimStart_length.
Qed.

Lemma trimStart_In (c : N) (s : jsstring) : In c (trimStart s) -> In c s.
Proof.
  induction s as [|a s IH]; simpl; [done|].
  destruct (isWhiteSpace a); simpl; tauto.
Qed.

Lemma trim_In (c : N) (s : jsstring) : In c (trim s) -> In c s.
Proof.
  unfold trim, trimEnd. intros H. apply trimStart_In.
  apply in_rev in H. apply trimStart_In in H. by apply in_rev.
Qed.

Lemma trimStart_clean (s : jsstring) :
  forallb (fun c => negb (isWhiteSpace c)) s = true -> trimStart s = s.
Proof.
  destruct s as [|c s]; simpl; [done|]. intros [Hc _]%andb_prop.
  by destruct (isWhiteSpace c).
Qed.

Lemma trim_clean (s : jsstring) :
  forallb (fun c => negb (isWhiteSpace c)) s = true -> trim s = s.
Proof.
  intros H. unfold trim, trimEnd. rewrite (trimStart_clean s H).
  rewrite trimStart_clean; [apply rev_involutive|].
  rewrite forallb_forall in *. intros c Hc. apply H. by apply in_rev.
Qed.

Lemma removeAll_length (class : N -> bool) (s : jsstring) :
  (length (removeAll class s) <= length s)%nat.
Proof. apply List.filter_length_le. Qed.

Lemma removeAll_clean (class : N -> bool) (s : jsstring) :
  forallb (fun c => negb (class c)) s = true -> removeAll class s = s.
Proof.
  unfold removeAll. induction s as [|c s IH]; simpl; [done|].
  intros [-> Hs]%andb_prop. by rewrite IH.
Qed.

End StringFacts.

Section RegexFacts.

Lemma void_nullable (r : regex) : void r = true -> nullable r = false.
Proof.
  induction r; simpl; try done.
  - intros [H|H]%orb_prop; [rewrite IHr1|rewrite IHr2]; auto using andb_false_r.
  - intros [H1 H2]%andb_prop. by rewrite IHr1, IHr2.
Qed.

Lemma void_deriv (c : N) (r : regex) : void r = true -> void (deriv c r) = true.
Proof.
  induction r; simpl; try done.
  - intros H. destruct (nullable r1) eqn:E; simpl.
    + apply orb_prop in H as [H|H].
      * apply void_nullable in H. congruence.
      * rewrite H, orb_true_r. simpl. auto.
    + apply orb_prop in H as [H|H]; [rewrite IHr1|rewrite H]; auto using orb_true_r.
  - intros [H1 H2]%andb_prop. by rewrite IHr1, IHr2.
Qed.

Lemma void_test (s : jsstring) : forall r : regex, void r = true -> re_test r s = false.
Proof.
  induction s as [|c s IH]; simpl; intros r H.
  - by apply void_nullable.
  - apply IH. by apply void_deriv.
Qed.

Lemma over_deriv (P : N -> bool) (c : N) (r : regex) : over P r -> over P (deriv c r).
Proof.
  induction r; simpl; try done.
  - intros _. by destruct (f c).
  - intros [H1 H2]. destruct (nullable r1); simpl; auto.
  - intros [H1 H2]. auto.
  - intros H. auto.
Qed.

Lemma deriv_outside (P : N -> bool) (c : N) (r : regex) :
  over P r -> P c = false -> void (deriv c r) = true.
Proof.
  intros Hr Hc. induction r; simpl in *; try done.
  - destruct (f c) eqn:E; [|done]. apply Hr in E. congruence.
  - destruct Hr as [H1 H2]. destruct (nullable r1); simpl; rewrite IHr1 by done; auto.
  - destruct Hr as [H1 H2]. by rewrite IHr1, IHr2.
  - by rewrite IHr.
Qed.

Lemma re_test_over (P : N -> bool) (s : jsstring) :
  forall r : regex, over P r -> re_test r s = true -> forallb P s = true.
Proof.
  induction s as [|c s IH]; simpl; intros r Hr Ht; [done|].
  destruct (P c) eqn:E; simpl.
  - apply (IH (deriv c r)); [by apply over_deriv|done].
  - rewrite void_test in Ht; [done|]. by apply (deriv_outside P).
Qed.

End RegexFacts.

(* ===================================================================== *)
(** * The generate handler: lemmas *)
(* ===================================================================== *)

Module GenerateSpec.
Import Generate Observe Samples.

(** ** Validation

    Whatever [emailRegex] accepts is made of ASCII characters that
    lower-casing maps to characters neither [sanitizeText] nor [trim]
    removes; this is checked over the 128 ASCII code units. *)

Section ValidationFacts.
Variable unicodeLower : jsstring -> jsstring.

Lemma emailRegex_over : over emailChar emailRegex.
Proof.
  unfold emailRegex, Plus, Chr, emailChar; simpl.
  repeat split; intros c H; rewrite ?H, ?orb_true_r; reflexivity.
Qed.

Lemma emailChar_ascii (c : N) : emailChar c = true -> (c < 128)%N.
Proof.
  unfold emailChar, localChar, domainChar, oneOf, isLower, isUpper, isDigit, in_range.
  unfold js, code. simpl existsb. simpl N_of_ascii. intros H.
  repeat match type of H with
         | (_ || _) = true => apply orb_prop in H as [H|H]
         | (_ && _) = true => apply andb_prop in H as [_ H]
         end;
  first [ discriminate H | apply N.leb_le in H; lia | apply N.eqb_eq in H; lia ].
Qed.

Lemma below_128 (c : N) : (c < 128)%N -> In c (map N.of_nat (seq 0 128)).
Proof.
  intros H. apply in_map_iff. exists (N.to_nat c). split; [apply N2Nat.id|].
  apply in_seq. lia.
Qed.

Lemma emailChar_safe (c : N) :
  emailChar c = true -> safeChar c = true /\ safeChar (lowerASCII c) = true.
Proof.
  intros H.
  assert (forallb (fun n => implb (emailChar n) (safeChar n && safeChar (lowerASCII n)))
            (map N.of_nat (seq 0 128)) = true) as Hall by (vm_compute; reflexivity).
  rewrite forallb_forall in Hall.
  specialize (Hall c (below_128 c (emailChar_ascii c H))).
  rewrite H in Hall. simpl in Hall. by apply andb_prop in Hall.
Qed.

Lemma safe_sanitize (s : jsstring) :
  forallb safeChar s = true -> sanitizeText s = s.
Proof.
  intros H. unfold sanitizeText.
  assert (forall P : N -> bool, (forall c, safeChar c = true -> P c = true) ->
            forallb P s = true) as Hs.
  { intros P HP. rewrite forallb_forall in *. auto. }
  rewrite (removeAll_clean isControl), (removeAll_clean isAngle), trim_clean;
    try done; apply Hs; intros c; unfold safeChar;
    destruct (isASCII c), (isWhiteSpace c), (isControl c), (isAngle c); done.
Qed.

Lemma sanitizeText_length (s : jsstring) : (length (sanitizeText s) <= length s)%nat.
Proof.
  unfold sanitizeText. etransitivity; [apply trim_length|].
  etransitivity; apply removeAll_length.
Qed.

Lemma sanitizeText_clean (s : jsstring) :
  forallb (fun c => negb (forbidden c)) (sanitizeText s) = true.
Proof.
  apply forallb_forall. intros c Hc. unfold sanitizeText in Hc.
  apply trim_In in Hc. unfold removeAll in Hc.
  apply filter_In in Hc as [Hc Ha]. apply filter_In in Hc as [_ Hb].
  unfold forbidden. by destruct (isControl c), (isAngle c).
Qed.

(** What an accepted input returns. *)
Lemma validate_accepts (data : Body.t) (d : Data.t) :
  validateAndSanitizeInput unicodeLower (Object data) = Normal (Valid d) ->
  exists productName productFeatures email : jsstring,
    Body.productName data = JStr productName
    /\ Body.productFeatures data = JStr productFeatures
    /\ Body.email data = JStr email
    /\ re_test emailRegex (trim email) = true
    /\ Data.productName d = sanitizeText (slice0 100 (trim productName))
    /\ Data.productFeatures d = sanitizeText (slice0 2000 (trim productFeatures))
    /\ Data.email d = map lowerASCII (trim email).
Proof.
  unfold validateAndSanitizeInput. destruct data as [pn pf em]; simpl.
  destruct (truthy em); simpl; [|done].
  destruct em as [| |b|x|e|]; try done.
  destruct (re_test emailRegex (trim e)) eqn:Hre; simpl; [|done].
  destruct pn as [| |?|?|[|c1 p1]|]; try done.
  destruct pf as [| |?|?|[|c2 p2]|]; try done.
  destruct (jslength _ =? 0); [done|]. destruct (jslength _ =? 0); [done|].
  intros [= <-]. simpl. eexists _, _, _. repeat split; try done.
  pose proof (re_test_over emailChar _ _ emailRegex_over Hre) as Hall.
  assert (forallb isASCII (trim e) = true) as Hascii.
  { rewrite forallb_forall in *. intros c Hc. apply Hall, emailChar_safe in Hc as [Hc _].
    unfold safeChar in Hc. by repeat apply andb_prop in Hc as [Hc _]. }
  unfold toLowerCase. rewrite Hascii. apply safe_sanitize.
  rewrite forallb_forall in *. intros c (c0 & <- & Hc0)%in_map_iff.
  by apply Hall, emailChar_safe in Hc0 as [_ Hc0].
Qed.

End ValidationFacts.

(** ** Runs of the handler, block by block

    Each block of the handler is summarised by what it returns, the cache it
    leaves and the events it appends; the summaries compose along the
    structure of the handler, so no proof walks the product of all paths. *)

(** Unfold the operations of the effect monad. *)
Ltac unfold_eff :=
  unfold upsert, generateContent, send, logEvent, emit, checkRateLimitM,
    cleanCacheM, cacheGet, cacheSet, try_catch, throw, await,
    mbind, mret, Eff_bind, Eff_ret.

(** Run the unfolded computation up to the next outcome of the
    environment. *)
Ltac step := cbn beta iota zeta delta [effects rateLimitMap responseCache fst snd negb].

(** Close an equation between a run and [grow w cache tr]. *)
Ltac close_run :=
  unfold grow; step; rewrite <- ?app_assoc; simpl app; reflexivity.

Section RunFacts.
Variable unicodeLower : jsstring -> jsstring.

Lemma grow_grow (w : World) (c1 c2 : gmap jsstring CacheItem) (t1 t2 : list Event) :
  grow (grow w c1 t1) c2 t2 = grow w c2 (t1 ++ t2).
Proof. unfold grow; simpl. by rewrite app_assoc. Qed.

Lemma serviceCalls_app (a b : list Event) :
  serviceCalls (a ++ b) = serviceCalls a ++ serviceCalls b.
Proof. apply omap_app. Qed.

Lemma noGet_app (a b : list Event) : noGet (a ++ b) = noGet a && noGet b.
Proof. apply forallb_app. Qed.

Lemma noGet_getsAfterClean (tr : list Event) :
  noGet tr = true -> forall prev : option Event, getsAfterClean prev tr = true.
Proof.
  induction tr as [|e tr IH]; simpl; [done|].
  intros [He Htr]%andb_prop prev. rewrite IH by done.
  destruct e; try done; by destruct prev as [[]|].
Qed.

Lemma getsAfterClean_log (tr : list Event) (level : Level) (msg : jsstring) :
  forall prev : option Event,
    getsAfterClean prev tr = true -> getsAfterClean prev (tr ++ [Log level msg]) = true.
Proof.
  induction tr as [|e tr IH]; simpl; intros prev; [done|].
  intros [H1 H2]%andb_prop. rewrite H1. simpl. by apply IH.
Qed.

Lemma cacheTrimmed_insert (c : gmap jsstring CacheItem) (k d : jsstring) (t : Z) :
  cacheTrimmed c -> cacheTrimmed (<[k := mkItem (trim d) t]> c).
Proof.
  intros H k' v. rewrite lookup_insert. case_decide.
  - intros [= <-]. simpl. apply trim_idem.
  - apply H.
Qed.

Lemma cacheTrimmed_clean (now : Z) (c : gmap jsstring CacheItem) :
  cacheTrimmed c -> cacheTrimmed (cleanCache now c).
Proof.
  intros H k v Hk. apply (H k). unfold cleanCache in Hk.
  by apply map_lookup_filter_Some in Hk as [Hk _].
Qed.

Lemma emailSequence_run (env : Env) (email d : jsstring) (w : World) :
  exists (b : bool) (tr : list Event) (n : nat),
    emailSequence env email d w = (Normal b, grow w (responseCache w) tr)
    /\ serviceCalls tr = repeat KSend n /\ (n <= 3)%nat /\ noGet tr = true.
Proof.
  unfold emailSequence. unfold_eff. step.
  destruct (send_immediate env); step;
    [ | eexists _, _, 1%nat; split; [close_run | repeat split; lia] ].
  destruct (send_twoHour env); step;
    [ | eexists _, _, 2%nat; split; [close_run | repeat split; lia] ].
  destruct (STRIPE_CHECKOUT_LINK env) as [[|c s]|]; step;
    try (eexists _, _, 2%nat; split; [close_run | repeat split; lia]).
  destruct (send_sixHour env); step;
    eexists _, _, 3%nat; (split; [close_run | repeat split; lia]).
Qed.

Lemma cacheHit_run (env : Env) (res : list (jsstring * jsstring))
    (data : Data.t) (item : CacheItem) (w : World) :
  exists tr : list Event,
    cacheHit env res data item w
    = (Normal (mkResponse 200 res [(js "description", trim (description item))]),
       grow w (responseCache w) tr)
    /\ isPrefix (serviceCalls tr) hitOrder = true
    /\ noGet tr = true
    /\ existsb isGenerate tr = false.
Proof.
  unfold cacheHit. unfold_eff. step.
  destruct (upsert_outcome env) as [[dbError|]|e]; step;
    try (eexists; split; [close_run | done]);
    destruct (send_immediate env); step; eexists; (split; [close_run | done]).
Qed.

Lemma cacheMiss_run (env : Env) (res : list (jsstring * jsstring))
    (data : Data.t) (key : jsstring) (w : World) :
  exists (c : completion Response) (cache' : gmap jsstring CacheItem) (tr : list Event),
    cacheMiss env res data key w = (c, grow w cache' tr)
    /\ isPrefix (serviceCalls tr) missOrder = true
    /\ noGet tr = true
    /\ (forall r : Response, c = Normal r -> status r = 200)
    /\ (cacheTrimmed (responseCache w) -> cacheTrimmed cache').
Proof.
  unfold cacheMiss. unfold_eff. step.
  destruct (upsert_outcome env) as [[dbError|]|e]; step;
    try (eexists _, _, _; split; [close_run | repeat split; done]).
  all: destruct (llm_outcome env) as [d|e|]; unfold throw; step;
    try (eexists _, _, _; split; [close_run | repeat split; done]).
  all: destruct (bool_decide (d = []) || (jslength (trim d) =? 0)); step;
    try (eexists _, _, _; split; [close_run | repeat split; done]).
  all: match goal with
       | |- context [emailSequence ?e ?em ?dd ?w1] =>
           destruct (emailSequence_run e em dd w1) as (b & tr & n & -> & Hcalls & Hn3 & Hget)
       end.
  all: step; destruct b; step.
  all: eexists _, _, _; split; [close_run|].
  all: simpl; rewrite ?serviceCalls_app, ?noGet_app, Hcalls, Hget.
  all: split; [destruct n as [|[|[|[|n]]]]; [reflexivity .. | lia]|].
  all: split; [done|]; split; [by intros r [= <-]|]; intros H; by apply cacheTrimmed_insert.
Qed.

Lemma tryBlock_hit (req : Request) (env : Env) (res : list (jsstring * jsstring))
    (data : Data.t) (item : CacheItem) (w : World) :
  let key := getCacheKey unicodeLower (Data.productName data) (Data.productFeatures data) in
  validateAndSanitizeInput unicodeLower (body req) = Normal (Valid data) ->
  freshItem env key (responseCache w) = Some item ->
  tryBlock unicodeLower req env res w
  = cacheHit env res data item
      (grow w (cleanCache (now_cleanCache env) (responseCache w))
         [CacheClean (now_cleanCache env); CacheGet key]).
Proof.
  intros key Hv Hf. unfold tryBlock, freshItem in *. unfold_eff. rewrite Hv. step.
  fold key. destruct (cleanCache _ _ !! key) as [it|]; [|done].
  destruct (_ <? _); [|done]. injection Hf as ->.
  unfold grow. step. rewrite <- app_assoc. reflexivity.
Qed.

Lemma tryBlock_miss (req : Request) (env : Env) (res : list (jsstring * jsstring))
    (data : Data.t) (w : World) :
  let key := getCacheKey unicodeLower (Data.productName data) (Data.productFeatures data) in
  validateAndSanitizeInput unicodeLower (body req) = Normal (Valid data) ->
  freshItem env key (responseCache w) = None ->
  tryBlock unicodeLower req env res w
  = cacheMiss env res data key
      (grow w (cleanCache (now_cleanCache env) (responseCache w))
         [CacheClean (now_cleanCache env); CacheGet key]).
Proof.
  intros key Hv Hf. unfold tryBlock, freshItem in *. unfold_eff. rewrite Hv. step.
  fold key. unfold grow. step. rewrite <- app_assoc. simpl app.
  destruct (cleanCache _ _ !! key) as [it|]; [|done].
  destruct (_ <? _); done.
Qed.

Lemma tryBlock_run (req : Request) (env : Env) (res : list (jsstring * jsstring))
    (w : World) :
  exists (c : completion Response) (cache' : gmap jsstring CacheItem) (tr : list Event),
    tryBlock unicodeLower req env res w = (c, grow w cache' tr)
    /\ (isPrefix (serviceCalls tr) missOrder = true
        \/ isPrefix (serviceCalls tr) hitOrder = true)
    /\ (forall prev : option Event, getsAfterClean prev tr = true)
    /\ (forall r : Response, c = Normal r -> status r = 200 \/ status r = 400)
    /\ (serviceCalls tr <> [] ->
        exists data : Data.t, validateAndSanitizeInput unicodeLower (body req) = Normal (Valid data))
    /\ (cacheTrimmed (responseCache w) -> cacheTrimmed cache').
Proof.
  destruct (validateAndSanitizeInput unicodeLower (body req)) as [[err|data]|e] eqn:Hv.
  - exists (Normal (mkResponse 400 res [(js "error", err)])), (responseCache w), [].
    unfold tryBlock. unfold_eff. rewrite Hv. step. unfold grow. rewrite app_nil_r.
    destruct w. repeat split; try done; auto. intros r [= <-]. by right.
  - set (key := getCacheKey unicodeLower (Data.productName data) (Data.productFeatures data)).
    set (w1 := grow w (cleanCache (now_cleanCache env) (responseCache w))
                 [CacheClean (now_cleanCache env); CacheGet key]).
    destruct (freshItem env key (responseCache w)) as [item|] eqn:Hf.
    + rewrite (tryBlock_hit req env res data item w Hv Hf). fold key w1.
      destruct (cacheHit_run env res data item w1) as (tr & -> & Hp & Hg & _).
      eexists _, _, _. unfold w1. rewrite grow_grow. split; [reflexivity|].
      simpl. repeat split; eauto.
      * intros prev. rewrite noGet_getsAfterClean by done. by destruct prev as [[]|].
      * intros r [= <-]. by left.
      * intros H. by apply cacheTrimmed_clean.
    + rewrite (tryBlock_miss req env res data w Hv Hf). fold key w1.
      destruct (cacheMiss_run env res data key w1) as (c & cache' & tr & -> & Hp & Hg & Hs & Hc).
      eexists _, _, _. unfold w1. rewrite grow_grow. split; [reflexivity|].
      simpl. repeat split; eauto.
      * intros prev. rewrite noGet_getsAfterClean by done. by destruct prev as [[]|].
      * intros H. apply Hc. simpl. by apply cacheTrimmed_clean.
  - exists (Throw e), (responseCache w), [].
    unfold tryBlock. unfold_eff. rewrite Hv. step. unfold grow. rewrite app_nil_r.
    destruct w. repeat split; try done; auto.
Qed.

(** The handler up to the main [try], for a POST that the limiter admits. *)
Lemma handler_admitted (req : Request) (env : Env) (w : World)
    (m : gmap jsstring (list Z)) :
  let requestId := orElse (x_request_id req) (generatedId env) in
  let res := securityHeaders ++ [(js "X-Request-ID", requestId)] in
  method req = js "POST" ->
  checkRateLimit (now_rateLimit env) (random env) (getClientIP req) (rateLimitMap w)
  = (true, m) ->
  handler unicodeLower req env w
  = try_catch (tryBlock unicodeLower req env res) (catchBlock env res requestId)
      (mkWorld m (responseCache w) (effects w ++ [Log INFO (js "Request received")])).
Proof.
  intros requestId res Hm Hc. unfold handler. unfold_eff. step.
  rewrite Hm. rewrite bool_decide_eq_true_2 by done. step. rewrite Hc. reflexivity.
Qed.

(** Every run of the handler, summarised. *)
Lemma handler_run (req : Request) (env : Env) (w : World) :
  let check := checkRateLimit (now_rateLimit env) (random env) (getClientIP req)
                 (rateLimitMap w) in
  exists (r : Response) (cache' : gmap jsstring CacheItem) (tr : list Event),
    handler unicodeLower req env w
    = (Normal r,
       mkWorld (if bool_decide (method req = js "POST") then check.2 else rateLimitMap w)
         cache' (effects w ++ tr))
    /\ ((method req <> js "POST" /\ status r = 405)
        \/ (method req = js "POST" /\ check.1 = false /\ status r = 429)
        \/ (method req = js "POST" /\ check.1 = true
            /\ (status r = 200 \/ status r = 400 \/ status r = 500)))
    /\ (isPrefix (serviceCalls tr) missOrder = true
        \/ isPrefix (serviceCalls tr) hitOrder = true)
    /\ getsAfterClean None tr = true
    /\ (serviceCalls tr <> [] ->
        exists data : Data.t, validateAndSanitizeInput unicodeLower (body req) = Normal (Valid data))
    /\ (cacheTrimmed (responseCache w) -> cacheTrimmed cache').
Proof.
  intros check.
  destruct (decide (method req = js "POST")) as [Hm|Hm].
  - rewrite bool_decide_eq_true_2 by done.
    destruct check as [allowed m] eqn:Hc. unfold check in Hc. destruct allowed.
    + rewrite (handler_admitted req env w m Hm Hc). unfold try_catch.
      set (res := securityHeaders ++ _).
      set (w1 := mkWorld m (responseCache w) (effects w ++ [Log INFO (js "Request received")])).
      destruct (tryBlock_run req env res w1) as (c & cache' & tr & -> & Hp & Hg & Hs & Hv & Hc').
      destruct c as [r|e].
      * exists r, cache', (Log INFO (js "Request received") :: tr).
        split; [unfold grow, w1; simpl; by rewrite <- app_assoc|].
        simpl. rewrite Hg.
        split_and!; [|exact Hp|done|exact Hv|exact Hc'].
        right; right. destruct (Hs r eq_refl) as [->| ->]; auto.
      * unfold catchBlock. unfold_eff. step.
        eexists _, cache', (Log INFO (js "Request received") :: tr ++ [Log ERROR (js "Request failed")]).
        split; [unfold grow, w1; simpl; by rewrite <- !app_assoc|].
        assert (serviceCalls (tr ++ [Log ERROR (js "Request failed")]) = serviceCalls tr) as Hsc
          by (rewrite serviceCalls_app; apply app_nil_r).
        simpl. rewrite Hsc.
        split_and!; [|exact Hp|apply getsAfterClean_log, Hg|exact Hv|exact Hc'].
        right; right. auto.
    + exists (mkResponse 429 (securityHeaders ++ [(js "X-Request-ID", orElse (x_request_id req) (generatedId env))])
                [(js "error", js "Too many requests. Please try again later.")]),
        (responseCache w), [Log INFO (js "Request received")].
      split.
      * unfold handler. unfold_eff. step. rewrite bool_decide_eq_true_2 by done. step.
        rewrite Hc. reflexivity.
      * simpl. split_and!; [right; left; done|by left|done|done|done].
  - rewrite bool_decide_eq_false_2 by done.
    exists (mkResponse 405 (securityHeaders ++ [(js "X-Request-ID", orElse (x_request_id req) (generatedId env))])
              [(js "error", js "Method Not Allowed")]),
      (responseCache w), [Log INFO (js "Request received")].
    split.
    + unfold handler. unfold_eff. step. rewrite bool_decide_eq_false_2 by done. reflexivity.
    + simpl. split_and!; [by left|by left|done|done|done].
Qed.

End RunFacts.

(** ** The rate limiter along a sequence of requests *)

Section LimiterFacts.
Variable unicodeLower : jsstring -> jsstring.

Lemma inWindow_spec (now t : Z) : inWindow now t = true <-> now - t < 60000.
Proof. unfold inWindow, RATE_LIMIT_WINDOW. rewrite Z.ltb_lt. lia. Qed.

Lemma filter_inWindow_later (now now' : Z) (l : list Z) :
  now <= now' ->
  List.filter (inWindow now') (List.filter (inWindow now) l) = List.filter (inWindow now') l.
Proof.
  intros Hle. induction l as [|t l IH]; simpl; [done|].
  destruct (inWindow now t) eqn:E; simpl; rewrite IH; [done|].
  destruct (inWindow now' t) eqn:E'; [|done].
  apply inWindow_spec in E'. assert (inWindow now t = true) by (apply inWindow_spec; lia).
  congruence.
Qed.

Lemma sweep_window (now : Z) (l : list Z) :
  default [] (sweep now l) = List.filter (inWindow now) l.
Proof.
  unfold sweep. by destruct (List.filter (inWindow now) l).
Qed.

Lemma checkRateLimit_false (now : Z) (rnd : float) (ip : jsstring)
    (m : gmap jsstring (list Z)) :
  (checkRateLimit now rnd ip m).1 = false
  <-> 5 <= Z.of_nat (length (window now m ip)).
Proof.
  unfold checkRateLimit, window, RATE_LIMIT_MAX_REQUESTS.
  destruct (Z.geb_spec (Z.of_nat (length (List.filter (inWindow now) (default [] (m !! ip))))) 5) as [H|H].
  - simpl. split; [lia|done].
  - destruct (PrimFloat.ltb rnd onePercent); simpl; split; try done; lia.
Qed.

Lemma checkRateLimit_rejected (now : Z) (rnd : float) (ip : jsstring)
    (m : gmap jsstring (list Z)) :
  (checkRateLimit now rnd ip m).1 = false -> (checkRateLimit now rnd ip m).2 = m.
Proof.
  unfold checkRateLimit. destruct (_ >=? _); [done|].
  by destruct (PrimFloat.ltb rnd onePercent).
Qed.

Lemma checkRateLimit_admit (now : Z) (rnd : float) (ip : jsstring)
    (m : gmap jsstring (list Z)) :
  (checkRateLimit now rnd ip m).1 = true ->
  (checkRateLimit now rnd ip m).2 !! ip = Some (window now m ip ++ [now]).
Proof.
  unfold checkRateLimit, window.
  destruct (_ >=? _); [done|].
  destruct (PrimFloat.ltb rnd onePercent); simpl; intros _.
  - rewrite lookup_omap, lookup_insert_eq. simpl. unfold sweep.
    rewrite List.filter_app, (filter_inWindow_later now now) by lia. simpl.
    replace (inWindow now now) with true by (symmetry; apply inWindow_spec; lia).
    by destruct (List.filter (inWindow now) (default [] (m !! ip))).
  - by rewrite lookup_insert_eq.
Qed.

Lemma checkRateLimit_other (now now' : Z) (rnd : float) (ip ip' : jsstring)
    (m : gmap jsstring (list Z)) :
  ip' <> ip -> now <= now' ->
  window now' (checkRateLimit now rnd ip' m).2 ip = window now' m ip.
Proof.
  intros Hne Hle. unfold checkRateLimit, window.
  destruct (_ >=? _); [done|].
  destruct (PrimFloat.ltb rnd onePercent); simpl.
  - rewrite lookup_omap, lookup_insert_ne by done.
    destruct (m !! ip) as [l|]; simpl; [|done].
    rewrite sweep_window. by apply filter_inWindow_later.
  - by rewrite lookup_insert_ne.
Qed.

Lemma inSpan_inWindow (T now t : Z) :
  inSpan T now = true -> inSpan T t = true -> inWindow now t = true.
Proof.
  unfold inSpan. intros [H1 H2]%andb_prop [H3 H4]%andb_prop.
  apply inWindow_spec. unfold RATE_LIMIT_WINDOW in *. lia.
Qed.

Lemma filter_length_le_impl (P Q : Z -> bool) (l : list Z) :
  (forall t, P t = true -> Q t = true) ->
  (length (List.filter P l) <= length (List.filter Q l))%nat.
Proof.
  intros H. induction l as [|t l IH]; simpl; [lia|].
  destruct (P t) eqn:E.
  - rewrite (H t E). simpl. lia.
  - destruct (Q t); simpl; lia.
Qed.

(** The invariant of the limiter along a run, for one IP: whoever reads the
    map at [L] or later sees at least the admitted requests that are still
    less than 60 seconds old. *)
Lemma admittedAt_bound (ip : jsstring) (rs : list (Request * Env)) :
  forall (w : World) (adm : list Z) (L : Z),
    (forall now' : Z, L <= now' ->
       (length (List.filter (inWindow now') adm)
        <= length (window now' (rateLimitMap w) ip))%nat) ->
    (forall T : Z, (length (List.filter (inSpan T) adm) <= 5)%nat) ->
    nondecreasing (L :: map (fun p => now_rateLimit p.2) rs) = true ->
    forall T : Z,
      (length (List.filter (inSpan T) (adm ++ admittedAt unicodeLower ip rs w)) <= 5)%nat.
Proof.
  induction rs as [|[req env] rs IH]; intros w adm L Hinv Hadm Hmono T.
  - simpl. rewrite app_nil_r. apply Hadm.
  - simpl in Hmono. apply andb_prop in Hmono as [HL Hmono]. apply Z.leb_le in HL.
    simpl in HL. simpl admittedAt.
    destruct (handler_run unicodeLower req env w) as (r & cache' & tr & -> & Hst & _).
    set (now := now_rateLimit env) in *.
    set (check := checkRateLimit now (random env) (getClientIP req) (rateLimitMap w)) in *.
    set (w' := mkWorld _ cache' _).
    destruct (admitted (Normal r) && bool_decide (getClientIP req = ip)) eqn:Had.
    + apply andb_prop in Had as [Had Hip]. apply bool_decide_eq_true_1 in Hip.
      assert (method req = js "POST" /\ check.1 = true) as [Hm Hc].
      { simpl in Had. destruct Hst as [[_ Hs]|[(_ & _ & Hs)|(? & ? & _)]]; [| |done];
          rewrite Hs in Had; done. }
      rewrite app_assoc. apply (IH w' (adm ++ [now]) now); [| |done].
      * intros now' Hle. unfold w'. simpl. rewrite bool_decide_eq_true_2 by done.
        unfold window at 1. rewrite <- Hip at 1. unfold check at 1.
        rewrite checkRateLimit_admit by done. simpl.
        rewrite !List.filter_app, !length_app. unfold window.
        rewrite filter_inWindow_later by done. rewrite Hip.
        specialize (Hinv now' ltac:(lia)). unfold window in Hinv. lia.
      * intros T'. rewrite List.filter_app, length_app. simpl.
        destruct (inSpan T' now) eqn:Hspan; simpl; [|specialize (Hadm T'); lia].
        assert (length (List.filter (inSpan T') adm)
                <= length (List.filter (inWindow now) adm))%nat as H1
          by (apply filter_length_le_impl; intros t; by apply inSpan_inWindow).
        specialize (Hinv now HL).
        assert (~ 5 <= Z.of_nat (length (window now (rateLimitMap w) ip))) as H2.
        { rewrite <- Hip. intros H.
          apply (proj2 (checkRateLimit_false now (random env) _ _)) in H.
          fold check in H. congruence. }
        lia.
    + simpl app. apply (IH w' adm now); [|done|done].
      intros now' Hle. specialize (Hinv now' ltac:(lia)).
      enough (window now' (rateLimitMap w') ip = window now' (rateLimitMap w) ip) as -> by done.
      unfold w'. simpl.
      destruct (decide (method req = js "POST")) as [Hm|Hm];
        [rewrite bool_decide_eq_true_2 by done
        |by rewrite bool_decide_eq_false_2 by done].
      destruct (check.1) eqn:Hc.
      * destruct (decide (getClientIP req = ip)) as [Hip|Hip].
        -- exfalso. rewrite (bool_decide_eq_true_2 _ Hip), andb_true_r in Had.
           simpl in Had. destruct Hst as [[? _]|[(_ & ? & _)|(_ & _ & Hs)]]; [done|congruence|].
           destruct Hs as [Hs|[Hs|Hs]]; rewrite Hs in Had; done.
        -- by apply checkRateLimit_other.
      * unfold check in *. by rewrite checkRateLimit_rejected.
Qed.

End LimiterFacts.

(** ** The cache-miss branch when the LLM answers *)

Section MissFacts.
Variable unicodeLower : jsstring -> jsstring.

Lemma mails_app (a b : list Event) : mails (a ++ b) = mails a ++ mails b.
Proof. apply omap_app. Qed.

Lemma not_blank (d : jsstring) :
  trim d <> [] -> bool_decide (d = []) || (jslength (trim d) =? 0) = false.
Proof.
  intros H. apply orb_false_iff. split.
  - apply bool_decide_eq_false_2. intros ->. by apply H.
  - apply Z.eqb_neq. unfold jslength. destruct (trim d); simpl; [done|lia].
Qed.

Lemma cleanCache_lookup (now : Z) (c : gmap jsstring CacheItem) (k : jsstring)
    (v : CacheItem) :
  cleanCache now c !! k = Some v <-> c !! k = Some v /\ expired now v = false.
Proof. unfold cleanCache. by rewrite map_lookup_filter_Some. Qed.

Lemma expired_spec (now : Z) (v : CacheItem) :
  expired now v = false <-> now - timestamp v <= 300000.
Proof.
  unfold expired, CACHE_TTL. rewrite Z.gtb_ltb, Z.ltb_ge. lia.
Qed.

(** The cache-miss branch when the upsert returns and the LLM answers with a
    description that is not blank; [P] is what is known of the email
    sequence. *)
Lemma cacheMiss_generated (env : Env) (res : list (jsstring * jsstring))
    (data : Data.t) (key : jsstring) (w : World) (dbError : option error)
    (d : jsstring) (P : bool -> list Event -> Prop) :
  (forall w1 : World, exists (b : bool) (tr : list Event),
      emailSequence env (Data.email data) d w1
      = (Normal b, grow w1 (responseCache w1) tr) /\ P b tr) ->
  upsert_outcome env = Normal dbError ->
  llm_outcome env = LlmText d ->
  trim d <> [] ->
  exists (b : bool) (tr : list Event),
    P b tr
    /\ cacheMiss env res data key w
       = (Normal (mkResponse 200 res [(js "description", trim d)]),
          grow w (<[key := mkItem (trim d) (now_store env)]> (responseCache w))
            ([ Log INFO (js "Cache miss");
               Upsert (Data.email data) (Data.productName data);
               match dbError with
               | Some _ => Log WARN (js "Database error occurred")
               | None => Log INFO (js "Data saved to database")
               end;
               GenerateContent
                 (getLLMPrompt (Data.productName data) (Data.productFeatures data));
               Log INFO (js "LLM description generated successfully");
               CacheSet key (mkItem (trim d) (now_store env)) ]
             ++ tr
             ++ (if b then [Log INFO (js "All emails sent successfully")] else [])
             ++ [Log INFO (js "Request completed successfully")])).
Proof.
  intros Hseq Hdb Hllm Hd.
  unfold cacheMiss. unfold_eff. step. rewrite Hdb. step.
  destruct dbError; step; rewrite Hllm; step; rewrite (not_blank d Hd); step.
  all: match goal with
       | |- context [emailSequence ?e ?em ?dd ?w1] =>
           destruct (Hseq w1) as (b & tr & -> & HP)
       end.
  all: exists b, tr; split; [exact HP|].
  all: step; destruct b; step; unfold grow; step;
    rewrite <- ?app_assoc; simpl app; reflexivity.
Qed.

End MissFacts.
(** ** The handler, exit by exit *)

Section Exits.
Variable unicodeLower : jsstring -> jsstring.

Lemma handler_not_post (req : Request) (env : Env) (w : World) :
  let requestId := orElse (x_request_id req) (generatedId env) in
  let res := securityHeaders ++ [(js "X-Request-ID", requestId)] in
  method req <> js "POST" ->
  handler unicodeLower req env w
  = (Normal (mkResponse 405 res [(js "error", js "Method Not Allowed")]),
     grow w (responseCache w) [Log INFO (js "Request received")]).
Proof.
  intros requestId res Hm. unfold handler. unfold_eff. step.
  by rewrite bool_decide_eq_false_2 by done.
Qed.

Lemma handler_limited (req : Request) (env : Env) (w : World) :
  let requestId := orElse (x_request_id req) (generatedId env) in
  let res := securityHeaders ++ [(js "X-Request-ID", requestId)] in
  method req = js "POST" ->
  (checkRateLimit (now_rateLimit env) (random env) (getClientIP req)
     (rateLimitMap w)).1 = false ->
  handler unicodeLower req env w
  = (Normal (mkResponse 429 res
               [(js "error", js "Too many requests. Please try again later.")]),
     grow w (responseCache w) [Log INFO (js "Request received")]).
Proof.
  intros requestId res Hm Hc. unfold handler. unfold_eff. step.
  rewrite bool_decide_eq_true_2 by done. step.
  pose proof (checkRateLimit_rejected _ _ _ _ Hc) as Hmap.
  destruct (checkRateLimit _ _ _ _) as [a m]. simpl in *. by subst.
Qed.

Lemma handler_invalid (req : Request) (env : Env) (w : World)
    (m : gmap jsstring (list Z)) (error : jsstring) :
  let requestId := orElse (x_request_id req) (generatedId env) in
  let res := securityHeaders ++ [(js "X-Request-ID", requestId)] in
  method req = js "POST" ->
  checkRateLimit (now_rateLimit env) (random env) (getClientIP req) (rateLimitMap w)
  = (true, m) ->
  validateAndSanitizeInput unicodeLower (body req) = Normal (Invalid error) ->
  handler unicodeLower req env w
  = (Normal (mkResponse 400 res [(js "error", error)]),
     mkWorld m (responseCache w) (effects w ++ [Log INFO (js "Request received")])).
Proof.
  intros requestId res Hm Hc Hv.
  rewrite (handler_admitted unicodeLower req env w m Hm Hc).
  unfold try_catch, tryBlock. unfold_eff. by rewrite Hv.
Qed.

Lemma handler_validation_throws (req : Request) (env : Env) (w : World)
    (m : gmap jsstring (list Z)) (e : error) :
  let requestId := orElse (x_request_id req) (generatedId env) in
  let res := securityHeaders ++ [(js "X-Request-ID", requestId)] in
  method req = js "POST" ->
  checkRateLimit (now_rateLimit env) (random env) (getClientIP req) (rateLimitMap w)
  = (true, m) ->
  validateAndSanitizeInput unicodeLower (body req) = Throw e ->
  handler unicodeLower req env w
  = (Normal (mkResponse 500 res
               [ (js "error",
                  if bool_decide (NODE_ENV env = Some (js "development"))
                  then message e else genericError);
                 (js "requestId", requestId) ]),
     mkWorld m (responseCache w)
       (effects w ++ [Log INFO (js "Request received"); Log ERROR (js "Request failed")])).
Proof.
  intros requestId res Hm Hc Hv.
  rewrite (handler_admitted unicodeLower req env w m Hm Hc).
  unfold try_catch, tryBlock, catchBlock. unfold_eff. rewrite Hv. step.
  by rewrite <- app_assoc.
Qed.

(** The handler on a validated POST that the limiter admits and the cache
    answers. *)
Lemma handler_hit (req : Request) (env : Env) (w : World)
    (m : gmap jsstring (list Z)) (data : Data.t) (item : CacheItem) :
  let requestId := orElse (x_request_id req) (generatedId env) in
  let res := securityHeaders ++ [(js "X-Request-ID", requestId)] in
  let key := getCacheKey unicodeLower (Data.productName data) (Data.productFeatures data) in
  method req = js "POST" ->
  checkRateLimit (now_rateLimit env) (random env) (getClientIP req) (rateLimitMap w)
  = (true, m) ->
  validateAndSanitizeInput unicodeLower (body req) = Normal (Valid data) ->
  freshItem env key (responseCache w) = Some item ->
  handler unicodeLower req env w
  = cacheHit env res data item
      (mkWorld m (cleanCache (now_cleanCache env) (responseCache w))
         (effects w ++ [ Log INFO (js "Request received");
                         CacheClean (now_cleanCache env); CacheGet key ])).
Proof.
  intros requestId res key Hm Hc Hv Hf.
  rewrite (handler_admitted unicodeLower req env w m Hm Hc). fold requestId res.
  unfold try_catch.
  rewrite (tryBlock_hit unicodeLower req env res data item
             (mkWorld m (responseCache w) (effects w ++ [Log INFO (js "Request received")]))
             Hv Hf).
  fold key. unfold grow. simpl. rewrite <- app_assoc. simpl.
  match goal with
  | |- context [cacheHit ?e ?r0 ?d0 ?i0 ?w0] =>
      destruct (cacheHit_run e r0 d0 i0 w0) as (tr & -> & _)
  end.
  reflexivity.
Qed.

(** The mails of the cache-hit branch: none when the upsert throws, else the
    immediate email with the cached description; never a scheduled one. *)
Lemma cacheHit_mails (env : Env) (res : list (jsstring * jsstring))
    (data : Data.t) (item : CacheItem) (w : World) :
  exists tr : list Event,
    cacheHit env res data item w
    = (Normal (mkResponse 200 res [(js "description", trim (description item))]),
       grow w (responseCache w) tr)
    /\ mails tr
       = match upsert_outcome env with
         | Normal _ =>
             [ mailFor env (Data.email data)
                 (emailTemplates.immediate (description item) (Data.email data)) None ]
         | Throw _ => []
         end
    /\ serviceCalls tr
       = match upsert_outcome env with
         | Normal _ => [KUpsert; KSend]
         | Throw _ => [KUpsert]
         end
    /\ calls tr
       = CUpsert :: match upsert_outcome env with
                    | Normal _ => [CSendNow]
                    | Throw _ => []
                    end
    /\ upserts tr = [(Data.email data, Data.productName data)]
    /\ noGet tr = true.
Proof.
  unfold cacheHit. unfold_eff. step.
  destruct (upsert_outcome env) as [[dbError|]|e]; step;
    try (eexists; split; [close_run | done]);
    destruct (send_immediate env); step; eexists; (split; [close_run | done]).
Qed.

(** The email sequence, whatever the provider answers: the mails handed to
    it, which stop after the first call that throws. *)
Lemma emailSequence_exact (env : Env) (email d : jsstring) (w : World) :
  exists (b : bool) (tr : list Event),
    emailSequence env email d w = (Normal b, grow w (responseCache w) tr)
    /\ mails tr
       = mailFor env email (emailTemplates.immediate d email) None
         :: match send_immediate env with
            | Throw _ => []
            | Normal _ =>
                mailFor env email (emailTemplates.twoHour email)
                  (Some (now_twoHour env + 7200000))
                :: match send_twoHour env with
                   | Throw _ => []
                   | Normal _ =>
                       match STRIPE_CHECKOUT_LINK env with
                       | Some ((_ :: _) as stripeLink) =>
                           [ mailFor env email (emailTemplates.sixHour stripeLink email)
                               (Some (now_sixHour env + 21600000)) ]
                       | _ => []
                       end
                   end
            end
    /\ calls tr
       = CSendNow
         :: match send_immediate env with
            | Throw _ => []
            | Normal _ =>
                CSendLater
                :: match send_twoHour env with
                   | Throw _ => []
                   | Normal _ =>
                       if truthyStr (STRIPE_CHECKOUT_LINK env) then [CSendLater] else []
                   end
            end
    /\ upserts tr = []
    /\ noGet tr = true.
Proof.
  unfold emailSequence. unfold_eff. step.
  destruct (send_immediate env); step;
    [ | eexists _, _; split; [close_run | done] ].
  destruct (send_twoHour env); step;
    [ | eexists _, _; split; [close_run | done] ].
  destruct (STRIPE_CHECKOUT_LINK env) as [[|c s]|]; step;
    try (eexists _, _; split; [close_run | done]).
  destruct (send_sixHour env); step; eexists _, _; (split; [close_run | done]).
Qed.

(** The service calls of the cache-miss branch, whatever the services
    answer, and the cache it leaves. *)
Lemma cacheMiss_calls (env : Env) (res : list (jsstring * jsstring))
    (data : Data.t) (key : jsstring) (w : World) :
  exists (c : completion Response) (cache' : gmap jsstring CacheItem) (tr : list Event),
    cacheMiss env res data key w = (c, grow w cache' tr)
    /\ calls tr
       = CUpsert
         :: match upsert_outcome env with
            | Throw _ => []
            | Normal _ =>
                CGenerate
                :: match llm_outcome env with
                   | LlmText d =>
                       if bool_decide (trim d = []) then []
                       else
                         CSendNow
                         :: match send_immediate env with
                            | Throw _ => []
                            | Normal _ =>
                                CSendLater
                                :: match send_twoHour env with
                                   | Throw _ => []
                                   | Normal _ =>
                                       if truthyStr (STRIPE_CHECKOUT_LINK env)
                                       then [CSendLater] else []
                                   end
                            end
                   | _ => []
                   end
            end
    /\ upserts tr = [(Data.email data, Data.productName data)]
    /\ noGet tr = true
    /\ (cache' = responseCache w
        \/ exists item : CacheItem, cache' = <[key := item]> (responseCache w)).
Proof.
  destruct (upsert_outcome env) as [dbError|e] eqn:Hdb.
  - destruct (llm_outcome env) as [d|e|] eqn:Hllm.
    + destruct (decide (trim d = [])) as [Hd|Hd].
      * rewrite bool_decide_eq_true_2 by done.
        unfold cacheMiss. unfold_eff. step. rewrite Hdb. step.
        destruct dbError; step; rewrite Hllm; step; rewrite Hd, orb_true_r; step;
          eexists _, _, _; (split; [close_run|split_and!; try done; by left]).
      * rewrite bool_decide_eq_false_2 by done.
        destruct (cacheMiss_generated env res data key w dbError d
                    (fun _ tr => calls tr = _ /\ upserts tr = [] /\ noGet tr = true)
                    (fun w1 =>
                       match emailSequence_exact env (Data.email data) d w1 with
                       | ex_intro _ b (ex_intro _ tr (conj Heq (conj _ H))) =>
                           ex_intro _ b (ex_intro _ tr (conj Heq H))
                       end)
                    Hdb Hllm Hd) as (b & tr & (Hcalls & Hup & Hget) & ->).
        eexists _, _, _. split; [reflexivity|].
        unfold calls, upserts in *. rewrite !omap_app, ?noGet_app.
        unfold calls, upserts in Hcalls, Hup. rewrite Hcalls, Hup.
        split_and!; [| | |right; eauto].
        { destruct dbError, b; simpl; by rewrite ?app_nil_r. }
        { by destruct dbError, b. }
        { rewrite Hget. by destruct dbError, b. }
    + unfold cacheMiss. unfold_eff. step. rewrite Hdb. step.
      destruct dbError; step; rewrite Hllm; step;
        eexists _, _, _; (split; [close_run|split_and!; try done; by left]).
    + unfold cacheMiss. unfold_eff. step. rewrite Hdb. step.
      destruct dbError; step; rewrite Hllm; step;
        eexists _, _, _; (split; [close_run|split_and!; try done; by left]).
  - unfold cacheMiss. unfold_eff. step. rewrite Hdb. step.
    eexists _, _, _. split; [close_run|split_and!; try done; by left].
Qed.

(** The cache-miss branch, whatever the services answer: it throws and
    leaves the cache alone, or it answers 200 with the trimmed description,
    which is not empty, and stores it under the key. *)
Lemma cacheMiss_outcome (env : Env) (res : list (jsstring * jsstring))
    (data : Data.t) (key : jsstring) (w : World) :
  exists (c : completion Response) (cache' : gmap jsstring CacheItem) (tr : list Event),
    cacheMiss env res data key w = (c, grow w cache' tr)
    /\ (forall o : option error,
          upsert_outcome env = Normal o -> existsb isGenerate tr = true)
    /\ ((exists e : error, c = Throw e /\ cache' = responseCache w /\ mails tr = [])
        \/ (exists d : jsstring,
              c = Normal (mkResponse 200 res [(js "description", trim d)])
              /\ trim d <> []
              /\ llm_outcome env = LlmText d
              /\ cache' = <[key := mkItem (trim d) (now_store env)]> (responseCache w))).
Proof.
  destruct (upsert_outcome env) as [dbError|e] eqn:Hdb.
  - destruct (llm_outcome env) as [d|e|] eqn:Hllm.
    + destruct (decide (trim d = [])) as [Hd|Hd].
      * unfold cacheMiss. unfold_eff. step. rewrite Hdb. step.
        destruct dbError; step; rewrite Hllm; step; rewrite Hd, orb_true_r; step;
          eexists _, _, _; (split; [close_run|split; [done|left; eauto]]).
      * destruct (cacheMiss_generated env res data key w dbError d (fun _ _ => True)
                    (fun w1 =>
                       match emailSequence_run env (Data.email data) d w1 with
                       | ex_intro _ b (ex_intro _ tr (ex_intro _ n (conj Heq _))) =>
                           ex_intro _ b (ex_intro _ tr (conj Heq I))
                       end)
                    Hdb Hllm Hd) as (b & tr & _ & ->).
        eexists _, _, _. split; [reflexivity|]. split; [|right; eauto].
        intros o _. by destruct dbError.
    + unfold cacheMiss. unfold_eff. step. rewrite Hdb. step.
      destruct dbError; step; rewrite Hllm; step;
        eexists _, _, _; (split; [close_run|split; [done|left; eauto]]).
    + unfold cacheMiss. unfold_eff. step. rewrite Hdb. step.
      destruct dbError; step; rewrite Hllm; step;
        eexists _, _, _; (split; [close_run|split; [done|left; eauto]]).
  - unfold cacheMiss. unfold_eff. step. rewrite Hdb. step.
    eexists _, _, _. split; [close_run|split; [done|left; eauto]].
Qed.

(** The six exits of the handler. *)
Lemma handler_exits (req : Request) (env : Env) (w : World) :
  method req <> js "POST"
  \/ (method req = js "POST"
      /\ (checkRateLimit (now_rateLimit env) (random env) (getClientIP req)
            (rateLimitMap w)).1 = false)
  \/ (method req = js "POST"
      /\ exists m : gmap jsstring (list Z),
           checkRateLimit (now_rateLimit env) (random env) (getClientIP req)
             (rateLimitMap w) = (true, m)
           /\ ((exists error : jsstring,
                   validateAndSanitizeInput unicodeLower (body req)
                   = Normal (Invalid error))
               \/ (exists e : error,
                     validateAndSanitizeInput unicodeLower (body req) = Throw e)
               \/ (exists data : Data.t,
                     validateAndSanitizeInput unicodeLower (body req)
                     = Normal (Valid data)
                     /\ ((exists item : CacheItem,
                            freshItem env
                              (getCacheKey unicodeLower (Data.productName data)
                                 (Data.productFeatures data))
                              (responseCache w) = Some item)
                         \/ freshItem env
                              (getCacheKey unicodeLower (Data.productName data)
                                 (Data.productFeatures data))
                              (responseCache w) = None)))).
Proof.
  destruct (decide (method req = js "POST")) as [Hm|Hm]; [|by left].
  destruct (checkRateLimit _ _ _ _) as [[] m] eqn:Hc; [|right; left; done].
  right; right. split; [done|]. exists m. split; [done|].
  destruct (validateAndSanitizeInput _ _) as [[err|data]|e]; eauto.
  right; right. exists data. split; [done|].
  destruct (freshItem _ _ _); eauto.
Qed.

End Exits.


(** ** The claims about the generate handler *)

Section Claims.
Variable unicodeLower : jsstring -> jsstring.

(** The handler on a validated POST that the limiter admits and the cache
    does not answer. *)
Lemma handler_miss (req : Request) (env : Env) (w : World)
    (m : gmap jsstring (list Z)) (data : Data.t) :
  let requestId := orElse (x_request_id req) (generatedId env) in
  let res := securityHeaders ++ [(js "X-Request-ID", requestId)] in
  let key := getCacheKey unicodeLower (Data.productName data) (Data.productFeatures data) in
  method req = js "POST" ->
  checkRateLimit (now_rateLimit env) (random env) (getClientIP req) (rateLimitMap w)
  = (true, m) ->
  validateAndSanitizeInput unicodeLower (body req) = Normal (Valid data) ->
  freshItem env key (responseCache w) = None ->
  handler unicodeLower req env w
  = try_catch (cacheMiss env res data key) (catchBlock env res requestId)
      (mkWorld m (cleanCache (now_cleanCache env) (responseCache w))
         (effects w ++ [ Log INFO (js "Request received");
                         CacheClean (now_cleanCache env); CacheGet key ])).
Proof.
  intros requestId res key Hm Hc Hv Hf.
  rewrite (handler_admitted unicodeLower req env w m Hm Hc). fold requestId res.
  unfold try_catch.
  rewrite (tryBlock_miss unicodeLower req env res data
             (mkWorld m (responseCache w) (effects w ++ [Log INFO (js "Request received")]))
             Hv Hf).
  fold key. unfold grow. simpl. by rewrite <- app_assoc.
Qed.

(** What the handler calls after validation accepted the input, by what the
    cache and the services answer. *)
Lemma handler_validated (req : Request) (env : Env) (w : World) (data : Data.t) :
  let key := getCacheKey unicodeLower (Data.productName data) (Data.productFeatures data) in
  method req = js "POST" ->
  (checkRateLimit (now_rateLimit env) (random env) (getClientIP req)
     (rateLimitMap w)).1 = true ->
  validateAndSanitizeInput unicodeLower (body req) = Normal (Valid data) ->
  exists (r : Response) (w' : World) (tr : list Event),
    handler unicodeLower req env w = (Normal r, w')
    /\ effects w'
       = effects w
         ++ [ Log INFO (js "Request received");
              CacheClean (now_cleanCache env); CacheGet key ] ++ tr
    /\ noGet tr = true
    /\ upserts tr = [(Data.email data, Data.productName data)]
    /\ calls tr
       = CUpsert
         :: match upsert_outcome env with
            | Throw _ => []
            | Normal _ =>
                match freshItem env key (responseCache w) with
                | Some _ => [CSendNow]
                | None =>
                    CGenerate
                    :: match llm_outcome env with
                       | LlmText d =>
                           if bool_decide (trim d = []) then []
                           else
                             CSendNow
                             :: match send_immediate env with
                                | Throw _ => []
                                | Normal _ =>
                                    CSendLater
                                    :: match send_twoHour env with
                                       | Throw _ => []
                                       | Normal _ =>
                                           if truthyStr (STRIPE_CHECKOUT_LINK env)
                                           then [CSendLater] else []
                                       end
                                end
                       | _ => []
                       end
                end
            end
    /\ (responseCache w' = cleanCache (now_cleanCache env) (responseCache w)
        \/ exists item : CacheItem,
             responseCache w'
             = <[key := item]> (cleanCache (now_cleanCache env) (responseCache w))).
Proof.
  intros key Hm Hc Hv.
  destruct (checkRateLimit _ _ _ _) as [a m] eqn:Hcr. simpl in Hc. subst a.
  destruct (freshItem env key (responseCache w)) as [item|] eqn:Hf.
  - rewrite (handler_hit unicodeLower req env w m data item Hm Hcr Hv Hf).
    match goal with
    | |- context [cacheHit ?e ?r0 ?d0 ?i0 ?w0] =>
        destruct (cacheHit_mails e r0 d0 i0 w0)
          as (tr & -> & _ & _ & Hcalls & Hup & Hget)
    end.
    eexists _, _, tr. split; [reflexivity|].
    split; [unfold grow; simpl; by rewrite <- app_assoc|].
    split_and!; [done|done| |by left].
    rewrite Hcalls. by destruct (upsert_outcome env).
  - rewrite (handler_miss req env w m data Hm Hcr Hv Hf). unfold try_catch.
    match goal with
    | |- context [cacheMiss ?e ?r0 ?d0 ?k0 ?w0] =>
        destruct (cacheMiss_calls e r0 d0 k0 w0)
          as (c & cache' & tr & -> & Hcalls & Hup & Hget & Hcache)
    end.
    destruct c as [r|e].
    + eexists _, _, tr. split; [reflexivity|].
      split; [unfold grow; simpl; by rewrite <- app_assoc|].
      split_and!; [done|done| |exact Hcache].
      rewrite Hcalls. by destruct (upsert_outcome env).
    + unfold catchBlock. unfold_eff. step.
      eexists _, _, (tr ++ [Log ERROR (js "Request failed")]). split; [reflexivity|].
      split; [unfold grow; simpl; by rewrite <- !app_assoc|].
      unfold calls, upserts in *. rewrite !omap_app, noGet_app, Hget, Hup, Hcalls.
      simpl. rewrite !app_nil_r.
      split_and!; [done|done| |exact Hcache].
      by destruct (upsert_outcome env).
Qed.

(** What the handler does when the request is not a POST, is refused by the
    limiter, or is not accepted by validation: it writes one or two lines to
    the log and neither calls a service nor touches the cache. *)
Lemma handler_unvalidated (req : Request) (env : Env) (w : World) :
  (forall data : Data.t,
      method req = js "POST" ->
      (checkRateLimit (now_rateLimit env) (random env) (getClientIP req)
         (rateLimitMap w)).1 = true ->
      validateAndSanitizeInput unicodeLower (body req) <> Normal (Valid data)) ->
  exists (r : Response) (w' : World) (tr : list Event),
    handler unicodeLower req env w = (Normal r, w')
    /\ effects w' = effects w ++ tr
    /\ (tr = [Log INFO (js "Request received")]
        \/ tr = [Log INFO (js "Request received"); Log ERROR (js "Request failed")])
    /\ responseCache w' = responseCache w.
Proof.
  intros Hno.
  destruct (handler_exits unicodeLower req env w)
    as [Hm|[[Hm Hc]|(Hm & m & Hc & [[err Hv]|[[e Hv]|(data & Hv & _)]])]].
  - rewrite (handler_not_post unicodeLower req env w Hm).
    eexists _, _, _. split; [reflexivity|]. split; [reflexivity|]. split; [by left|done].
  - rewrite (handler_limited unicodeLower req env w Hm Hc).
    eexists _, _, _. split; [reflexivity|]. split; [reflexivity|]. split; [by left|done].
  - rewrite (handler_invalid unicodeLower req env w m err Hm Hc Hv).
    eexists _, _, _. split; [reflexivity|]. split; [reflexivity|]. split; [by left|done].
  - rewrite (handler_validation_throws unicodeLower req env w m e Hm Hc Hv).
    eexists _, _, _. split; [reflexivity|]. split; [reflexivity|]. split; [by right|done].
  - exfalso. apply (Hno data Hm); [by rewrite Hc|done].
Qed.

(** C1, as amended.  The generate handler processes a request in this
    sequence: it validates the input, upserts the lead row, calls the
    generative-AI provider (on a cache miss only), then calls the email
    provider for the immediate email and, on a cache miss only, for the
    scheduled ones; each step is taken only if the one before returned.  So a
    run makes no service call at all unless the request is a POST that the
    limiter admits and validation accepted its input; and when it did, the
    calls of the run are exactly: the upsert; then, if
    the upsert returned, on a cache hit the immediate email and nothing more,
    and on a cache miss the LLM, then (if it gave a description that is not
    blank) the immediate email, then (if that call returned) the email
    scheduled 2 hours later, then (if that call returned and
    STRIPE_CHECKOUT_LINK is set) the one scheduled 6 hours later. *)
Theorem service_calls_in_source_order (req : Request) (env : Env) (w : World) :
  exists (r : Response) (w' : World) (tr : list Event),
    handler unicodeLower req env w = (Normal r, w')
    /\ effects w' = effects w ++ tr
    /\ (calls tr = []
        \/ exists data : Data.t,
             method req = js "POST"
             /\ (checkRateLimit (now_rateLimit env) (random env) (getClientIP req)
                   (rateLimitMap w)).1 = true
             /\ validateAndSanitizeInput unicodeLower (body req) = Normal (Valid data))
    /\ (forall data : Data.t,
          method req = js "POST" ->
          (checkRateLimit (now_rateLimit env) (random env) (getClientIP req)
             (rateLimitMap w)).1 = true ->
          validateAndSanitizeInput unicodeLower (body req) = Normal (Valid data) ->
          calls tr
          = CUpsert
            :: match upsert_outcome env with
               | Throw _ => []
               | Normal _ =>
                   match freshItem env
                           (getCacheKey unicodeLower (Data.productName data)
                              (Data.productFeatures data))
                           (responseCache w) with
                   | Some _ => [CSendNow]
                   | None =>
                       CGenerate
                       :: match llm_outcome env with
                          | LlmText d =>
                              if bool_decide (trim d = []) then []
                              else
                                CSendNow
                                :: match send_immediate env with
                                   | Throw _ => []
                                   | Normal _ =>
                                       CSendLater
                                       :: match send_twoHour env with
                                          | Throw _ => []
                                          | Normal _ =>
                                              if truthyStr (STRIPE_CHECKOUT_LINK env)
                                              then [CSendLater] else []
                                          end
                                   end
                          | _ => []
                          end
                   end
               end).
Proof.
  destruct (decide (method req = js "POST")) as [Hm|Hm];
    [destruct (checkRateLimit (now_rateLimit env) (random env) (getClientIP req)
                 (rateLimitMap w)).1 eqn:Hc;
     [destruct (validateAndSanitizeInput unicodeLower (body req)) as [[err|data]|e] eqn:Hv|]|].
  2: { destruct (handler_validated req env w data Hm Hc Hv)
         as (r & w' & tr & Heq & Heff & _ & _ & Hcalls & _).
       eexists r, w', _. split; [exact Heq|]. split; [exact Heff|].
       split; [right; by exists data|].
       intros data' _ _ [= <-]. exact Hcalls. }
  all: destruct (handler_unvalidated req env w) as (r & w' & tr & Heq & Heff & Htr & _);
    [ intros data' Hm' Hc'; congruence
    | eexists r, w', tr; split; [exact Heq|]; split; [exact Heff|];
      split; [left; by destruct Htr as [-> | ->]|];
      intros data' Hm' Hc' Hv'; congruence ].
Qed.

(** C2.  [checkRateLimit] returns false exactly when the stored window of
    the IP holds 5 or more timestamps less than 60 seconds old, and then the
    handler answers a POST with 429; an admitted request has its timestamp
    appended to the window of its IP; and when the clock does not run
    backwards, the requests of one IP that the handler admits in any span of
    60 seconds are at most 5. *)
Theorem rate_limit_five_per_window :
  (forall (now : Z) (random : float) (ip : jsstring) (m : gmap jsstring (list Z)),
      (checkRateLimit now random ip m).1 = false
      <-> 5 <= Z.of_nat (length (window now m ip)))
  /\ (forall (now : Z) (random : float) (ip : jsstring) (m : gmap jsstring (list Z)),
         (checkRateLimit now random ip m).1 = true ->
         (checkRateLimit now random ip m).2 !! ip = Some (window now m ip ++ [now]))
  /\ (forall (req : Request) (env : Env) (w : World),
         method req = js "POST" ->
         exists (r : Response) (w' : World),
           handler unicodeLower req env w = (Normal r, w')
           /\ (status r = 429
               <-> 5 <= Z.of_nat (length (window (now_rateLimit env) (rateLimitMap w)
                                            (getClientIP req))))
           /\ (status r <> 429 ->
               rateLimitMap w' !! getClientIP req
               = Some (window (now_rateLimit env) (rateLimitMap w) (getClientIP req)
                         ++ [now_rateLimit env])))
  /\ (forall (rs : list (Request * Env)) (w : World),
         nondecreasing (map (fun p => now_rateLimit p.2) rs) = true ->
         forall (ip : jsstring) (T : Z),
           (length (List.filter (inSpan T) (admittedAt unicodeLower ip rs w)) <= 5)%nat).
Proof.
  split_and!.
  - apply checkRateLimit_false.
  - apply checkRateLimit_admit.
  - intros req env w Hm.
    destruct (handler_run unicodeLower req env w) as (r & cache' & tr & Heq & Hst & _).
    rewrite bool_decide_eq_true_2 in Heq by done.
    eexists r, _. split; [exact Heq|].
    rewrite <- checkRateLimit_false. simpl.
    destruct Hst as [[? _]|[(_ & Hc & Hs)|(_ & Hc & Hs)]]; [done| |].
    + split; [by rewrite Hc, Hs|]. by rewrite Hs.
    + split.
      * split; [|by rewrite Hc]. intros H429. rewrite H429 in Hs. by destruct Hs as [|[|]].
      * intros _. by apply checkRateLimit_admit.
  - intros rs w Hmono ip T.
    destruct rs as [|[req env] rs']; [simpl; lia|].
    apply (admittedAt_bound unicodeLower ip ((req, env) :: rs') w [] (now_rateLimit env)).
    + intros now' _. simpl. lia.
    + intros T'. simpl. lia.
    + change (nondecreasing (now_rateLimit env :: now_rateLimit env
                               :: map (fun p => now_rateLimit p.2) rs') = true).
      change (nondecreasing (now_rateLimit env :: map (fun p => now_rateLimit p.2) rs') = true) in Hmono.
      unfold nondecreasing in *. simpl in *. rewrite Hmono.
      by rewrite (proj2 (Z.leb_le _ _) (Z.le_refl _)).
Qed.

(** The cache of a fresh process holds trimmed descriptions only, and the
    handler keeps it so. *)
Lemma empty_cache_trimmed : cacheTrimmed ∅.
Proof. intros k v H. by rewrite lookup_empty in H. Qed.

Lemma cache_stays_trimmed (req : Request) (env : Env) (w : World) :
  cacheTrimmed (responseCache w) ->
  cacheTrimmed (responseCache (handler unicodeLower req env w).2).
Proof.
  destruct (handler_run unicodeLower req env w) as (r & cache' & tr & -> & _ & _ & _ & _ & H).
  exact H.
Qed.

(** C3.  A validated request whose cache key maps to an entry less than 5
    minutes old is answered 200 with the cached description, and the
    generative-AI provider is not called. *)
Theorem cache_hit_answers_without_llm (req : Request) (env : Env) (w : World)
    (data : Data.t) (item : CacheItem) :
  method req = js "POST" ->
  (checkRateLimit (now_rateLimit env) (random env) (getClientIP req)
     (rateLimitMap w)).1 = true ->
  validateAndSanitizeInput unicodeLower (body req) = Normal (Valid data) ->
  responseCache w !! getCacheKey unicodeLower (Data.productName data) (Data.productFeatures data)
  = Some item ->
  now_cleanCache env <= now_lookup env ->
  now_lookup env - timestamp item < 300000 ->
  cacheTrimmed (responseCache w) ->
  exists (r : Response) (w' : World) (tr : list Event),
    handler unicodeLower req env w = (Normal r, w')
    /\ effects w' = effects w ++ tr
    /\ status r = 200
    /\ json r = [(js "description", description item)]
    /\ existsb isGenerate tr = false.
Proof.
  intros Hm Hc Hv Hk Hclock Hfresh Htrim.
  destruct (checkRateLimit _ _ _ _) as [a m] eqn:Hcr. simpl in Hc. subst a.
  rewrite (handler_admitted unicodeLower req env w m Hm Hcr). unfold try_catch.
  set (res := securityHeaders ++ _).
  set (w1 := mkWorld m _ _).
  assert (freshItem env (getCacheKey unicodeLower (Data.productName data) (Data.productFeatures data))
            (responseCache w1) = Some item) as Hf.
  { unfold freshItem. simpl.
    rewrite (proj2 (cleanCache_lookup _ _ _ item)).
    - by rewrite (proj2 (Z.ltb_lt _ _)) by (unfold CACHE_TTL; lia).
    - split; [done|]. apply expired_spec. lia. }
  rewrite (tryBlock_hit unicodeLower req env res data item w1 Hv Hf).
  match goal with
  | |- context [cacheHit ?e ?r0 ?d0 ?i0 ?w0] =>
      destruct (cacheHit_run e r0 d0 i0 w0) as (tr & -> & _ & _ & Hgen)
  end.
  eexists _, _, (Log INFO (js "Request received") :: _ :: _ :: tr).
  split; [reflexivity|]. split; [unfold grow, w1; simpl; by rewrite <- !app_assoc|].
  split; [done|]. split; [|exact Hgen].
  simpl. by rewrite (Htrim _ _ Hk).
Qed.

(** C4.  After [cleanCache] the cache holds no entry more than 300000 ms
    old, every entry that is not older is still there with its description
    and timestamp, and nothing else is; the call of [cleanCache] in the
    handler does this to the cache of the process and touches nothing else.
    In every run of the handler each lookup in the cache comes right after a
    [cleanCache], and that call has cleaned the cache of the process: a run
    that looks up the cache begins
    with the log line, the [cleanCache] and the lookup, looks up nothing
    else, and leaves the cache as [cleanCache] made it at the clock reading
    of the run, but for the entry that the run itself stores under its key;
    a run without a lookup leaves the cache as it was. *)
Theorem cleanCache_drops_expired_keeps_fresh :
  (forall (now : Z) (c : gmap jsstring CacheItem) (k : jsstring) (v : CacheItem),
      cleanCache now c !! k = Some v ->
      now - timestamp v <= 300000 /\ c !! k = Some v)
  /\ (forall (now : Z) (c : gmap jsstring CacheItem) (k : jsstring) (v : CacheItem),
         c !! k = Some v -> now - timestamp v <= 300000 ->
         cleanCache now c !! k = Some v)
  /\ (forall (env : Env) (w : World),
         exists w1 : World,
           cleanCacheM env w = (Normal tt, w1)
           /\ rateLimitMap w1 = rateLimitMap w
           /\ effects w1 = effects w ++ [CacheClean (now_cleanCache env)]
           /\ forall (k : jsstring) (v : CacheItem),
                responseCache w1 !! k = Some v
                <-> responseCache w !! k = Some v
                    /\ now_cleanCache env - timestamp v <= 300000)
  /\ (forall (req : Request) (env : Env) (w : World),
         exists (r : Response) (w' : World) (tr : list Event),
           handler unicodeLower req env w = (Normal r, w')
           /\ effects w' = effects w ++ tr
           /\ getsAfterClean None tr = true
           /\ ((noGet tr = true /\ responseCache w' = responseCache w)
               \/ exists (key : jsstring) (tr' : list Event),
                    tr = [ Log INFO (js "Request received");
                           CacheClean (now_cleanCache env); CacheGet key ] ++ tr'
                    /\ noGet tr' = true
                    /\ (responseCache w'
                        = cleanCache (now_cleanCache env) (responseCache w)
                        \/ exists item : CacheItem,
                             responseCache w'
                             = <[key := item]>
                                 (cleanCache (now_cleanCache env) (responseCache w))))).
Proof.
  split_and!.
  - intros now c k v [Hk He]%cleanCache_lookup. split; [by apply expired_spec|done].
  - intros now c k v Hk Hage. apply cleanCache_lookup. split; [done|by apply expired_spec].
  - intros env w. eexists. split; [reflexivity|]. simpl. split_and!; [done|done|].
    intros k v. by rewrite cleanCache_lookup, expired_spec.
  - intros req env w.
    destruct (decide (method req = js "POST")) as [Hm|Hm];
      [destruct (checkRateLimit (now_rateLimit env) (random env) (getClientIP req)
                   (rateLimitMap w)).1 eqn:Hc;
       [destruct (validateAndSanitizeInput unicodeLower (body req)) as [[err|data]|e] eqn:Hv|]|].
    2: { destruct (handler_validated req env w data Hm Hc Hv)
           as (r & w' & tr & Heq & Heff & Hget & _ & _ & Hcache).
         eexists r, w', _. split; [exact Heq|]. split; [exact Heff|].
         split; [simpl; by apply noGet_getsAfterClean|].
         right. eexists _, tr. split; [reflexivity|]. split; [exact Hget|exact Hcache]. }
    all: destruct (handler_unvalidated req env w) as (r & w' & tr & Heq & Heff & Htr & Hcache);
      [ intros data' Hm' Hc'; congruence
      | eexists r, w', tr; split; [exact Heq|]; split; [exact Heff|];
        destruct Htr as [-> | ->]; (split; [reflexivity|left; by split]) ].
Qed.

(** What [validateAndSanitizeInput] returns when it accepts: the product
    name has at most 100 code units and the features at most 2000, neither
    holds ['<'], ['>'] or an ASCII control character, and the email is the
    trimmed input email in lower case. *)
Lemma accepted_input_is_sanitized (data : Body.t) (d : Data.t) :
  validateAndSanitizeInput unicodeLower (Object data) = Normal (Valid d) ->
  (length (Data.productName d) <= 100)%nat
  /\ (length (Data.productFeatures d) <= 2000)%nat
  /\ forallb (fun c => negb (forbidden c)) (Data.productName d) = true
  /\ forallb (fun c => negb (forbidden c)) (Data.productFeatures d) = true
  /\ exists email : jsstring,
       Body.email data = JStr email
       /\ Data.email d = toLowerCase unicodeLower (trim email)
       /\ Data.email d = map lowerASCII (trim email).
Proof.
  intros H. destruct (validate_accepts unicodeLower data d H)
    as (pn & pf & em & _ & _ & Hem & Hre & -> & -> & Hd).
  split_and!.
  - etransitivity; [apply sanitizeText_length|]. unfold slice0. rewrite length_firstn. lia.
  - etransitivity; [apply sanitizeText_length|]. unfold slice0. rewrite length_firstn. lia.
  - apply sanitizeText_clean.
  - apply sanitizeText_clean.
  - exists em. split; [done|]. split; [|done]. rewrite Hd. unfold toLowerCase.
    pose proof (re_test_over emailChar _ _ emailRegex_over Hre) as Hall.
    assert (forallb isASCII (trim em) = true) as ->; [|done].
    rewrite forallb_forall in *. intros c Hc. apply Hall, emailChar_safe in Hc as [Hc _].
    unfold safeChar in Hc. by repeat apply andb_prop in Hc as [Hc _].
Qed.

(** An input whose email is absent, falsy or a string is rejected with
    [valid: false] when the email fails the regex or when the product name
    or the features are missing or not strings. *)
Lemma string_email_is_rejected (data : Body.t) :
  truthy (Body.email data) = false \/ isString (Body.email data) = true ->
  (forall e : jsstring, Body.email data = JStr e -> re_test emailRegex (trim e) = false)
  \/ truthy (Body.productName data) && isString (Body.productName data) = false
  \/ truthy (Body.productFeatures data) && isString (Body.productFeatures data) = false ->
  exists error : jsstring,
    validateAndSanitizeInput unicodeLower (Object data) = Normal (Invalid error).
Proof.
  destruct data as [pn pf em]. simpl. intros Hem Hbad.
  destruct (truthy em) eqn:Ht; simpl; [|eauto].
  destruct Hem as [|Hem]; [done|]. destruct em as [| |?|?|e|]; try done.
  destruct (re_test emailRegex (trim e)) eqn:Hre; simpl; [|eauto].
  destruct Hbad as [Hbad|[Hbad|Hbad]].
  - rewrite (Hbad e eq_refl) in Hre. done.
  - destruct pn as [| |?|?|[|? ?]|]; eauto. done.
  - destruct pn as [| |?|?|[|? ?]|]; eauto.
    destruct pf as [| |?|?|[|? ?]|]; eauto. done.
Qed.

(** A truthy email that is not a string makes [validateAndSanitizeInput]
    throw, whatever the other two properties are. *)
Lemma non_string_email_throws (data : Body.t) :
  truthy (Body.email data) = true ->
  isString (Body.email data) = false ->
  validateAndSanitizeInput unicodeLower (Object data)
  = Throw (TypeError (js "email.trim is not a function")).
Proof.
  destruct data as [pn pf em]. simpl. intros Ht Hs. rewrite Ht. simpl.
  by destruct em.
Qed.

(** C5, where the code departs from it.  The body
    [{ productName: 42, productFeatures: "Blue, 300ml", email: true }] has a
    product name that is not a string, yet it is not rejected with
    [valid: false]: [validateAndSanitizeInput] throws a TypeError, and the
    handler answers 500 instead of 400. *)
Theorem validate_throws_on_non_string_email :
  validateAndSanitizeInput unicodeLower (Object oddBody)
  = Throw (TypeError (js "email.trim is not a function"))
  /\ isString (Body.productName oddBody) = false
  /\ exists w' : World,
       handler unicodeLower (post oddBody) envOk fresh
       = (Normal (mkResponse 500
                    (securityHeaders ++ [(js "X-Request-ID", js "req_1000_k3j9x2a1b")])
                    [ (js "error", genericError);
                      (js "requestId", js "req_1000_k3j9x2a1b") ]),
          w').
Proof.
  split; [reflexivity|]. split; [reflexivity|].
  eexists. vm_compute. reflexivity.
Qed.

(** C6, as amended.  On a cache miss where the upsert returns and the LLM
    returns a description that is not blank, the handler hands the email
    provider exactly these mails, and asks for no delivery in any other way:
    one immediate email; if that call returns, a second scheduled 2 hours
    after the clock reading taken for it; and if that call returns too, a
    third scheduled 6 hours after its clock reading if and only if
    STRIPE_CHECKOUT_LINK is set to a non-empty value.  A call that throws
    ends the sequence. *)
Theorem email_sequence_on_cache_miss (req : Request) (env : Env) (w : World)
    (data : Data.t) (dbError : option error) (d : jsstring) :
  let email := Data.email data in
  method req = js "POST" ->
  (checkRateLimit (now_rateLimit env) (random env) (getClientIP req)
     (rateLimitMap w)).1 = true ->
  validateAndSanitizeInput unicodeLower (body req) = Normal (Valid data) ->
  freshItem env (getCacheKey unicodeLower (Data.productName data) (Data.productFeatures data))
    (responseCache w) = None ->
  upsert_outcome env = Normal dbError ->
  llm_outcome env = LlmText d ->
  trim d <> [] ->
  exists (r : Response) (w' : World) (tr : list Event),
    handler unicodeLower req env w = (Normal r, w')
    /\ effects w' = effects w ++ tr
    /\ mails tr
       = mailFor env email (emailTemplates.immediate d email) None
         :: match send_immediate env with
            | Throw _ => []
            | Normal _ =>
                mailFor env email (emailTemplates.twoHour email)
                  (Some (now_twoHour env + 7200000))
                :: match send_twoHour env with
                   | Throw _ => []
                   | Normal _ =>
                       match STRIPE_CHECKOUT_LINK env with
                       | Some ((_ :: _) as stripeLink) =>
                           [ mailFor env email (emailTemplates.sixHour stripeLink email)
                               (Some (now_sixHour env + 21600000)) ]
                       | _ => []
                       end
                   end
            end.
Proof.
  intros email Hm Hc Hv Hf Hdb Hllm Hd.
  destruct (checkRateLimit _ _ _ _) as [a m] eqn:Hcr. simpl in Hc. subst a.
  rewrite (handler_miss req env w m data Hm Hcr Hv Hf). unfold try_catch.
  match goal with
  | |- context [cacheMiss ?e ?r0 ?d0 ?k0 ?w0] =>
      destruct (cacheMiss_generated e r0 d0 k0 w0 dbError d
                  (fun _ tr => mails tr = _)
                  (fun w1 =>
                     match emailSequence_exact env email d w1 with
                     | ex_intro _ b (ex_intro _ tr (conj Heq (conj Hmails _))) =>
                         ex_intro _ b (ex_intro _ tr (conj Heq Hmails))
                     end)
                  Hdb Hllm Hd)
        as (b & tr & Hmails & ->)
  end.
  eexists _, _, _. split; [reflexivity|].
  split; [unfold grow; simpl; rewrite <- !app_assoc; reflexivity|].
  simpl. rewrite !mails_app, Hmails.
  destruct dbError, b; simpl; by rewrite app_nil_r.
Qed.

(** C7, as amended.  Whenever an error is thrown inside the main try block
    and is not caught by one of the two inner try blocks, so that the try
    block completes with the error, the handler answers 500; the error field
    is the generic text unless NODE_ENV is 'development', in which case it is
    the message of the error, and the body carries the request id. *)
Theorem uncaught_error_answers_500 (req : Request) (env : Env) (w : World)
    (m : gmap jsstring (list Z)) (e : error) (w2 : World) :
  let requestId := orElse (x_request_id req) (generatedId env) in
  let res := securityHeaders ++ [(js "X-Request-ID", requestId)] in
  method req = js "POST" ->
  checkRateLimit (now_rateLimit env) (random env) (getClientIP req) (rateLimitMap w)
  = (true, m) ->
  tryBlock unicodeLower req env res
    (mkWorld m (responseCache w) (effects w ++ [Log INFO (js "Request received")]))
  = (Throw e, w2) ->
  exists w' : World,
    handler unicodeLower req env w
    = (Normal (mkResponse 500 res
                 [ (js "error",
                    if bool_decide (NODE_ENV env = Some (js "development"))
                    then message e else genericError);
                   (js "requestId", requestId) ]),
       w').
Proof.
  intros requestId res Hm Hc Ht.
  rewrite (handler_admitted unicodeLower req env w m Hm Hc). fold requestId res.
  unfold try_catch. rewrite Ht. unfold catchBlock. unfold_eff. step. eauto.
Qed.

(** The two errors that the claim names do reach the main catch: on a cache
    miss, an LLM that stays silent for 30 seconds and an LLM that returns a
    blank description make the try block complete with an error. *)
Lemma llm_failures_reach_the_catch (env : Env) (res : list (jsstring * jsstring))
    (data : Data.t) (key : jsstring) (w : World) (dbError : option error) :
  upsert_outcome env = Normal dbError ->
  (llm_outcome env = LlmSilent ->
   exists w' : World,
     cacheMiss env res data key w = (Throw (Error (js "Request timeout")), w'))
  /\ (forall d : jsstring,
        llm_outcome env = LlmText d -> trim d = [] ->
        exists w' : World,
          cacheMiss env res data key w
          = (Throw (Error (js "LLM failed to generate a valid description.")), w')).
Proof.
  intros Hdb. split.
  - intros Hllm. unfold cacheMiss. unfold_eff. step. rewrite Hdb. step.
    destruct dbError; step; rewrite Hllm; step; eauto.
  - intros d Hllm Hd. unfold cacheMiss. unfold_eff. step. rewrite Hdb. step.
    destruct dbError; step; rewrite Hllm; step; rewrite Hd, orb_true_r; step; eauto.
Qed.

(** C8.  On the cache-miss path an upsert that resolves with an error does
    not abort the request: the handler logs it as a warning, goes on to call
    the LLM, and when the LLM returns a description that is not blank it
    answers 200 with the description, trimmed. *)
Theorem upsert_error_does_not_abort (req : Request) (env : Env) (w : World)
    (data : Data.t) (dbError : error) (d : jsstring) :
  method req = js "POST" ->
  (checkRateLimit (now_rateLimit env) (random env) (getClientIP req)
     (rateLimitMap w)).1 = true ->
  validateAndSanitizeInput unicodeLower (body req) = Normal (Valid data) ->
  freshItem env (getCacheKey unicodeLower (Data.productName data) (Data.productFeatures data))
    (responseCache w) = None ->
  upsert_outcome env = Normal (Some dbError) ->
  llm_outcome env = LlmText d ->
  trim d <> [] ->
  exists (r : Response) (w' : World) (before after : list Event),
    handler unicodeLower req env w = (Normal r, w')
    /\ effects w'
       = effects w ++ before
         ++ [ Upsert (Data.email data) (Data.productName data);
              Log WARN (js "Database error occurred");
              GenerateContent
                (getLLMPrompt (Data.productName data) (Data.productFeatures data)) ]
         ++ after
    /\ status r = 200
    /\ json r = [(js "description", trim d)].
Proof.
  intros Hm Hc Hv Hf Hdb Hllm Hd.
  destruct (checkRateLimit _ _ _ _) as [a m] eqn:Hcr. simpl in Hc. subst a.
  rewrite (handler_miss req env w m data Hm Hcr Hv Hf). unfold try_catch.
  match goal with
  | |- context [cacheMiss ?e ?r0 ?d0 ?k0 ?w0] =>
      destruct (cacheMiss_generated e r0 d0 k0 w0 (Some dbError) d
                  (fun _ _ => True)
                  (fun w1 =>
                     match emailSequence_run env (Data.email data) d w1 with
                     | ex_intro _ b (ex_intro _ tr (ex_intro _ n (conj Heq _))) =>
                         ex_intro _ b (ex_intro _ tr (conj Heq I))
                     end)
                  Hdb Hllm Hd)
        as (b & tr & _ & ->)
  end.
  eexists _, _, [_; _; _; _], _. split; [reflexivity|].
  split; [unfold grow; simpl; rewrite <- !app_assoc; reflexivity|]. done.
Qed.

End Claims.

(** ** The claims at concrete requests *)

Example validate_mug :
  validateAndSanitizeInput noUnicode (Object mugBody) = Normal (Valid mugData).
Proof. vm_compute. reflexivity. Qed.

Example key_mug :
  getCacheKey noUnicode (Data.productName mugData) (Data.productFeatures mugData)
  = mugKey.
Proof. vm_compute. reflexivity. Qed.

Example first_request_is_stored :
  map_to_list (rateLimitMap (handler noUnicode (post mugBody) envOk fresh).2)
  = [(js "1.2.3.4", [1000])]
  /\ map_to_list (responseCache (handler noUnicode (post mugBody) envOk fresh).2)
     = [(mugKey, mkItem (js "A fine mug.") 1003)].
Proof. split; vm_compute; reflexivity. Qed.

Example burst_admits_five :
  admittedAt noUnicode (js "1.2.3.4") burst fresh = [1000; 1001; 1002; 1003; 1004].
Proof. vm_compute. reflexivity. Qed.

Example timeout_in_development :
  (handler noUnicode (post mugBody)
     (mkEnv (Some (js "development")) None None 1000 1001 1002 1003 1004 1005
        0.5%float (js "req_1") (Normal None) LlmSilent
        (Normal tt) (Normal tt) (Normal tt))
     fresh).1
  = Normal (mkResponse 500 (securityHeaders ++ [(js "X-Request-ID", js "req_1")])
              [(js "error", js "Request timeout"); (js "requestId", js "req_1")]).
Proof. vm_compute. reflexivity. Qed.

(** C2, at seven requests of one client within six milliseconds. *)
Lemma rate_limit_five_per_window_witness :
  (length (List.filter (inSpan 1000) (admittedAt noUnicode (js "1.2.3.4") burst fresh)) <= 5)%nat.
Proof.
  apply (proj2 (proj2 (proj2 (rate_limit_five_per_window noUnicode)))).
  vm_compute. reflexivity.
Defined.

(** C3, at a second request for the mug one second after the first. *)
Lemma cache_hit_answers_without_llm_witness :
  exists (r : Response) (w' : World) (tr : list Event),
    handler noUnicode (post mugBody) envOk warm = (Normal r, w')
    /\ effects w' = effects warm ++ tr
    /\ status r = 200
    /\ json r = [(js "description", js "A fine mug.")]
    /\ existsb isGenerate tr = false.
Proof.
  apply (cache_hit_answers_without_llm noUnicode (post mugBody) envOk warm mugData cachedMug).
  - reflexivity.
  - vm_compute. reflexivity.
  - vm_compute. reflexivity.
  - vm_compute. reflexivity.
  - simpl. lia.
  - simpl. lia.
  - intros k v H. change (responseCache warm) with ({[ mugKey := cachedMug ]} : gmap jsstring CacheItem) in H.
    apply lookup_singleton_Some in H as [<- <-]. reflexivity.
Defined.

(** C1, as the specification words it, fails: in a complete run the lead is
    upserted before the generative-AI provider is called, so the calls do not
    follow the order generate, upsert, send. *)
Lemma claimed_order_counterexample :
  serviceCalls (effects (handler noUnicode (post mugBody) envOk fresh).2)
  = [KUpsert; KGenerate; KSend; KSend; KSend]
  /\ isPrefix [KUpsert; KGenerate; KSend; KSend; KSend] claimedOrder = false.
Proof. split; vm_compute; reflexivity. Qed.

(** C1, as amended, at a first request for the mug and at a second one that
    the cache answers. *)
Lemma service_calls_in_source_order_witness :
  (exists (r : Response) (w' : World) (tr : list Event),
      handler noUnicode (post mugBody) envOk fresh = (Normal r, w')
      /\ effects w' = effects fresh ++ tr
      /\ calls tr = [CUpsert; CGenerate; CSendNow; CSendLater; CSendLater])
  /\ (exists (r : Response) (w' : World) (tr : list Event),
        handler noUnicode (post mugBody) envOk warm = (Normal r, w')
        /\ effects w' = effects warm ++ tr
        /\ calls tr = [CUpsert; CSendNow]).
Proof.
  split.
  - destruct (service_calls_in_source_order noUnicode (post mugBody) envOk fresh)
      as (r & w' & tr & Heq & Heff & _ & Hcalls).
    exists r, w', tr. split; [exact Heq|]. split; [exact Heff|].
    rewrite (Hcalls mugData eq_refl ltac:(vm_compute; reflexivity)
               ltac:(vm_compute; reflexivity)).
    vm_compute. reflexivity.
  - destruct (service_calls_in_source_order noUnicode (post mugBody) envOk warm)
      as (r & w' & tr & Heq & Heff & _ & Hcalls).
    exists r, w', tr. split; [exact Heq|]. split; [exact Heff|].
    rewrite (Hcalls mugData eq_refl ltac:(vm_compute; reflexivity)
               ltac:(vm_compute; reflexivity)).
    vm_compute. reflexivity.
Defined.

(** C4, at a process that still holds the description of a lamp cached 399
    seconds before: the run of a request for the mug removes it. *)
Lemma cleanCache_drops_expired_keeps_fresh_witness :
  exists (r : Response) (w' : World),
    handler noUnicode (post mugBody) envAged aged = (Normal r, w')
    /\ responseCache aged !! lampKey = Some (mkItem (js "A red lamp.") 1000)
    /\ responseCache w' !! lampKey = None.
Proof.
  destruct (proj2 (proj2 (proj2 (cleanCache_drops_expired_keeps_fresh noUnicode)))
              (post mugBody) envAged aged)
    as (r & w' & tr & Heq & Heff & _ & Hcache).
  exists r, w'. split; [exact Heq|]. split; [vm_compute; reflexivity|].
  pose proof (f_equal snd Heq) as Hw. simpl in Hw. subst w'.
  vm_compute in Heff. subst tr.
  destruct Hcache as [[Hno _]|(key & tr' & Htr & _ & Hc)].
  - vm_compute in Hno. discriminate Hno.
  - assert (key = mugKey) as -> by (vm_compute in Htr; vm_compute; congruence).
    destruct Hc as [Hc|[item Hc]]; rewrite Hc.
    + vm_compute. reflexivity.
    + rewrite lookup_insert_ne by (vm_compute; discriminate).
      vm_compute. reflexivity.
Defined.

(** C6, as the specification words it, fails in three ways.  A description
    of one space is not empty, yet the handler answers 500 and sends nothing;
    when the first call to the email provider throws, the second email is
    never requested; and with STRIPE_CHECKOUT_LINK set to the empty string
    the third email is not sent. *)
Lemma email_sequence_counterexample :
  (llm_outcome envBlank = LlmText (js " ")
   /\ length (js " ") = 1%nat
   /\ statusOf (handler noUnicode (post mugBody) envBlank fresh).1 = Some 500
   /\ mails (effects (handler noUnicode (post mugBody) envBlank fresh).2) = [])
  /\ (send_immediate envMailDown = Throw smtpDown
      /\ statusOf (handler noUnicode (post mugBody) envMailDown fresh).1 = Some 200
      /\ length (mails (effects (handler noUnicode (post mugBody) envMailDown fresh).2))
         = 1%nat)
  /\ (STRIPE_CHECKOUT_LINK envStripeEmpty = Some []
      /\ map scheduled_at
           (mails (effects (handler noUnicode (post mugBody) envStripeEmpty fresh).2))
         = [None; Some 7201004]).
Proof. repeat split; vm_compute; reflexivity. Qed.

(** C6, as amended, at a first request for the mug. *)
Lemma email_sequence_on_cache_miss_witness :
  exists (r : Response) (w' : World) (tr : list Event),
    handler noUnicode (post mugBody) envOk fresh = (Normal r, w')
    /\ effects w' = effects fresh ++ tr
    /\ mails tr
       = [ mailFor envOk (js "ann@shop.io")
             (emailTemplates.immediate (js " A fine mug. ") (js "ann@shop.io")) None;
           mailFor envOk (js "ann@shop.io")
             (emailTemplates.twoHour (js "ann@shop.io")) (Some 7201004);
           mailFor envOk (js "ann@shop.io")
             (emailTemplates.sixHour (js "https://buy.stripe.com/x") (js "ann@shop.io"))
             (Some 21601005) ].
Proof.
  apply (email_sequence_on_cache_miss noUnicode (post mugBody) envOk fresh mugData None
           (js " A fine mug. ")).
  - reflexivity.
  - vm_compute. reflexivity.
  - vm_compute. reflexivity.
  - vm_compute. reflexivity.
  - reflexivity.
  - reflexivity.
  - vm_compute. discriminate.
Defined.

(** C7, as the specification words it, fails: the first call to the email
    provider is inside the main try block, and when it throws, the error is
    logged by the inner catch and the handler answers 200. *)
Lemma inner_error_counterexample :
  send_immediate envMailDown = Throw smtpDown
  /\ loggedError (js "Email sending failed")
       (effects (handler noUnicode (post mugBody) envMailDown fresh).2) = true
  /\ statusOf (handler noUnicode (post mugBody) envMailDown fresh).1 = Some 200.
Proof. repeat split; vm_compute; reflexivity. Qed.

(** C7, as amended, at an LLM that stays silent for 30 seconds. *)
Lemma uncaught_error_answers_500_witness :
  exists w' : World,
    handler noUnicode (post mugBody) envTimeout fresh
    = (Normal (mkResponse 500
                 (securityHeaders ++ [(js "X-Request-ID", js "req_1000_k3j9x2a1b")])
                 [ (js "error", genericError);
                   (js "requestId", js "req_1000_k3j9x2a1b") ]),
       w').
Proof.
  apply (uncaught_error_answers_500 noUnicode (post mugBody) envTimeout fresh
           (checkRateLimit 1000 0.5%float (js "1.2.3.4") ∅).2
           (Error (js "Request timeout"))
           (tryBlock noUnicode (post mugBody) envTimeout
              (securityHeaders ++ [(js "X-Request-ID", js "req_1000_k3j9x2a1b")])
              (mkWorld (checkRateLimit 1000 0.5%float (js "1.2.3.4") ∅).2 ∅
                 [Log INFO (js "Request received")])).2).
  - reflexivity.
  - vm_compute. reflexivity.
  - vm_compute. reflexivity.
Defined.

(** C8, at an upsert that resolves with a duplicate-key error. *)
Lemma upsert_error_does_not_abort_witness :
  exists (r : Response) (w' : World) (before after : list Event),
    handler noUnicode (post mugBody) envDbError fresh = (Normal r, w')
    /\ effects w'
       = effects fresh ++ before
         ++ [ Upsert (js "ann@shop.io") (js "Mugb");
              Log WARN (js "Database error occurred");
              GenerateContent (getLLMPrompt (js "Mugb") (js "Blue, 300ml")) ]
         ++ after
    /\ status r = 200
    /\ json r = [(js "description", js "A fine mug.")].
Proof.
  apply (upsert_error_does_not_abort noUnicode (post mugBody) envDbError fresh mugData
           duplicateKey (js " A fine mug. ")).
  - reflexivity.
  - vm_compute. reflexivity.
  - vm_compute. reflexivity.
  - vm_compute. reflexivity.
  - reflexivity.
  - reflexivity.
  - vm_compute. discriminate.
Defined.

End GenerateSpec.

(* ===================================================================== *)
(** * The health check *)
(* ===================================================================== *)

Module HealthSpec.
Import Health HealthSamples.

(** The three status objects have a [status] and a [message] and nothing
    else; in particular no [service]. *)
Lemma services_shape (env : Env) :
  exists d g r m1 m2 m3 : jsstring,
    values (checkServices env)
    = [ [(js "status", d); (js "message", m1)];
        [(js "status", g); (js "message", m2)];
        [(js "status", r); (js "message", m3)] ].
Proof.
  unfold checkServices, externalServices, checkDatabase.
  destruct (truthyStr (SUPABASE_URL env) && truthyStr (SUPABASE_SERVICE_KEY env));
    [destruct (ping env) as [[e|]|e]|];
    destruct (truthyStr (GEMINI_API_KEY env)), (truthyStr (RESEND_API_KEY env));
    vm_compute; eauto 10.
Qed.

Lemma no_service_property (env : Env) (s : obj) :
  In s (values (checkServices env)) -> getProp s (js "service") = None.
Proof.
  destruct (services_shape env) as (d & g & r & m1 & m2 & m3 & ->).
  intros [<-|[<-|[<-|[]]]]; reflexivity.
Qed.

(** The scan for critical issues throws as soon as it meets a status
    'not_configured', and returns false when there is none. *)
Lemma critical_scan (l : list obj) :
  (forall s : obj, In s l -> getProp s (js "service") = None) ->
  some isCritical l
  = if existsb isNotConfigured l
    then Throw (TypeError (js "Cannot read properties of undefined (reading 'includes')"))
    else Normal false.
Proof.
  induction l as [|s l IH]; intros H; simpl; [done|].
  unfold isCritical at 1. destruct (isNotConfigured s); simpl.
  - by rewrite (H s (or_introl eq_refl)).
  - apply IH. intros s' Hs'. apply H. by right.
Qed.

(** C9.  When no checked service has status 'error' and at least one has
    status 'not_configured', the scan for critical issues reads [service] on
    an object without that property and throws; the exception is caught and
    the handler answers 503 with message 'Health check failed'.  And in no
    run at all does the handler answer with the status 'degraded'. *)
Theorem health_not_configured_answers_503 :
  (forall env : Env,
      existsb isError (values (checkServices env)) = false ->
      existsb isNotConfigured (values (checkServices env)) = true ->
      (forall s : obj, In s (values (checkServices env)) ->
                       getProp s (js "service") = None)
      /\ some isCritical (values (checkServices env))
         = Throw (TypeError (js "Cannot read properties of undefined (reading 'includes')"))
      /\ handler (js "GET") env
         = mkResponse 503
             (Plain [ (js "status", js "error");
                      (js "message", js "Health check failed");
                      (js "error",
                       if bool_decide (NODE_ENV env = Some (js "development"))
                       then js "Cannot read properties of undefined (reading 'includes')"
                       else js "Internal server error") ]))
  /\ (forall (method : jsstring) (env : Env) (h : HealthCheck),
         body (handler method env) = Report h -> hc_status h <> js "degraded").
Proof.
  split.
  - intros env Herr Hnc.
    pose proof (critical_scan _ (no_service_property env)) as Hscan.
    rewrite Hnc in Hscan. split; [apply no_service_property|]. split; [exact Hscan|].
    unfold handler, tryBlock. cbv zeta. cbn [services]. rewrite Hscan. reflexivity.
  - intros method env h. unfold handler, tryBlock. cbv zeta. cbn [services].
    destruct (bool_decide (method = js "GET")); cbn [negb body]; [|done].
    rewrite (critical_scan _ (no_service_property env)).
    destruct (existsb isNotConfigured _); cbn [mbind completion_bind body]; [done|].
    destruct (existsb isError _); cbn [mret completion_ret body];
      intros [= <-]; cbn [hc_status withStatus]; by vm_compute.
Qed.

(** C9, at a deployment with no service configured. *)
Lemma health_not_configured_answers_503_witness :
  handler (js "GET") bare
  = mkResponse 503
      (Plain [ (js "status", js "error");
               (js "message", js "Health check failed");
               (js "error", js "Internal server error") ]).
Proof.
  apply (proj1 health_not_configured_answers_503 bare).
  - vm_compute. reflexivity.
  - vm_compute. reflexivity.
Defined.

End HealthSpec.

(* ===================================================================== *)
(** * The unsubscribe link *)
(* ===================================================================== *)

Module UnsubscribeSpec.
Import Unsubscribe UnsubscribeSamples FurtherUnsubscribe.

Section Claims.
Variable unicodeLower : jsstring -> jsstring.

(** The run of a GET. *)
Lemma get_run (req : Request) (env : Env) (console : list Event) :
  method req = js "GET" ->
  handler unicodeLower req env console
  = match query_email req with
    | Some email =>
        if truthyReceived email then
          if re_test emailRegex (toString email) then
            match client env with
            | Normal _ =>
                match email with
                | Text s =>
                    match update env with
                    | Normal result =>
                        (Normal (mkResponse 200 (Html (SuccessPage s))),
                         console ++ [Update (toLowerCase unicodeLower s)] ++ logged result)
                    | Throw e =>
                        (Normal (mkResponse 500 (Html ErrorPage)),
                         console ++ [ Update (toLowerCase unicodeLower s);
                                      ConsoleError (js "Unsubscribe error:") e ])
                    end
                | Other _ _ =>
                    (Normal (mkResponse 500 (Html ErrorPage)),
                     console ++ [ConsoleError (js "Unsubscribe error:")
                                   (TypeError (js "email.toLowerCase is not a function"))])
                end
            | Throw e =>
                (Normal (mkResponse 500 (Html ErrorPage)),
                 console ++ [ConsoleError (js "Unsubscribe error:") e])
            end
          else
            (Normal (mkResponse 500 (Html ErrorPage)),
             console ++ [ConsoleError (js "Unsubscribe error:")
                           (Error (js "Invalid email format"))])
        else (Normal (mkResponse 400 (Html InvalidLinkPage)), console)
    | None => (Normal (mkResponse 400 (Html InvalidLinkPage)), console)
    end.
Proof.
  intros Hm. unfold handler, handleGet, markUnsubscribed, emit.
  rewrite Hm, bool_decide_eq_true_2 by done.
  destruct (query_email req) as [email|]; [|done].
  destruct (truthyReceived email); cbn [negb]; [|done].
  unfold try_catch, throw, await, mbind, mret, Eff_bind, Eff_ret.
  destruct (re_test emailRegex (toString email)); cbn [negb]; [|done].
  destruct (client env) as [[]|e]; [|done].
  destruct email as [s|? ?]; [|done]. cbn [toString].
  destruct (update env) as [[e|]|e]; cbn [logged];
    by rewrite <- ?app_assoc, ?app_nil_r.
Qed.

(** The run of a POST. *)
Lemma post_run (req : Request) (env : Env) (console : list Event) :
  method req = js "POST" ->
  handler unicodeLower req env console
  = match body_email req with
    | NoBody =>
        (Throw (TypeError (js "Cannot destructure property 'email' of 'req.body' "
                           ++ asItIs false)),
         console)
    | NullBody =>
        (Throw (TypeError (js "Cannot destructure property 'email' of 'req.body' "
                           ++ asItIs true)),
         console)
    | Object (Some email) =>
        if truthyReceived email then
          if re_test emailRegex (toString email) then
            match client env with
            | Normal _ =>
                match email with
                | Text s =>
                    match update env with
                    | Normal _ =>
                        (Normal (mkResponse 200
                                   (Json [ (js "success", js "true");
                                           (js "message", js "Successfully unsubscribed") ])),
                         console ++ [Update (toLowerCase unicodeLower s)])
                    | Throw e =>
                        (Normal (mkResponse 500
                                   (Json [(js "error", js "Failed to unsubscribe. Please try again.")])),
                         console ++ [ Update (toLowerCase unicodeLower s);
                                      ConsoleError (js "Unsubscribe error:") e ])
                    end
                | Other _ _ =>
                    (Normal (mkResponse 500
                               (Json [(js "error", js "Failed to unsubscribe. Please try again.")])),
                     console ++ [ConsoleError (js "Unsubscribe error:")
                                   (TypeError (js "email.toLowerCase is not a function"))])
                end
            | Throw e =>
                (Normal (mkResponse 500
                           (Json [(js "error", js "Failed to unsubscribe. Please try again.")])),
                 console ++ [ConsoleError (js "Unsubscribe error:") e])
            end
          else
            (Normal (mkResponse 400 (Json [(js "error", js "Invalid email format")])), console)
        else
          (Normal (mkResponse 400 (Json [(js "error", js "Email is required")])), console)
    | Object None =>
        (Normal (mkResponse 400 (Json [(js "error", js "Email is required")])), console)
    end.
Proof.
  intros Hm. unfold handler, handlePost, markUnsubscribed, emit.
  rewrite Hm. rewrite bool_decide_eq_false_2 by (by vm_compute).
  rewrite bool_decide_eq_true_2 by done.
  destruct (body_email req) as [| |[email|]]; try done.
  destruct (truthyReceived email); cbn [negb]; [|done].
  unfold try_catch, throw, await, mbind, mret, Eff_bind, Eff_ret.
  destruct (re_test emailRegex (toString email)); cbn [negb]; [|done].
  destruct (client env) as [[]|e]; [|done].
  destruct email as [s|? ?]; [|done].
  destruct (update env) as [[e|]|e]; by rewrite <- ?app_assoc.
Qed.

(** C10, as amended.  Take a GET whose email parameter matches the regex.
    When the parameter is a string, the client is created and the update
    call returns, the handler answers 200 with the success page whether the
    update of the lead resolved with an error or without one: the error is
    written to the console and has no other effect, so the same page is sent
    when no lead was marked.  When the parameter is a string and creating the
    client or the update call throws, and when the parameter is not a string
    (a repeated parameter is an array, which is truthy and is converted to a
    string for the match), the handler answers 500 with the error page and
    writes the error to the console. *)
Theorem unsubscribe_get_ignores_update_error (req : Request) (env : Env)
    (console : list Event) :
  method req = js "GET" ->
  (forall s : jsstring,
      query_email req = Some (Text s) ->
      re_test emailRegex s = true ->
      (forall result : option error,
          client env = Normal tt ->
          update env = Normal result ->
          handler unicodeLower req env console
          = (Normal (mkResponse 200 (Html (SuccessPage s))),
             console ++ [Update (toLowerCase unicodeLower s)]
               ++ match result with
                  | Some error => [ConsoleError (js "Unsubscribe database error:") error]
                  | None => []
                  end))
      /\ (returns (client env) = false \/ returns (update env) = false ->
          exists (before : list Event) (e : error),
            handler unicodeLower req env console
            = (Normal (mkResponse 500 (Html ErrorPage)),
               console ++ before ++ [ConsoleError (js "Unsubscribe error:") e])))
  /\ (forall s : jsstring,
        query_email req = Some (Other true s) ->
        re_test emailRegex s = true ->
        exists (before : list Event) (e : error),
          handler unicodeLower req env console
          = (Normal (mkResponse 500 (Html ErrorPage)),
             console ++ before ++ [ConsoleError (js "Unsubscribe error:") e])).
Proof.
  intros Hm. rewrite (get_run req env console Hm). split.
  - intros s -> Hre. cbn [truthyReceived toString]. rewrite Hre.
    rewrite bool_decide_eq_false_2 by (intros ->; discriminate Hre). cbn [negb].
    split.
    + intros result -> ->. by destruct result.
    + intros Hbad. destruct (client env) as [[]|e]; [|by exists [], e].
      destruct (update env) as [result|e];
        [|by exists [Update (toLowerCase unicodeLower s)], e].
      by destruct Hbad.
  - intros s -> Hre. cbn [truthyReceived toString]. rewrite Hre.
    destruct (client env) as [[]|e]; [by eexists [], _|by exists [], e].
Qed.

End Claims.

(** C10, as amended, at an update that the database refuses. *)
Lemma unsubscribe_get_ignores_update_error_witness :
  handler (fun s => s) getAnn updateFails []
  = (Normal (mkResponse 200 (Html (SuccessPage (js "Ann@Shop.io")))),
     [ Update (js "ann@shop.io");
       ConsoleError (js "Unsubscribe database error:")
         (Error (js "permission denied for table leads")) ]).
Proof.
  apply (proj1 (proj1 (unsubscribe_get_ignores_update_error (fun s => s) getAnn
                         updateFails [] eq_refl)
                  (js "Ann@Shop.io") eq_refl ltac:(vm_compute; reflexivity))
           (Some (Error (js "permission denied for table leads")))).
  - reflexivity.
  - reflexivity.
Defined.

(** C10, as the specification words it, fails: a GET whose email parameter
    matches the regex is answered 500 when the update call throws, and when
    the parameter is given twice, so that it is an array whose conversion to
    a string matches while it has no [toLowerCase]. *)
Lemma unsubscribe_get_counterexample :
  (query_email getAnn = Some (Text (js "Ann@Shop.io"))
   /\ re_test emailRegex (js "Ann@Shop.io") = true
   /\ handler (fun s => s) getAnn updateThrows []
      = (Normal (mkResponse 500 (Html ErrorPage)),
         [ Update (js "ann@shop.io");
           ConsoleError (js "Unsubscribe error:") (Error (js "fetch failed")) ]))
  /\ (re_test emailRegex (toString (Other true (js "x,ann@shop.io"))) = true
      /\ handler (fun s => s) getTwice updateOk []
         = (Normal (mkResponse 500 (Html ErrorPage)),
            [ ConsoleError (js "Unsubscribe error:")
                (TypeError (js "email.toLowerCase is not a function")) ])).
Proof. repeat split; vm_compute; reflexivity. Qed.

End UnsubscribeSpec.

(* ===================================================================== *)
(** * The generate handler: further properties *)
(* ===================================================================== *)

Module GenerateMore.
Import Generate Observe Samples Further FurtherSamples GenerateSpec.


(** ** What every run does *)

Section Properties.
Variable unicodeLower : jsstring -> jsstring.

(** X1.  The handler always answers: it never throws.  The answer carries
    the four security headers followed by X-Request-ID, whose value is the
    x-request-id header of the request when it is not empty and the generated
    id otherwise.  A 200 carries a [description] and nothing else; every other
    answer has status 400, 405, 429 or 500 and starts with an [error]. *)
Theorem handler_always_answers (req : Request) (env : Env) (w : World) :
  exists (r : Response) (w' : World),
    handler unicodeLower req env w = (Normal r, w')
    /\ headers r
       = securityHeaders
         ++ [(js "X-Request-ID", orElse (x_request_id req) (generatedId env))]
    /\ ((status r = 200 /\ exists d : jsstring, json r = [(js "description", d)])
        \/ ((status r = 400 \/ status r = 405 \/ status r = 429 \/ status r = 500)
            /\ exists (msg : jsstring) (rest : list (jsstring * jsstring)),
                 json r = (js "error", msg) :: rest)).
Proof.
  destruct (handler_exits unicodeLower req env w)
    as [Hm|[[Hm Hc]|(Hm & m & Hc & [[err Hv]|[[e Hv]|(data & Hv & [[item Hf]|Hf])]])]].
  - rewrite (handler_not_post unicodeLower req env w Hm).
    eexists _, _. split; [reflexivity|]. split; [done|]. right. eauto 10.
  - rewrite (handler_limited unicodeLower req env w Hm Hc).
    eexists _, _. split; [reflexivity|]. split; [done|]. right. eauto 10.
  - rewrite (handler_invalid unicodeLower req env w m err Hm Hc Hv).
    eexists _, _. split; [reflexivity|]. split; [done|]. right. eauto 10.
  - rewrite (handler_validation_throws unicodeLower req env w m e Hm Hc Hv).
    eexists _, _. split; [reflexivity|]. split; [done|]. right. eauto 10.
  - rewrite (handler_hit unicodeLower req env w m data item Hm Hc Hv Hf).
    match goal with
    | |- context [cacheHit ?e ?r0 ?d0 ?i0 ?w0] =>
        destruct (cacheHit_run e r0 d0 i0 w0) as (tr & -> & _)
    end.
    eexists _, _. split; [reflexivity|]. split; [done|]. left. eauto.
  - rewrite (handler_miss unicodeLower req env w m data Hm Hc Hv Hf). unfold try_catch.
    match goal with
    | |- context [cacheMiss ?e ?r0 ?d0 ?k0 ?w0] =>
        destruct (cacheMiss_outcome e r0 d0 k0 w0)
          as (c & cache' & tr & -> & _ & [(e1 & -> & _)|(d & -> & _)])
    end.
    + unfold catchBlock. unfold_eff. step.
      eexists _, _. split; [reflexivity|]. split; [done|]. right. eauto 10.
    + eexists _, _. split; [reflexivity|]. split; [done|]. left. eauto.
Qed.

(** X2.  An answer 400, 405 or 429 is free: the handler has called no
    service and has left the cache as it was (not even cleaned); with 405 and
    429 the rate limiter is unchanged too, while a 400 has taken its place in
    the window of its IP. *)
Theorem early_exits_are_free (req : Request) (env : Env) (w : World)
    (r : Response) (w' : World) :
  handler unicodeLower req env w = (Normal r, w') ->
  status r = 400 \/ status r = 405 \/ status r = 429 ->
  responseCache w' = responseCache w
  /\ effects w' = effects w ++ [Log INFO (js "Request received")]
  /\ (status r <> 400 -> rateLimitMap w' = rateLimitMap w)
  /\ (status r = 400 ->
      rateLimitMap w' !! getClientIP req
      = Some (window (now_rateLimit env) (rateLimitMap w) (getClientIP req)
                ++ [now_rateLimit env])).
Proof.
  intros Heq Hst.
  destruct (handler_exits unicodeLower req env w)
    as [Hm|[[Hm Hc]|(Hm & m & Hc & [[err Hv]|[[e Hv]|(data & Hv & [[item Hf]|Hf])]])]].
  - rewrite (handler_not_post unicodeLower req env w Hm) in Heq.
    injection Heq as <- <-. simpl. split_and!; try done.
  - rewrite (handler_limited unicodeLower req env w Hm Hc) in Heq.
    injection Heq as <- <-. simpl. split_and!; try done.
  - rewrite (handler_invalid unicodeLower req env w m err Hm Hc Hv) in Heq.
    injection Heq as <- <-. simpl. split_and!; try done.
    intros _. pose proof (checkRateLimit_admit (now_rateLimit env) (random env)
                            (getClientIP req) (rateLimitMap w)) as H.
    rewrite Hc in H. by apply H.
  - rewrite (handler_validation_throws unicodeLower req env w m e Hm Hc Hv) in Heq.
    injection Heq as <- <-. simpl in Hst. by destruct Hst as [|[|]].
  - rewrite (handler_hit unicodeLower req env w m data item Hm Hc Hv Hf) in Heq.
    match type of Heq with
    | context [cacheHit ?e ?r0 ?d0 ?i0 ?w0] =>
        destruct (cacheHit_run e r0 d0 i0 w0) as (tr & Hrun & _)
    end.
    rewrite Hrun in Heq. injection Heq as <- <-. simpl in Hst. by destruct Hst as [|[|]].
  - rewrite (handler_miss unicodeLower req env w m data Hm Hc Hv Hf) in Heq.
    unfold try_catch in Heq.
    match type of Heq with
    | context [cacheMiss ?e ?r0 ?d0 ?k0 ?w0] =>
        destruct (cacheMiss_outcome e r0 d0 k0 w0)
          as (c & cache' & tr & Hrun & _ & [(e1 & -> & _)|(d & -> & _)])
    end; rewrite Hrun in Heq.
    + unfold catchBlock in Heq. unfold_eff. injection Heq as <- <-.
      simpl in Hst. by destruct Hst as [|[|]].
    + injection Heq as <- <-. simpl in Hst. by destruct Hst as [|[|]].
Qed.

(** The handler on a cache miss where the upsert returns and the LLM
    answers with a description that is not blank, whatever the email provider
    does. *)
Lemma miss_run (req : Request) (env : Env) (w : World) (data : Data.t)
    (dbError : option error) (d : jsstring) :
  let key := getCacheKey unicodeLower (Data.productName data) (Data.productFeatures data) in
  method req = js "POST" ->
  (checkRateLimit (now_rateLimit env) (random env) (getClientIP req)
     (rateLimitMap w)).1 = true ->
  validateAndSanitizeInput unicodeLower (body req) = Normal (Valid data) ->
  freshItem env key (responseCache w) = None ->
  upsert_outcome env = Normal dbError ->
  llm_outcome env = LlmText d ->
  trim d <> [] ->
  exists (r : Response) (w' : World),
    handler unicodeLower req env w = (Normal r, w')
    /\ status r = 200
    /\ json r = [(js "description", trim d)]
    /\ responseCache w'
       = <[key := mkItem (trim d) (now_store env)]>
           (cleanCache (now_cleanCache env) (responseCache w)).
Proof.
  intros key Hm Hc Hv Hf Hdb Hllm Hd.
  destruct (checkRateLimit _ _ _ _) as [a m] eqn:Hcr. simpl in Hc. subst a.
  rewrite (handler_miss unicodeLower req env w m data Hm Hcr Hv Hf). unfold try_catch.
  match goal with
  | |- context [cacheMiss ?e ?r0 ?d0 ?k0 ?w0] =>
      destruct (cacheMiss_generated e r0 d0 k0 w0 dbError d (fun _ _ => True)
                  (fun w1 =>
                     match emailSequence_run env (Data.email data) d w1 with
                     | ex_intro _ b (ex_intro _ tr0 (ex_intro _ n (conj Heq _))) =>
                         ex_intro _ b (ex_intro _ tr0 (conj Heq I))
                     end)
                  Hdb Hllm Hd) as (b & tr & _ & ->)
  end.
  eexists _, _. split; [reflexivity|]. done.
Qed.

(** X3.  When the cache answers, the lead is still upserted, once and with
    the validated email and product name, before any email; the first email
    is then sent with the cached description unless the upsert throws; these
    are the only service calls: the LLM is not called and the two follow-up
    emails are never scheduled.  The cache entry is not refreshed: the cache
    after the run is the cleaned cache. *)
Theorem cache_hit_sends_no_follow_up (req : Request) (env : Env) (w : World)
    (data : Data.t) (item : CacheItem) :
  let key := getCacheKey unicodeLower (Data.productName data) (Data.productFeatures data) in
  method req = js "POST" ->
  (checkRateLimit (now_rateLimit env) (random env) (getClientIP req)
     (rateLimitMap w)).1 = true ->
  validateAndSanitizeInput unicodeLower (body req) = Normal (Valid data) ->
  freshItem env key (responseCache w) = Some item ->
  exists (r : Response) (w' : World) (tr : list Event),
    handler unicodeLower req env w = (Normal r, w')
    /\ effects w' = effects w ++ tr
    /\ status r = 200
    /\ upserts tr = [(Data.email data, Data.productName data)]
    /\ calls tr
       = CUpsert :: match upsert_outcome env with
                    | Normal _ => [CSendNow]
                    | Throw _ => []
                    end
    /\ mails tr
       = match upsert_outcome env with
         | Normal _ =>
             [ mailFor env (Data.email data)
                 (emailTemplates.immediate (description item) (Data.email data)) None ]
         | Throw _ => []
         end
    /\ responseCache w' = cleanCache (now_cleanCache env) (responseCache w).
Proof.
  intros key Hm Hc Hv Hf.
  destruct (checkRateLimit _ _ _ _) as [a m] eqn:Hcr. simpl in Hc. subst a.
  rewrite (handler_hit unicodeLower req env w m data item Hm Hcr Hv Hf).
  match goal with
  | |- context [cacheHit ?e ?r0 ?d0 ?i0 ?w0] =>
      destruct (cacheHit_mails e r0 d0 i0 w0)
        as (tr & -> & Hmails & _ & Hcalls & Hup & _)
  end.
  eexists _, _, (_ :: _ :: _ :: tr). split; [reflexivity|].
  split; [unfold grow; simpl; by rewrite <- app_assoc|]. done.
Qed.

(** X4.  On a cache miss where the upsert returns and the LLM answers with a
    description that is not blank, the handler answers 200 with the trimmed
    description and stores it under the cache key with the clock reading
    taken for it, whatever the email provider does. *)
Theorem miss_stores_description (req : Request) (env : Env) (w : World)
    (data : Data.t) (dbError : option error) (d : jsstring) :
  let key := getCacheKey unicodeLower (Data.productName data) (Data.productFeatures data) in
  method req = js "POST" ->
  (checkRateLimit (now_rateLimit env) (random env) (getClientIP req)
     (rateLimitMap w)).1 = true ->
  validateAndSanitizeInput unicodeLower (body req) = Normal (Valid data) ->
  freshItem env key (responseCache w) = None ->
  upsert_outcome env = Normal dbError ->
  llm_outcome env = LlmText d ->
  trim d <> [] ->
  exists (r : Response) (w' : World),
    handler unicodeLower req env w = (Normal r, w')
    /\ status r = 200
    /\ json r = [(js "description", trim d)]
    /\ responseCache w' !! key = Some (mkItem (trim d) (now_store env)).
Proof.
  intros key Hm Hc Hv Hf Hdb Hllm Hd.
  destruct (miss_run req env w data dbError d Hm Hc Hv Hf Hdb Hllm Hd)
    as (r & w' & Heq & Hs & Hj & Hcache).
  exists r, w'. split_and!; try done. fold key in Hcache. rewrite Hcache.
  apply lookup_insert_eq.
Qed.

(** X5.  What a miss stores, a hit returns: after a request that generated a
    description, a second request with the same cache key, handled by the
    same process less than 5 minutes (by the clock of the lookup) after the
    description was stored, is answered 200 with that description, and the
    LLM is not called again. *)
Theorem second_request_is_served_from_cache (req1 req2 : Request) (env1 env2 : Env)
    (w : World) (data1 data2 : Data.t) (dbError : option error) (d : jsstring) :
  let key := getCacheKey unicodeLower (Data.productName data1) (Data.productFeatures data1) in
  let w1 := (handler unicodeLower req1 env1 w).2 in
  method req1 = js "POST" ->
  (checkRateLimit (now_rateLimit env1) (random env1) (getClientIP req1)
     (rateLimitMap w)).1 = true ->
  validateAndSanitizeInput unicodeLower (body req1) = Normal (Valid data1) ->
  freshItem env1 key (responseCache w) = None ->
  upsert_outcome env1 = Normal dbError ->
  llm_outcome env1 = LlmText d ->
  trim d <> [] ->
  method req2 = js "POST" ->
  (checkRateLimit (now_rateLimit env2) (random env2) (getClientIP req2)
     (rateLimitMap w1)).1 = true ->
  validateAndSanitizeInput unicodeLower (body req2) = Normal (Valid data2) ->
  getCacheKey unicodeLower (Data.productName data2) (Data.productFeatures data2) = key ->
  now_cleanCache env2 <= now_lookup env2 ->
  now_lookup env2 - now_store env1 < 300000 ->
  exists (r2 : Response) (w2 : World) (tr : list Event),
    handler unicodeLower req2 env2 w1 = (Normal r2, w2)
    /\ effects w2 = effects w1 ++ tr
    /\ status r2 = 200
    /\ json r2 = [(js "description", trim d)]
    /\ existsb isGenerate tr = false.
Proof.
  intros key w1 Hm1 Hc1 Hv1 Hf1 Hdb Hllm Hd Hm2 Hc2 Hv2 Hkey Hclock Hage.
  destruct (miss_run req1 env1 w data1 dbError d Hm1 Hc1 Hv1 Hf1 Hdb Hllm Hd)
    as (r1 & w1' & Heq & _ & _ & Hcache).
  assert (w1 = w1') as Hw by (unfold w1; by rewrite Heq).
  fold key in Hcache. rewrite <- Hw in Hcache. clear Heq Hw w1'.
  assert (freshItem env2
            (getCacheKey unicodeLower (Data.productName data2) (Data.productFeatures data2))
            (responseCache w1) = Some (mkItem (trim d) (now_store env1))) as Hf2.
  { rewrite Hkey. unfold freshItem.
    rewrite (proj2 (cleanCache_lookup _ _ _ (mkItem (trim d) (now_store env1)))).
    - simpl. by rewrite (proj2 (Z.ltb_lt _ _)) by (unfold CACHE_TTL; lia).
    - split; [rewrite Hcache; apply lookup_insert_eq|]. apply expired_spec. simpl. lia. }
  destruct (checkRateLimit (now_rateLimit env2) _ _ _) as [a m] eqn:Hcr.
  simpl in Hc2. subst a.
  rewrite (handler_hit unicodeLower req2 env2 w1 m data2 _ Hm2 Hcr Hv2 Hf2).
  match goal with
  | |- context [cacheHit ?e ?r0 ?d0 ?i0 ?w0] =>
      destruct (cacheHit_run e r0 d0 i0 w0) as (tr & -> & _ & _ & Hgen)
  end.
  eexists _, _, (_ :: _ :: _ :: tr). split; [reflexivity|].
  split; [unfold grow; simpl; by rewrite <- app_assoc|].
  split; [done|]. split; [simpl; by rewrite trim_idem|exact Hgen].
Qed.

(** X6.  An entry that is 300000 ms old or older at the freshness test is
    not served, also when [cleanCache] has kept it (an age of exactly 300000
    ms is not expired for [cleanCache]): when the upsert returns, the LLM is
    called. *)
Theorem stale_entry_is_regenerated (req : Request) (env : Env) (w : World)
    (data : Data.t) (item : CacheItem) (dbError : option error) :
  let key := getCacheKey unicodeLower (Data.productName data) (Data.productFeatures data) in
  method req = js "POST" ->
  (checkRateLimit (now_rateLimit env) (random env) (getClientIP req)
     (rateLimitMap w)).1 = true ->
  validateAndSanitizeInput unicodeLower (body req) = Normal (Valid data) ->
  responseCache w !! key = Some item ->
  300000 <= now_lookup env - timestamp item ->
  upsert_outcome env = Normal dbError ->
  exists (r : Response) (w' : World) (tr : list Event),
    handler unicodeLower req env w = (Normal r, w')
    /\ effects w' = effects w ++ tr
    /\ existsb isGenerate tr = true
    /\ (status r = 200 ->
        exists d : jsstring,
          llm_outcome env = LlmText d /\ json r = [(js "description", trim d)]).
Proof.
  intros key Hm Hc Hv Hk Hage Hdb.
  assert (freshItem env key (responseCache w) = None) as Hf.
  { unfold freshItem.
    destruct (cleanCache _ _ !! key) as [it|] eqn:Hl; [|done].
    apply cleanCache_lookup in Hl as [Hl _]. rewrite Hk in Hl. injection Hl as <-.
    by rewrite (proj2 (Z.ltb_ge _ _)) by (unfold CACHE_TTL; lia). }
  destruct (checkRateLimit _ _ _ _) as [a m] eqn:Hcr. simpl in Hc. subst a.
  rewrite (handler_miss unicodeLower req env w m data Hm Hcr Hv Hf). unfold try_catch.
  match goal with
  | |- context [cacheMiss ?e ?r0 ?d0 ?k0 ?w0] =>
      destruct (cacheMiss_outcome e r0 d0 k0 w0)
        as (c & cache' & tr & -> & Hgen & [(e1 & -> & _)|(d & -> & _ & Hllm & _)])
  end.
  - unfold catchBlock. unfold_eff. step.
    eexists _, _, (_ :: _ :: _ :: tr ++ [_]). split; [reflexivity|].
    split; [unfold grow; simpl; by rewrite <- !app_assoc|].
    split; [|intros [=]]. simpl. by rewrite existsb_app, (Hgen _ Hdb).
  - eexists _, _, (_ :: _ :: _ :: tr). split; [reflexivity|].
    split; [unfold grow; simpl; by rewrite <- !app_assoc|].
    split; [simpl; exact (Hgen _ Hdb)|]. intros _. eauto.
Qed.

Lemma cacheSound_clean (now : Z) (c : gmap jsstring CacheItem) :
  cacheSound c -> cacheSound (cleanCache now c).
Proof.
  intros H k v Hk. apply (H k). by apply cleanCache_lookup in Hk as [Hk _].
Qed.

Lemma cacheSound_insert (c : gmap jsstring CacheItem) (k d : jsstring) (t : Z) :
  trim d <> [] -> cacheSound c -> cacheSound (<[k := mkItem (trim d) t]> c).
Proof.
  intros Hd H k' v. rewrite lookup_insert. case_decide.
  - intros [= <-]. simpl. split; [done|apply trim_idem].
  - apply H.
Qed.

(** X7.  The cache only ever holds descriptions that are trimmed and not
    empty: the handler keeps this, starting from the empty cache of a fresh
    process, and so a 200 never carries an empty description. *)
Theorem cache_stays_sound (req : Request) (env : Env) (w : World) :
  cacheSound (responseCache w) ->
  exists (r : Response) (w' : World),
    handler unicodeLower req env w = (Normal r, w')
    /\ cacheSound (responseCache w')
    /\ (status r = 200 ->
        exists d : jsstring, json r = [(js "description", d)] /\ d <> []).
Proof.
  intros Hs.
  destruct (handler_exits unicodeLower req env w)
    as [Hm|[[Hm Hc]|(Hm & m & Hc & [[err Hv]|[[e Hv]|(data & Hv & [[item Hf]|Hf])]])]].
  - rewrite (handler_not_post unicodeLower req env w Hm).
    eexists _, _. split; [reflexivity|]. split; [done|]. intros [=].
  - rewrite (handler_limited unicodeLower req env w Hm Hc).
    eexists _, _. split; [reflexivity|]. split; [done|]. intros [=].
  - rewrite (handler_invalid unicodeLower req env w m err Hm Hc Hv).
    eexists _, _. split; [reflexivity|]. split; [done|]. intros [=].
  - rewrite (handler_validation_throws unicodeLower req env w m e Hm Hc Hv).
    eexists _, _. split; [reflexivity|]. split; [done|]. intros [=].
  - rewrite (handler_hit unicodeLower req env w m data item Hm Hc Hv Hf).
    match goal with
    | |- context [cacheHit ?e ?r0 ?d0 ?i0 ?w0] =>
        destruct (cacheHit_run e r0 d0 i0 w0) as (tr & -> & _)
    end.
    eexists _, _. split; [reflexivity|]. simpl.
    split; [by apply cacheSound_clean|]. intros _.
    unfold freshItem in Hf.
    destruct (cleanCache _ _ !! _) as [it|] eqn:Hl; [|done].
    destruct (_ <? _); [|done]. injection Hf as ->.
    apply (cacheSound_clean (now_cleanCache env)) in Hs.
    destruct (Hs _ _ Hl) as [Hne Htrim]. rewrite Htrim. eauto.
  - rewrite (handler_miss unicodeLower req env w m data Hm Hc Hv Hf). unfold try_catch.
    match goal with
    | |- context [cacheMiss ?e ?r0 ?d0 ?k0 ?w0] =>
        destruct (cacheMiss_outcome e r0 d0 k0 w0)
          as (c & cache' & tr & -> & _ & [(e1 & -> & -> & _)|(d & -> & Hd & _ & ->)])
    end.
    + unfold catchBlock. unfold_eff. step.
      eexists _, _. split; [reflexivity|]. simpl.
      split; [by apply cacheSound_clean|]. intros [=].
    + eexists _, _. split; [reflexivity|]. simpl.
      split; [by apply cacheSound_insert, cacheSound_clean|]. eauto.
Qed.

(** ** The rate limiter *)

Lemma sweep_fresh (now : Z) (l : list Z) :
  sweep now (List.filter (inWindow now) l ++ [now])
  = Some (List.filter (inWindow now) l ++ [now]).
Proof.
  unfold sweep. rewrite List.filter_app, (filter_inWindow_later now now) by lia. simpl.
  replace (inWindow now now) with true by (symmetry; apply inWindow_spec; lia).
  by destruct (List.filter (inWindow now) l).
Qed.

Lemma checkRateLimit_tidy (now : Z) (random : float) (ip : jsstring)
    (m : gmap jsstring (list Z)) :
  limiterTidy m -> limiterTidy (checkRateLimit now random ip m).2.
Proof.
  intros Ht. unfold checkRateLimit, RATE_LIMIT_MAX_REQUESTS.
  destruct (Z.geb_spec (Z.of_nat (length (List.filter (inWindow now) (default [] (m !! ip))))) 5)
    as [Hge|Hlt]; [done|].
  assert (forall l : list Z, (length (List.filter (inWindow now) l) <= length l)%nat) as Hfl
    by (intros l; apply List.filter_length_le).
  destruct (PrimFloat.ltb random onePercent); simpl.
  - intros k l. rewrite lookup_omap, lookup_insert. case_decide as Hk; simpl.
    + rewrite sweep_fresh. intros [= <-].
      split; [by destruct (List.filter _ _)|]. rewrite length_app. simpl. lia.
    + destruct (m !! k) as [l0|] eqn:Hl0; simpl; [|done].
      unfold sweep. destruct (List.filter _ l0) as [|t l'] eqn:E; simpl; [done|].
      intros [= <-]. split; [done|]. rewrite <- E.
      etransitivity; [apply Hfl|]. by apply (Ht k).
  - intros k l. rewrite lookup_insert. case_decide as Hk.
    + intros [= <-]. split; [by destruct (List.filter _ _)|].
      rewrite length_app. simpl. lia.
    + apply Ht.
Qed.

(** X8.  The limiter never stores an empty window and never more than five
    timestamps for an IP: the handler keeps this, starting from the empty
    map of a fresh process, whatever the request and the environment. *)
Theorem limiter_stays_tidy (req : Request) (env : Env) (w : World) :
  limiterTidy (rateLimitMap w) ->
  limiterTidy (rateLimitMap (handler unicodeLower req env w).2).
Proof.
  intros Ht.
  destruct (handler_run unicodeLower req env w) as (r & cache' & tr & -> & _).
  simpl. destruct (bool_decide _); [|done]. by apply checkRateLimit_tidy.
Qed.

(** X9.  When [Math.random()] is below 0.01 in an admitted call, the sweep
    leaves no timestamp that is 60 seconds old or older and no IP without a
    timestamp, for every IP of the map and not only for the caller's. *)
Theorem sweep_removes_expired (now : Z) (random : float) (ip : jsstring)
    (m : gmap jsstring (list Z)) (k : jsstring) (l : list Z) :
  PrimFloat.ltb random onePercent = true ->
  (checkRateLimit now random ip m).1 = true ->
  (checkRateLimit now random ip m).2 !! k = Some l ->
  l <> [] /\ Forall (fun t => now - t < 60000) l.
Proof.
  unfold checkRateLimit. intros Hr. rewrite Hr.
  destruct (_ >=? _); [done|]. simpl. intros _.
  rewrite lookup_omap. destruct (_ !! k) as [l0|]; simpl; [|done].
  unfold sweep. destruct (List.filter _ l0) as [|t l'] eqn:E; simpl; [done|].
  intros [= <-]. split; [done|]. rewrite <- E.
  apply Forall_forall. intros x Hx. apply list_elem_of_In, filter_In in Hx as [_ Hx].
  by apply inWindow_spec.
Qed.

(** X10.  The sweep is invisible, and an IP is limited on its own: whatever
    [Math.random()] returned in a call, any later reader (a clock that has
    not run backwards) sees the same window for every IP; and for any IP
    other than the caller's, it sees the window it would have seen before the
    call. *)
Theorem sweep_is_invisible (now now' : Z) (r1 r2 : float) (ip ip' : jsstring)
    (m : gmap jsstring (list Z)) :
  now <= now' ->
  (checkRateLimit now r1 ip m).1 = (checkRateLimit now r2 ip m).1
  /\ window now' (checkRateLimit now r1 ip m).2 ip'
     = window now' (checkRateLimit now r2 ip m).2 ip'
  /\ (ip <> ip' -> window now' (checkRateLimit now r1 ip m).2 ip' = window now' m ip').
Proof.
  intros Hle.
  assert ((checkRateLimit now r1 ip m).1 = (checkRateLimit now r2 ip m).1) as H1.
  { unfold checkRateLimit. destruct (_ >=? _); [done|].
    by destruct (PrimFloat.ltb r1 _), (PrimFloat.ltb r2 _). }
  split; [exact H1|]. split; [|intros Hne; by apply checkRateLimit_other].
  destruct (decide (ip = ip')) as [<-|Hne].
  - destruct ((checkRateLimit now r1 ip m).1) eqn:Ha.
    + unfold window. rewrite !checkRateLimit_admit by congruence. done.
    + rewrite !checkRateLimit_rejected by congruence. done.
  - by rewrite !checkRateLimit_other.
Qed.

End Properties.

(** X2, at a body that validation rejects. *)
Lemma early_exits_are_free_witness :
  responseCache (handler noUnicode (post (Body.mk JUndefined JNull (JStr (js "x")))) envOk warm).2
  = responseCache warm.
Proof.
  apply (early_exits_are_free noUnicode
           (post (Body.mk JUndefined JNull (JStr (js "x")))) envOk warm
           (mkResponse 400
              (securityHeaders ++ [(js "X-Request-ID", js "req_1000_k3j9x2a1b")])
              [(js "error", js "Invalid email address format")])
           (handler noUnicode (post (Body.mk JUndefined JNull (JStr (js "x")))) envOk warm).2).
  - vm_compute. reflexivity.
  - left. reflexivity.
Defined.

(** X3, at a second request for the mug when the database is down. *)
Lemma cache_hit_sends_no_follow_up_witness :
  exists (r : Response) (w' : World) (tr : list Event),
    handler noUnicode (post mugBody) envLater warm = (Normal r, w')
    /\ effects w' = effects warm ++ tr
    /\ status r = 200
    /\ upserts tr = [(js "ann@shop.io", js "Mugb")]
    /\ calls tr = [CUpsert]
    /\ mails tr = []
    /\ responseCache w' = cleanCache 121001 (responseCache warm).
Proof.
  apply (cache_hit_sends_no_follow_up noUnicode (post mugBody) envLater warm mugData cachedMug).
  - reflexivity.
  - vm_compute. reflexivity.
  - vm_compute. reflexivity.
  - vm_compute. reflexivity.
Defined.

(** X4, at a first request for the mug when the email provider is down. *)
Lemma miss_stores_description_witness :
  exists (r : Response) (w' : World),
    handler noUnicode (post mugBody) envMailDown fresh = (Normal r, w')
    /\ status r = 200
    /\ json r = [(js "description", js "A fine mug.")]
    /\ responseCache w' !! mugKey = Some (mkItem (js "A fine mug.") 1003).
Proof.
  apply (miss_stores_description noUnicode (post mugBody) envMailDown fresh mugData None
           (js " A fine mug. ")).
  - reflexivity.
  - vm_compute. reflexivity.
  - vm_compute. reflexivity.
  - vm_compute. reflexivity.
  - reflexivity.
  - reflexivity.
  - vm_compute. discriminate.
Defined.

(** X5, at two requests for the mug two minutes apart. *)
Lemma second_request_is_served_from_cache_witness :
  exists (r2 : Response) (w2 : World) (tr : list Event),
    handler noUnicode (post mugBody) envLater
      (handler noUnicode (post mugBody) envOk fresh).2 = (Normal r2, w2)
    /\ effects w2 = effects (handler noUnicode (post mugBody) envOk fresh).2 ++ tr
    /\ status r2 = 200
    /\ json r2 = [(js "description", js "A fine mug.")]
    /\ existsb isGenerate tr = false.
Proof.
  apply (second_request_is_served_from_cache noUnicode (post mugBody) (post mugBody)
           envOk envLater fresh mugData mugData None (js " A fine mug. ")).
  - reflexivity.
  - vm_compute. reflexivity.
  - vm_compute. reflexivity.
  - vm_compute. reflexivity.
  - reflexivity.
  - reflexivity.
  - vm_compute. discriminate.
  - reflexivity.
  - vm_compute. reflexivity.
  - vm_compute. reflexivity.
  - vm_compute. reflexivity.
  - simpl. lia.
  - simpl. lia.
Defined.

(** X6, at a request exactly 300000 ms after the mug was cached. *)
Lemma stale_entry_is_regenerated_witness :
  exists (r : Response) (w' : World) (tr : list Event),
    handler noUnicode (post mugBody) envStale warm = (Normal r, w')
    /\ effects w' = effects warm ++ tr
    /\ existsb isGenerate tr = true
    /\ (status r = 200 ->
        exists d : jsstring,
          llm_outcome envStale = LlmText d /\ json r = [(js "description", trim d)]).
Proof.
  apply (stale_entry_is_regenerated noUnicode (post mugBody) envStale warm mugData
           cachedMug None).
  - reflexivity.
  - vm_compute. reflexivity.
  - vm_compute. reflexivity.
  - vm_compute. reflexivity.
  - simpl. lia.
  - reflexivity.
Defined.

(** X7, at a fresh process. *)
Lemma cache_stays_sound_witness :
  exists (r : Response) (w' : World),
    handler noUnicode (post mugBody) envOk fresh = (Normal r, w')
    /\ cacheSound (responseCache w')
    /\ (status r = 200 ->
        exists d : jsstring, json r = [(js "description", d)] /\ d <> []).
Proof.
  apply (cache_stays_sound noUnicode (post mugBody) envOk fresh).
  intros k v H. simpl in H. by rewrite lookup_empty in H.
Defined.

(** X8, at a fresh process. *)
Lemma limiter_stays_tidy_witness :
  limiterTidy (rateLimitMap (handler noUnicode (post mugBody) envOk fresh).2).
Proof.
  apply (limiter_stays_tidy noUnicode (post mugBody) envOk fresh).
  intros k l H. simpl in H. by rewrite lookup_empty in H.
Defined.

(** X9, at a sweep at 61500 over two IPs, one of them with no timestamp
    left. *)
Lemma sweep_removes_expired_witness :
  [2000; 61500] <> [] /\ Forall (fun t => 61500 - t < 60000) [2000; 61500].
Proof.
  apply (sweep_removes_expired 61500 0%float (js "1.2.3.4") staleMap (js "1.2.3.4")).
  - vm_compute. reflexivity.
  - vm_compute. reflexivity.
  - vm_compute. reflexivity.
Defined.

(** X10, at the same sweep and a call without one. *)
Lemma sweep_is_invisible_witness :
  window 61501 (checkRateLimit 61500 0%float (js "1.2.3.4") staleMap).2 (js "9.9.9.9")
  = window 61501 (checkRateLimit 61500 0.5%float (js "1.2.3.4") staleMap).2 (js "9.9.9.9").
Proof.
  refine (proj1 (proj2 (sweep_is_invisible 61500 61501 0%float 0.5%float (js "1.2.3.4")
                          (js "9.9.9.9") staleMap _))).
  lia.
Defined.

(** ** Validation, the client IP and the cache key *)

(** [sanitizeText] is idempotent: sanitizing a sanitized text changes
    nothing. *)
Lemma sanitizeText_idempotent (s : jsstring) :
  sanitizeText (sanitizeText s) = sanitizeText s.
Proof.
  pose proof (sanitizeText_clean s) as Hc.
  assert (forall P : N -> bool, (forall c, forbidden c = false -> P c = false) ->
            removeAll P (sanitizeText s) = sanitizeText s) as Hrm.
  { intros P HP. apply removeAll_clean. rewrite forallb_forall in *.
    intros c Hin. specialize (Hc c Hin). rewrite HP; [done|].
    by destruct (forbidden c). }
  unfold sanitizeText at 1.
  rewrite (Hrm isControl), (Hrm isAngle).
  - unfold sanitizeText. apply trim_idem.
  - intros c. unfold forbidden. by destruct (isControl c), (isAngle c).
  - intros c. unfold forbidden. by destruct (isControl c), (isAngle c).
Qed.

Lemma lowerASCII_not_upper (c : N) :
  emailChar c = true -> isUpper (lowerASCII c) = false.
Proof.
  intros H.
  assert (forallb (fun n => implb (emailChar n) (negb (isUpper (lowerASCII n))))
            (map N.of_nat (seq 0 128)) = true) as Hall by (vm_compute; reflexivity).
  rewrite forallb_forall in Hall.
  specialize (Hall c (below_128 c (emailChar_ascii c H))).
  rewrite H in Hall. simpl in Hall. by destruct (isUpper (lowerASCII c)).
Qed.

Lemma lowered_email_is_lower (unicodeLower : jsstring -> jsstring) (s : jsstring) :
  re_test emailRegex s = true ->
  toLowerCase unicodeLower (map lowerASCII s) = map lowerASCII s.
Proof.
  intros Hre.
  pose proof (re_test_over emailChar _ _ emailRegex_over Hre) as Hall.
  rewrite forallb_forall in Hall. unfold toLowerCase.
  assert (forallb isASCII (map lowerASCII s) = true) as ->.
  { apply forallb_forall. intros c (c0 & <- & Hc0)%in_map_iff.
    apply Hall, emailChar_safe in Hc0 as [_ Hc0].
    unfold safeChar in Hc0. by repeat apply andb_prop in Hc0 as [Hc0 _]. }
  rewrite map_map. apply map_ext_in. intros c Hc.
  pose proof (lowerASCII_not_upper c (Hall c Hc)) as Hl.
  unfold lowerASCII at 1. by rewrite Hl.
Qed.

Lemma remove_forbidden (s : jsstring) :
  forallb forbidden s = true -> removeAll isAngle (removeAll isControl s) = [].
Proof.
  unfold removeAll, forbidden. induction s as [|c s IH]; simpl; [done|].
  intros [Hc Hs]%andb_prop. destruct (isControl c); simpl; [by apply IH|].
  simpl in Hc. rewrite Hc. simpl. by apply IH.
Qed.

Lemma beforeFirst_no_sep (sep : N) (h : jsstring) : ~ In sep (beforeFirst sep h).
Proof.
  induction h as [|a h IH]; simpl; [tauto|].
  destruct (N.eqb_spec a sep) as [->|Hne]; simpl; [tauto|].
  intros [H|H]; [congruence|tauto].
Qed.

(** X11.  The client IP is never empty, and it is the first hop of
    x-forwarded-for whenever that is not empty, whatever x-real-ip and the
    address of the connection are; it then holds no comma. *)
Theorem client_ip_is_first_hop (req : Request) :
  getClientIP req <> []
  /\ (forall h : jsstring,
        x_forwarded_for req = Some h ->
        beforeFirst (code ",") h <> [] ->
        getClientIP req = beforeFirst (code ",") h
        /\ ~ In (code ",") (getClientIP req))
  /\ (truthyStr (beforeFirst (code ",") <$> x_forwarded_for req) = false ->
      truthyStr (x_real_ip req) = false ->
      truthyStr (remoteAddress req) = false ->
      getClientIP req = js "unknown").
Proof.
  unfold getClientIP. split_and!.
  - destruct (x_forwarded_for req) as [h|]; simpl;
      [destruct (beforeFirst _ h); [|done]|];
      (destruct (x_real_ip req) as [[|? ?]|]; simpl; [|done|]);
      by destruct (remoteAddress req) as [[|? ?]|].
  - intros h -> Hh. simpl. destruct (beforeFirst _ h) as [|c s] eqn:E; [done|].
    split; [done|]. rewrite <- E. apply beforeFirst_no_sep.
  - destruct (x_forwarded_for req) as [h|]; simpl;
      [destruct (beforeFirst _ h); [|done]|];
      (destruct (x_real_ip req) as [[|? ?]|]; simpl; try done);
      by destruct (remoteAddress req) as [[|? ?]|].
Qed.

Section InputProperties.
Variable unicodeLower : jsstring -> jsstring.

(** X12.  The email that validation returns is made of ASCII characters
    only, none of them white space (so no CR or LF), a control character,
    ['<'], ['>'] or an upper-case letter; sanitizing or lower-casing it again
    changes nothing. *)
Theorem validated_email_is_plain (data : Body.t) (d : Data.t) :
  validateAndSanitizeInput unicodeLower (Object data) = Normal (Valid d) ->
  forallb safeChar (Data.email d) = true
  /\ forallb (fun c => negb (isUpper c)) (Data.email d) = true
  /\ sanitizeText (Data.email d) = Data.email d
  /\ toLowerCase unicodeLower (Data.email d) = Data.email d.
Proof.
  intros H. destruct (validate_accepts unicodeLower data d H)
    as (pn & pf & em & _ & _ & _ & Hre & _ & _ & ->).
  pose proof (re_test_over emailChar _ _ emailRegex_over Hre) as Hall.
  rewrite forallb_forall in Hall.
  assert (forallb safeChar (map lowerASCII (trim em)) = true) as Hsafe.
  { apply forallb_forall. intros c (c0 & <- & Hc0)%in_map_iff.
    by apply Hall, emailChar_safe in Hc0 as [_ Hc0]. }
  assert (forallb (fun c => negb (isUpper c)) (map lowerASCII (trim em)) = true) as Hlow.
  { apply forallb_forall. intros c (c0 & <- & Hc0)%in_map_iff.
    by rewrite (lowerASCII_not_upper c0 (Hall c0 Hc0)). }
  split_and!; try done.
  - by apply safe_sanitize.
  - unfold toLowerCase.
    assert (forallb isASCII (map lowerASCII (trim em)) = true) as ->.
    { rewrite forallb_forall in *. intros c Hc. specialize (Hsafe c Hc).
      unfold safeChar in Hsafe. by repeat apply andb_prop in Hsafe as [Hsafe _]. }
    rewrite <- (map_id (map lowerASCII (trim em))) at 2.
    apply map_ext_in. intros c Hc. rewrite forallb_forall in Hlow.
    specialize (Hlow c Hc). unfold lowerASCII at 1. by destruct (isUpper c).
Qed.

(** X13.  The emptiness test precedes the sanitization, so validation can
    accept an input and return an empty product name: it does whenever the
    trimmed name is not empty and its first 100 code units are all ['<'],
    ['>'] or control characters. *)
Theorem accepted_name_can_be_empty (productName productFeatures email : jsstring) :
  trim productName <> [] ->
  forallb forbidden (slice0 100 (trim productName)) = true ->
  trim productFeatures <> [] ->
  re_test emailRegex (trim email) = true ->
  exists d : Data.t,
    validateAndSanitizeInput unicodeLower
      (Object (textBody productName productFeatures email)) = Normal (Valid d)
    /\ Data.productName d = [].
Proof.
  intros Hp Hforb Hf Hre. unfold validateAndSanitizeInput, textBody.
  cbn [Body.productName Body.productFeatures Body.email truthy].
  assert (email <> []) as He by (intros ->; discriminate Hre).
  rewrite bool_decide_eq_false_2 by done. cbn [negb]. rewrite Hre. cbn [negb].
  destruct productName as [|c1 p1]; [done|]. destruct productFeatures as [|c2 f1]; [done|].
  assert (forall (s : jsstring) (k : nat),
            s <> [] -> (jslength (slice0 (S k) s) =? 0) = false)
    as Hlen by (intros [|? ?] k Hs; [done|reflexivity]).
  rewrite !Hlen by done.
  eexists. split; [reflexivity|]. cbn [Data.productName]. unfold sanitizeText.
  by rewrite remove_forbidden.
Qed.

End InputProperties.

(** X12, at the body of the mug. *)
Lemma validated_email_is_plain_witness :
  forallb safeChar (js "ann@shop.io") = true
  /\ forallb (fun c => negb (isUpper c)) (js "ann@shop.io") = true
  /\ sanitizeText (js "ann@shop.io") = js "ann@shop.io"
  /\ toLowerCase noUnicode (js "ann@shop.io") = js "ann@shop.io".
Proof.
  apply (validated_email_is_plain noUnicode mugBody mugData).
  vm_compute. reflexivity.
Defined.

(** X13, at a product name of two angle brackets. *)
Lemma accepted_name_can_be_empty_witness :
  exists d : Data.t,
    validateAndSanitizeInput noUnicode (Object tagBody) = Normal (Valid d)
    /\ Data.productName d = [].
Proof.
  apply (accepted_name_can_be_empty noUnicode (js "<>") (js "Blue, 300ml") (js "ann@shop.io")).
  - vm_compute. discriminate.
  - vm_compute. reflexivity.
  - vm_compute. discriminate.
  - vm_compute. reflexivity.
Defined.

(** X11, at a request through two proxies. *)
Lemma client_ip_is_first_hop_witness :
  getClientIP (post mugBody) = js "1.2.3.4" /\ ~ In (code ",") (getClientIP (post mugBody)).
Proof.
  apply (proj1 (proj2 (client_ip_is_first_hop (post mugBody))) (js "1.2.3.4, 10.0.0.1")).
  - reflexivity.
  - vm_compute. discriminate.
Defined.

(** ** The cache key *)

Lemma plain_lower (s : jsstring) : plain s = true -> plain (map lowerASCII s) = true.
Proof.
  unfold plain. rewrite !forallb_forall. intros H c (c0 & <- & Hc0)%in_map_iff.
  specialize (H c0 Hc0). apply andb_prop in H as [Ha Hw].
  assert (forallb (fun n => implb (negb (isWhiteSpace n))
                              (isASCII (lowerASCII n) && negb (isWhiteSpace (lowerASCII n))))
            (map N.of_nat (seq 0 128)) = true) as Hall by (vm_compute; reflexivity).
  rewrite forallb_forall in Hall.
  assert (c0 < 128)%N as Hlt by (unfold isASCII in Ha; apply N.leb_le in Ha; lia).
  specialize (Hall c0 (below_128 c0 Hlt)). rewrite Hw in Hall. exact Hall.
Qed.

Lemma plain_ascii (s : jsstring) : plain s = true -> forallb isASCII s = true.
Proof.
  unfold plain. rewrite !forallb_forall. intros H c Hc.
  specialize (H c Hc). by apply andb_prop in H as [H _].
Qed.

Lemma plain_no_space (s : jsstring) :
  plain s = true -> forallb (fun c => negb (isWhiteSpace c)) s = true.
Proof.
  unfold plain. rewrite !forallb_forall. intros H c Hc.
  specialize (H c Hc). by apply andb_prop in H as [_ H].
Qed.

Lemma trimEnd_plain_app (s t : jsstring) :
  plain s = true -> trimEnd (s ++ t) = s ++ trimEnd t.
Proof.
  induction s as [|c s IH]; simpl; [done|].
  intros [Hc Hs]%andb_prop. apply andb_prop in Hc as [_ Hc].
  rewrite trimEnd_cons by by destruct (isWhiteSpace c). by rewrite IH.
Qed.

Lemma trim_plain_app (c : N) (s t : jsstring) :
  plain (c :: s) = true -> trim ((c :: s) ++ t) = (c :: s) ++ trimEnd t.
Proof.
  intros H. unfold trim. rewrite <- (trimEnd_plain_app (c :: s) t H). f_equal.
  simpl in *. apply andb_prop in H as [H _]. apply andb_prop in H as [_ H].
  by destruct (isWhiteSpace c).
Qed.

Section KeyProperties.
Variable unicodeLower : jsstring -> jsstring.

(** The key of a name and of features that are ASCII without white space. *)
Lemma key_of_plain (name features : jsstring) :
  plain name = true -> plain features = true ->
  getCacheKey unicodeLower name features
  = map lowerASCII name ++ js ":" ++ slice0 200 (map lowerASCII features).
Proof.
  intros Hn Hf. unfold getCacheKey, toLowerCase.
  rewrite (plain_ascii _ Hn), (plain_ascii _ Hf).
  by rewrite !trim_clean by by apply plain_no_space, plain_lower.
Qed.

(** X14.  Only the first 200 code units of the lower-cased, trimmed features
    enter the cache key: two ASCII feature texts that share a first part of
    at least 200 code units without white space have the same key, whatever
    follows it. *)
Theorem cache_key_ignores_features_past_200 (name f rest rest' : jsstring) :
  plain f = true ->
  (200 <= length f)%nat ->
  forallb isASCII rest = true ->
  forallb isASCII rest' = true ->
  getCacheKey unicodeLower name (f ++ rest) = getCacheKey unicodeLower name (f ++ rest').
Proof.
  intros Hf Hlen Hr Hr'.
  assert (forall r : jsstring,
            forallb isASCII r = true ->
            slice0 200 (trim (toLowerCase unicodeLower (f ++ r)))
            = slice0 200 (map lowerASCII f)) as Hkey.
  { intros r Hascii. unfold toLowerCase.
    rewrite forallb_app, (plain_ascii _ Hf), Hascii. cbn [andb]. rewrite map_app.
    pose proof (plain_lower f Hf) as Hl.
    destruct (map lowerASCII f) as [|c s] eqn:E.
    { apply (f_equal (@length N)) in E. rewrite length_map in E. simpl in E. lia. }
    rewrite (trim_plain_app c s _ Hl). unfold slice0. rewrite firstn_app.
    assert (length (c :: s) = length f) as Hls by (by rewrite <- E, length_map).
    replace (200 - length (c :: s))%nat with 0%nat by lia.
    by rewrite firstn_O, app_nil_r. }
  unfold getCacheKey. cbv zeta. by rewrite (Hkey rest Hr), (Hkey rest' Hr').
Qed.

(** X15.  The key joins name and features with a colon and escapes nothing,
    so moving a colon-separated part from the end of the name to the front of
    the features leaves the key unchanged: two different products share one
    cache entry. *)
Theorem cache_key_is_ambiguous_at_colon (a b f : jsstring) :
  plain a = true -> plain b = true -> plain f = true ->
  (length b + 1 + length f <= 200)%nat ->
  getCacheKey unicodeLower (a ++ js ":" ++ b) f
  = getCacheKey unicodeLower a (b ++ js ":" ++ f).
Proof.
  intros Ha Hb Hf Hlen.
  assert (plain (js ":") = true) as Hc by reflexivity.
  assert (forall x y : jsstring, plain x = true -> plain y = true -> plain (x ++ y) = true)
    as Happ by (intros x y Hx Hy; unfold plain in *; by rewrite forallb_app, Hx, Hy).
  rewrite !key_of_plain by auto.
  rewrite !map_app. change (map lowerASCII (js ":")) with (js ":").
  unfold slice0. rewrite !firstn_all2.
  - by rewrite <- !app_assoc.
  - rewrite !length_app, !length_map. change (length (js ":")) with 1%nat. lia.
  - rewrite length_map. lia.
Qed.

Lemma clean_email (s : jsstring) :
  re_test emailRegex s = true ->
  sanitizeText (toLowerCase unicodeLower s) = map lowerASCII s.
Proof.
  intros Hre.
  pose proof (re_test_over emailChar _ _ emailRegex_over Hre) as Hall.
  assert (forallb isASCII s = true) as Hascii.
  { rewrite forallb_forall in *. intros c Hc. apply Hall, emailChar_safe in Hc as [Hc _].
    unfold safeChar in Hc. by repeat apply andb_prop in Hc as [Hc _]. }
  unfold toLowerCase. rewrite Hascii. apply safe_sanitize.
  rewrite forallb_forall in *. intros c (c0 & <- & Hc0)%in_map_iff.
  by apply Hall, emailChar_safe in Hc0 as [_ Hc0].
Qed.

(** X16.  A body of three strings is accepted exactly when the trimmed email
    matches the pattern and neither the trimmed name nor the trimmed features
    are empty; the data returned are then the sanitized first 100 and 2000
    code units of the trimmed name and features and the trimmed email in
    lower case.  Such a body never makes the validation throw. *)
Theorem validation_accepts_exactly (productName productFeatures email : jsstring)
    (d : Data.t) :
  (validateAndSanitizeInput unicodeLower
     (Object (textBody productName productFeatures email)) = Normal (Valid d)
   <-> re_test emailRegex (trim email) = true
       /\ trim productName <> []
       /\ trim productFeatures <> []
       /\ d = Data.mk (sanitizeText (slice0 100 (trim productName)))
                (sanitizeText (slice0 2000 (trim productFeatures)))
                (map lowerASCII (trim email)))
  /\ exists v : Validation,
       validateAndSanitizeInput unicodeLower
         (Object (textBody productName productFeatures email)) = Normal v.
Proof.
  assert (forall (s : jsstring) (k : nat),
            (jslength (slice0 (S k) s) =? 0) = bool_decide (s = []))
    as Hlen by (intros [|? ?] k; reflexivity).
  unfold validateAndSanitizeInput, textBody.
  cbn [Body.productName Body.productFeatures Body.email truthy].
  destruct email as [|e0 e]; [split; [split; [done|by intros [? _]]|eauto]|].
  rewrite bool_decide_eq_false_2 by done. cbn [negb].
  destruct (re_test emailRegex (trim (e0 :: e))) eqn:Hre; cbn [negb];
    [|split; [split; [done|by intros [? _]]|eauto]].
  destruct productName as [|c1 p1]; [split; [split; [done|by intros (_ & ? & _)]|eauto]|].
  destruct productFeatures as [|c2 f1];
    [split; [split; [done|by intros (_ & _ & ? & _)]|eauto]|].
  rewrite !Hlen.
  destruct (decide (trim (c1 :: p1) = [])) as [E1|E1];
    [rewrite bool_decide_eq_true_2 by done;
     split; [split; [done|by intros (_ & ? & _)]|eauto]|].
  rewrite (bool_decide_eq_false_2 _ E1).
  destruct (decide (trim (c2 :: f1) = [])) as [E2|E2];
    [rewrite bool_decide_eq_true_2 by done;
     split; [split; [done|by intros (_ & _ & ? & _)]|eauto]|].
  rewrite (bool_decide_eq_false_2 _ E2).
  rewrite (clean_email _ Hre).
  split; [|eauto]. split.
  - intros [= <-]. done.
  - intros (_ & _ & _ & ->). done.
Qed.

(** X17.  What validation returns for the product is bounded and clean: the
    name has at most 100 code units and the features at most 2000, neither
    holds ['<'], ['>'] or an ASCII control character, and sanitizing either
    again changes nothing. *)
Theorem accepted_text_is_bounded_and_clean (data : Body.t) (d : Data.t) :
  validateAndSanitizeInput unicodeLower (Object data) = Normal (Valid d) ->
  (length (Data.productName d) <= 100)%nat
  /\ (length (Data.productFeatures d) <= 2000)%nat
  /\ forallb (fun c => negb (forbidden c)) (Data.productName d) = true
  /\ forallb (fun c => negb (forbidden c)) (Data.productFeatures d) = true
  /\ sanitizeText (Data.productName d) = Data.productName d
  /\ sanitizeText (Data.productFeatures d) = Data.productFeatures d.
Proof.
  intros H. destruct (validate_accepts unicodeLower data d H)
    as (pn & pf & em & _ & _ & _ & _ & -> & -> & _).
  split_and!; try apply sanitizeText_clean; try apply sanitizeText_idempotent.
  - etransitivity; [apply sanitizeText_length|]. unfold slice0. rewrite length_firstn. lia.
  - etransitivity; [apply sanitizeText_length|]. unfold slice0. rewrite length_firstn. lia.
Qed.

End KeyProperties.

(** X14, at a text of 200 letters followed by two different endings. *)
Lemma cache_key_ignores_features_past_200_witness :
  getCacheKey noUnicode (js "Mug") (repeat (code "a") 200 ++ js " blue")
  = getCacheKey noUnicode (js "Mug") (repeat (code "a") 200 ++ js " red").
Proof.
  apply (cache_key_ignores_features_past_200 noUnicode (js "Mug")
           (repeat (code "a") 200) (js " blue") (js " red")).
  - vm_compute. reflexivity.
  - rewrite repeat_length. lia.
  - vm_compute. reflexivity.
  - vm_compute. reflexivity.
Defined.

(** X15, at the product "mug:blue" with features "300ml" and the product
    "mug" with features "blue:300ml". *)
Lemma cache_key_is_ambiguous_at_colon_witness :
  getCacheKey noUnicode (js "mug" ++ js ":" ++ js "blue") (js "300ml")
  = getCacheKey noUnicode (js "mug") (js "blue" ++ js ":" ++ js "300ml").
Proof.
  apply (cache_key_is_ambiguous_at_colon noUnicode (js "mug") (js "blue") (js "300ml")).
  - vm_compute. reflexivity.
  - vm_compute. reflexivity.
  - vm_compute. reflexivity.
  - vm_compute. lia.
Defined.

(** X17, at the body of the mug. *)
Lemma accepted_text_is_bounded_and_clean_witness :
  (length (js "Mugb") <= 100)%nat
  /\ (length (js "Blue, 300ml") <= 2000)%nat
  /\ forallb (fun c => negb (forbidden c)) (js "Mugb") = true
  /\ forallb (fun c => negb (forbidden c)) (js "Blue, 300ml") = true
  /\ sanitizeText (js "Mugb") = js "Mugb"
  /\ sanitizeText (js "Blue, 300ml") = js "Blue, 300ml".
Proof.
  apply (accepted_text_is_bounded_and_clean noUnicode mugBody mugData).
  vm_compute. reflexivity.
Defined.

End GenerateMore.

(* ===================================================================== *)
(** * The check of the environment at start-up *)
(* ===================================================================== *)

Module StartupSpec.
Import Startup.

(** X18.  [validateEnvironmentVariables] returns true exactly when each of
    the four required variables is set to a non-empty value, and never
    returns false; otherwise it throws an Error whose message names every
    variable that is missing and none that is set. *)
Theorem startup_check (env : gmap jsstring jsstring) :
  (validateEnvironmentVariables env = Normal true
   <-> forall v : jsstring, In v (map fst requiredVars) -> truthyStr (env !! v) = true)
  /\ (forall b : bool, validateEnvironmentVariables env = Normal b -> b = true)
  /\ (forall e : error,
         validateEnvironmentVariables env = Throw e ->
         name e = js "Error"
         /\ forall v : jsstring,
              In v (map fst requiredVars) ->
              includes (message e) v = negb (truthyStr (env !! v))).
Proof.
  unfold validateEnvironmentVariables, requiredVars.
  cbn [collectMissing map fst In].
  destruct (truthyStr (env !! js "SUPABASE_URL")) eqn:E1,
           (truthyStr (env !! js "SUPABASE_SERVICE_KEY")) eqn:E2,
           (truthyStr (env !! js "RESEND_API_KEY")) eqn:E3,
           (truthyStr (env !! js "GEMINI_API_KEY")) eqn:E4;
    cbn [length Z.of_nat Z.gtb Z.compare Pos.of_succ_nat Pos.succ];
    (split; [|split];
     [ split;
       [ first [ discriminate
               | intros _ v [<-|[<-|[<-|[<-|[]]]]]; assumption ]
       | first [ reflexivity
               | intros H;
                 pose proof (H _ (or_introl eq_refl));
                 pose proof (H _ (or_intror (or_introl eq_refl)));
                 pose proof (H _ (or_intror (or_intror (or_introl eq_refl))));
                 pose proof (H _ (or_intror (or_intror (or_intror (or_introl eq_refl)))));
                 congruence ] ]
     | intros b; first [ discriminate | by intros [= <-] ]
     | intros e;
       first [ discriminate
             | intros [= <-]; split; [reflexivity|];
               intros v [<-|[<-|[<-|[<-|[]]]]];
               rewrite ?E1, ?E2, ?E3, ?E4; vm_compute; reflexivity ] ]).
Qed.

End StartupSpec.

(* ===================================================================== *)
(** * The health check: every answer *)
(* ===================================================================== *)

Module HealthMore.
Import Health FurtherHealth.

(** The answer to a GET, by what is configured and how the ping ends. *)
Lemma handler_get (env : Env) :
  handler (js "GET") env
  = if configured env then
      match ping env with
      | Normal None =>
          mkResponse 200
            (Report (reportOf env (js "ok") (js "ok")
                       (js "Database connection successful")))
      | Normal (Some _) =>
          mkResponse 503
            (Report (reportOf env (js "error") (js "error")
                       (js "Database connection failed")))
      | Throw _ =>
          mkResponse 503
            (Report (reportOf env (js "error") (js "error")
                       (js "Database service unavailable")))
      end
    else
      mkResponse 503
        (Plain [ (js "status", js "error");
                 (js "message", js "Health check failed");
                 (js "error",
                  if bool_decide (NODE_ENV env = Some (js "development"))
                  then js "Cannot read properties of undefined (reading 'includes')"
                  else js "Internal server error") ]).
Proof.
  unfold handler, tryBlock, checkServices, externalServices, checkDatabase,
    configured, reportOf.
  destruct (truthyStr (SUPABASE_URL env)), (truthyStr (SUPABASE_SERVICE_KEY env)),
    (truthyStr (GEMINI_API_KEY env)), (truthyStr (RESEND_API_KEY env));
    try destruct (ping env) as [[e|]|e]; reflexivity.
Qed.

(** X19.  A GET is answered 200 exactly when the database credentials and
    both API keys are set and the ping resolves without an error; the body is
    then the report with status 'ok' for the check and for each of the three
    services.  Every other GET is answered 503. *)
Theorem health_answers_200_iff (env : Env) :
  (status (handler (js "GET") env) = 200
   <-> configured env = true /\ ping env = Normal None)
  /\ (status (handler (js "GET") env) = 200 ->
      handler (js "GET") env
      = mkResponse 200
          (Report (reportOf env (js "ok") (js "ok")
                     (js "Database connection successful"))))
  /\ (status (handler (js "GET") env) <> 200 ->
      status (handler (js "GET") env) = 503).
Proof.
  rewrite handler_get.
  destruct (configured env); [destruct (ping env) as [[e|]|e]|]; cbn [status];
    split_and!; try split; try done; try (by intros [? ?]).
Qed.

(** X20.  With everything configured, a ping that fails is reported: the
    answer is 503 with the full report, whose status and whose database
    status are 'error' and whose database message is one of two fixed texts,
    according to whether the ping resolved with an error or threw.  Nothing of
    the error itself is in the answer. *)
Theorem health_reports_database_failure (env : Env) :
  configured env = true ->
  (forall e : error,
      ping env = Normal (Some e) ->
      handler (js "GET") env
      = mkResponse 503
          (Report (reportOf env (js "error") (js "error")
                     (js "Database connection failed"))))
  /\ (forall e : error,
        ping env = Throw e ->
        handler (js "GET") env
        = mkResponse 503
            (Report (reportOf env (js "error") (js "error")
                       (js "Database service unavailable")))).
Proof.
  intros Hc. rewrite handler_get, Hc. split; by intros e ->.
Qed.

(** X21.  As soon as the database credentials or one API key is missing, a
    GET is answered 503 with the body of the outer catch, whatever the ping
    does: a failure of the database is then not reported either. *)
Theorem health_missing_setting_hides_report (env : Env) :
  configured env = false ->
  handler (js "GET") env
  = mkResponse 503
      (Plain [ (js "status", js "error");
               (js "message", js "Health check failed");
               (js "error",
                if bool_decide (NODE_ENV env = Some (js "development"))
                then js "Cannot read properties of undefined (reading 'includes')"
                else js "Internal server error") ]).
Proof.
  intros Hc. by rewrite handler_get, Hc.
Qed.

(** X20, at a database that refuses the connection. *)
Lemma health_reports_database_failure_witness :
  handler (js "GET") dbDown
  = mkResponse 503
      (Report (reportOf dbDown (js "error") (js "error")
                 (js "Database service unavailable"))).
Proof.
  apply (proj2 (health_reports_database_failure dbDown eq_refl)
           (Error (js "connect ECONNREFUSED 10.0.0.5:5432"))).
  reflexivity.
Defined.

(** X21, at a database that refuses the connection while the Resend key is
    missing. *)
Lemma health_missing_setting_hides_report_witness :
  handler (js "GET") dbDownNoMail
  = mkResponse 503
      (Plain [ (js "status", js "error");
               (js "message", js "Health check failed");
               (js "error", js "Internal server error") ]).
Proof.
  apply (health_missing_setting_hides_report dbDownNoMail). reflexivity.
Defined.

End HealthMore.

(* ===================================================================== *)
(** * The unsubscribe handler: every answer *)
(* ===================================================================== *)

Module UnsubscribeMore.
Import Unsubscribe UnsubscribeSamples Further FurtherUnsubscribe UnsubscribeSpec.

Section Properties.
Variable unicodeLower : jsstring -> jsstring.

(** X22.  A GET never throws and answers with an HTML page: 400 when the
    email parameter is absent or falsy, 200 when it is a string that matches
    the pattern, the client is created and the update call returns, and 500
    in every other case (among them a repeated parameter, which arrives as an
    array), and then an 'Unsubscribe error:' line is the last one written to
    the console. *)
Theorem unsubscribe_get_status (req : Request) (env : Env) (console : list Event) :
  method req = js "GET" ->
  exists (r : Response) (tr : list Event),
    handler unicodeLower req env console = (Normal r, console ++ tr)
    /\ status r = expectedStatus (query_email req) 500 env
    /\ (exists page : Page, body r = Html page)
    /\ (status r = 500 ->
        exists e : error, last tr = Some (ConsoleError (js "Unsubscribe error:") e)).
Proof.
  intros Hm. rewrite (get_run unicodeLower req env console Hm). unfold expectedStatus.
  destruct (query_email req) as [email|];
    [|eexists _, []; rewrite app_nil_r; split_and!; [done|done|eauto|done]].
  destruct (truthyReceived email); cbn [negb];
    [|eexists _, []; rewrite app_nil_r; split_and!; [done|done|eauto|done]].
  destruct (re_test emailRegex (toString email)); cbn [negb];
    [destruct email as [s|? ?];
     (destruct (client env) as [[]|e]; [try destruct (update env) as [res|e]|])|];
    cbn [returns isText andb]; eexists _, _; (split_and!; [done|done|eauto|]);
    cbn [status]; try done; intros _; eauto.
Qed.

(** X23.  Whatever the request, the database is asked to mark at most one
    lead, and only one whose email, sent as the parameter of a GET or in the
    body of a POST, matched the pattern; the email it is asked to mark is that
    email in lower case. *)
Theorem update_only_after_match (req : Request) (env : Env) (console : list Event) :
  exists (c : completion Response) (tr : list Event),
    handler unicodeLower req env console = (c, console ++ tr)
    /\ (updates tr = []
        \/ exists email : jsstring,
             (method req = js "GET" /\ query_email req = Some (Text email)
              \/ method req = js "POST" /\ body_email req = Object (Some (Text email)))
             /\ re_test emailRegex email = true
             /\ client env = Normal tt
             /\ updates tr = [toLowerCase unicodeLower email]).
Proof.
  destruct (decide (method req = js "GET")) as [Hm|Hg];
    [|destruct (decide (method req = js "POST")) as [Hm|Hp]].
  - rewrite (get_run unicodeLower req env console Hm).
    destruct (query_email req) as [email|] eqn:Hq;
      [|eexists _, []; rewrite app_nil_r; split; [done|by left]].
    destruct (truthyReceived email);
      [|eexists _, []; rewrite app_nil_r; split; [done|by left]].
    destruct (re_test emailRegex (toString email)) eqn:Hre;
      [|eexists _, _; split; [done|by left]].
    destruct (client env) as [[]|e] eqn:Hc; [|eexists _, _; split; [done|by left]].
    destruct email as [s|? ?]; [|eexists _, _; split; [done|by left]].
    destruct (update env) as [res|e]; eexists _, _; (split; [done|]); right;
      exists s; split_and!; eauto.
    unfold updates. rewrite omap_app. by destruct res.
  - rewrite (post_run unicodeLower req env console Hm).
    destruct (body_email req) as [| |[email|]] eqn:Hq;
      try (eexists _, []; rewrite app_nil_r; split; [done|by left]).
    destruct (truthyReceived email);
      [|eexists _, []; rewrite app_nil_r; split; [done|by left]].
    destruct (re_test emailRegex (toString email)) eqn:Hre;
      [|eexists _, []; rewrite app_nil_r; split; [done|by left]].
    destruct (client env) as [[]|e] eqn:Hc; [|eexists _, _; split; [done|by left]].
    destruct email as [s|? ?]; [|eexists _, _; split; [done|by left]].
    destruct (update env) as [res|e]; eexists _, _; (split; [done|]); right;
      exists s; split_and!; eauto.
  - unfold handler. rewrite !bool_decide_eq_false_2 by done.
    eexists _, []. rewrite app_nil_r. split; [done|by left].
Qed.

(** X24.  A POST whose email matches the pattern is answered 200 with
    [success: true] as soon as the client is created and the update call
    returns, also when the update resolves with an error; unlike after a GET,
    that error is not even written to the console. *)
Theorem unsubscribe_post_hides_update_error (req : Request) (env : Env)
    (console : list Event) (email : jsstring) (result : option error) :
  method req = js "POST" ->
  body_email req = Object (Some (Text email)) ->
  re_test emailRegex email = true ->
  client env = Normal tt ->
  update env = Normal result ->
  handler unicodeLower req env console
  = (Normal (mkResponse 200 (Json [ (js "success", js "true");
                                    (js "message", js "Successfully unsubscribed") ])),
     console ++ [Update (toLowerCase unicodeLower email)]).
Proof.
  intros Hm Hb Hre Hc Hu. rewrite (post_run unicodeLower req env console Hm), Hb.
  destruct email as [|c s]; [discriminate Hre|].
  cbn [truthyReceived toString]. rewrite bool_decide_eq_false_2 by done.
  cbn [negb]. by rewrite Hre, Hc, Hu.
Qed.


(** X26.  The unsubscribe link of a lead.  For the email that the generate
    handler accepts and stores, a GET with that email as its parameter (the
    client is created and the update returns) asks the database to mark
    exactly the stored email when the pattern of the unsubscribe handler
    matches it.  When it does not (the pattern of the generate handler does
    not ask for a dot after the at sign, this one does) the link is answered
    500 and no lead is marked. *)
Theorem unsubscribe_link_of_a_lead (data : Generate.Body.t) (d : Generate.Data.t)
    (env : Env) (console : list Event) (result : option error)
    (b : Payload (option Received)) :
  Generate.validateAndSanitizeInput unicodeLower (Object data)
  = Normal (Generate.Valid d) ->
  client env = Normal tt ->
  update env = Normal result ->
  (re_test emailRegex (Generate.Data.email d) = true ->
   handler unicodeLower (mkRequest (js "GET") (Some (Text (Generate.Data.email d))) b) env console
   = (Normal (mkResponse 200 (Html (SuccessPage (Generate.Data.email d)))),
      console ++ [Update (Generate.Data.email d)] ++ logged result))
  /\ (re_test emailRegex (Generate.Data.email d) = false ->
      handler unicodeLower (mkRequest (js "GET") (Some (Text (Generate.Data.email d))) b) env console
      = (Normal (mkResponse 500 (Html ErrorPage)),
         console ++ [ConsoleError (js "Unsubscribe error:")
                       (Error (js "Invalid email format"))])).
Proof.
  intros Hv Hc Hu.
  destruct (GenerateSpec.validate_accepts unicodeLower data d Hv)
    as (pn & pf & em & _ & _ & _ & Hre & _ & _ & He).
  pose proof (GenerateMore.lowered_email_is_lower unicodeLower _ Hre) as Hlow.
  rewrite <- He in Hlow.
  assert (Generate.Data.email d <> []) as Hne.
  { rewrite He. destruct (trim em); [discriminate Hre|done]. }
  rewrite (get_run unicodeLower (mkRequest (js "GET") (Some (Text (Generate.Data.email d))) b) env console
             eq_refl).
  cbn [query_email truthyReceived toString].
  rewrite bool_decide_eq_false_2 by done. cbn [negb].
  split; intros ->; [|done]. by rewrite Hc, Hu, Hlow.
Qed.

End Properties.

(** X22, at a link with the parameter given twice. *)
Lemma unsubscribe_get_status_witness :
  exists (r : Response) (tr : list Event),
    handler noUnicodeLower getTwice updateOk [] = (Normal r, [] ++ tr)
    /\ status r = 500
    /\ (exists page : Page, body r = Html page)
    /\ (status r = 500 ->
        exists e : error, last tr = Some (ConsoleError (js "Unsubscribe error:") e)).
Proof.
  apply (unsubscribe_get_status noUnicodeLower getTwice updateOk []). reflexivity.
Defined.

(** X24, at an update that the database refuses. *)
Lemma unsubscribe_post_hides_update_error_witness :
  handler noUnicodeLower postAnn updateFails []
  = (Normal (mkResponse 200 (Json [ (js "success", js "true");
                                    (js "message", js "Successfully unsubscribed") ])),
     [Update (js "ann@shop.io")]).
Proof.
  apply (unsubscribe_post_hides_update_error noUnicodeLower postAnn
           updateFails [] (js "Ann@Shop.io")
           (Some (Error (js "permission denied for table leads")))).
  - reflexivity.
  - reflexivity.
  - vm_compute. reflexivity.
  - reflexivity.
  - reflexivity.
Defined.


(** X26, at the lead ann@localhost, which the generate handler accepts. *)
Lemma unsubscribe_link_of_a_lead_witness :
  handler noUnicodeLower getLocal updateOk []
  = (Normal (mkResponse 500 (Html ErrorPage)),
     [ConsoleError (js "Unsubscribe error:") (Error (js "Invalid email format"))]).
Proof.
  apply (proj2 (unsubscribe_link_of_a_lead noUnicodeLower FurtherSamples.localBody
                  (Generate.Data.mk (js "Mug") (js "Blue, 300ml") (js "ann@localhost"))
                  updateOk [] None NoBody
                  ltac:(vm_compute; reflexivity) eq_refl eq_refl)).
  vm_compute. reflexivity.
Defined.

End UnsubscribeMore.
